(** * Student expense tracker: the data layer of the expense screen

    A shallow embedding of the two revisions of the expense screen,
    [src/ExpenseScreen.js] and [src/unnamed/part_000], and the properties of
    the specification that were checked against them.

    The screen is a React component.  Its state hooks become a record, its
    asynchronous handlers become computations in a small state-and-exception
    monad over the component state, the SQLite table, the alerts raised and
    the statements issued.  The JavaScript built-ins the handlers call
    ([parseFloat], [String.prototype.trim], [Date], plain objects used as
    maps) are modelled after ECMA-262; numbers are IEEE 754 binary64 values,
    that is Rocq's primitive [float].

    Parts VII to XII settle the properties of the specification.  Parts XIII
    to XVII go on to what the code shows beyond them: the failures of the
    database, the windows on every date and in every fixed-offset zone, what
    every reachable world keeps, and what the screen renders; the one
    property that rests on the values a plain object inherits is settled in
    Part XVI, with them. *)

From Stdlib Require Import ZArith List String Ascii Bool Lia Floats DecimalString DecimalZ.
From Stdlib Require Import Permutation Sorted.
Import ListNotations.

Set Warnings "-inexact-float".

Local Open Scope string_scope.
Local Open Scope list_scope.
Local Open Scope Z_scope.

(* ================================================================== *)
(** * Part I: the JavaScript built-ins used by the screen             *)
(* ================================================================== *)

Module JS.

(** ** Strings

    A [string] is read as a sequence of UTF-16 code units, each below 256
    (the Latin-1 range). *)

(** WhiteSpace and LineTerminator code points (ECMA-262 12.2, 12.3) below
    256: TAB, LF, VT, FF, CR, SP and NBSP. *)
Definition is_white_space (c : ascii) : bool :=
  let n := N_of_ascii c in
  (n =? 9)%N || (n =? 10)%N || (n =? 11)%N || (n =? 12)%N || (n =? 13)%N
  || (n =? 32)%N || (n =? 160)%N.

(** [TrimString(s, start)]. *)
Fixpoint trimStart (s : string) : string :=
  match s with
  | EmptyString => EmptyString
  | String c r => if is_white_space c then trimStart r else s
  end.

(** [TrimString(s, end)]. *)
Fixpoint trimEnd (s : string) : string :=
  match s with
  | EmptyString => EmptyString
  | String c r =>
      match trimEnd r with
      | EmptyString => if is_white_space c then EmptyString else String c EmptyString
      | t => String c t
      end
  end.

(** [String.prototype.trim]. *)
Definition trim (s : string) : string := trimEnd (trimStart s).

(** [ToBoolean] of a string: only the empty string is falsy. *)
Definition truthy_string (s : string) : bool :=
  match s with EmptyString => false | _ => true end.

(** [String.prototype.padStart(n, "0")]. *)
Definition padStart0 (n : nat) (s : string) : string :=
  String.append (string_of_list_ascii (repeat "0"%char (n - String.length s))) s.

(** [ToString] of an integral number of moderate size (decimal digits,
    with a minus sign below zero). *)
Definition string_of_integer (z : Z) : string :=
  NilEmpty.string_of_int (Z.to_int z).

(** ** Numbers *)

Definition number := float.

Definition NaN : number := PrimFloat.nan.

(** The global [isNaN] on a number. *)
Definition isNaN (x : number) : bool := PrimFloat.is_nan x.

(** [ToBoolean] of a number: [+0], [-0] and [NaN] are falsy. *)
Definition truthy_number (x : number) : bool :=
  negb (PrimFloat.eqb x PrimFloat.zero || PrimFloat.is_nan x).

(** [x || 0] on a number. *)
Definition number_or_zero (x : number) : number :=
  if truthy_number x then x else PrimFloat.zero.

(** The Number value of the mathematical value [m * 10 ^ e], for [m > 0]:
    rounded to the nearest binary64 value, ties to even (ECMA-262 6.1.6.1).
    An integer is rounded by [binary_normalize]; a proper fraction is the
    correctly rounded quotient of two exact integers. *)
Definition number_of_decimal (m : positive) (e : Z) : number :=
  if 0 <=? e
  then SF2Prim (binary_normalize prec emax (Zpos m * 10 ^ e) 0 false)
  else SF2Prim (SFdiv prec emax (S754_finite false m 0)
                      (S754_finite false (Z.to_pos (10 ^ (- e))) 0)).

(** *** [parseFloat] (ECMA-262 19.2.4) *)

Definition digit_of (c : ascii) : option Z :=
  let n := Z.of_N (N_of_ascii c) in
  if (48 <=? n) && (n <=? 57) then Some (n - 48) else None.

(** The longest run of decimal digits at the head of [s], and the rest. *)
Fixpoint take_digits (s : string) : list Z * string :=
  match s with
  | EmptyString => ([], EmptyString)
  | String c r =>
      match digit_of c with
      | Some d => let (ds, rest) := take_digits r in (d :: ds, rest)
      | None => ([], s)
      end
  end.

Definition digits_value (ds : list Z) : Z :=
  fold_left (fun acc d => 10 * acc + d) ds 0.

(** The value of the longest ExponentPart at the head of [s]; [0] when there
    is none (an [e] that no digit follows is not part of the literal). *)
Definition exponent_part (s : string) : Z :=
  match s with
  | String c r =>
      if (c =? "e")%char || (c =? "E")%char then
        let '(neg, r1) :=
          match r with
          | String "+" r' => (false, r')
          | String "-" r' => (true, r')
          | _ => (false, r)
          end in
        match fst (take_digits r1) with
        | [] => 0
        | ds => if neg then - digits_value ds else digits_value ds
        end
      else 0
  | EmptyString => 0
  end.

(** What the longest prefix that is a StrUnsignedDecimalLiteral denotes. *)
Inductive literal : Type :=
| LitInfinity
| LitDecimal (mantissa : Z) (exponent : Z).

Definition unsigned_literal (s : string) : option literal :=
  if String.prefix "Infinity" s then Some LitInfinity
  else
    let (ip, r1) := take_digits s in
    let (fp, r2) :=
      match r1 with
      | String "." r => take_digits r
      | _ => ([], r1)
      end in
    match ip ++ fp with
    | [] => None
    | ds => Some (LitDecimal (digits_value ds)
                             (exponent_part r2 - Z.of_nat (List.length fp)))
    end.

Definition number_of_literal (l : literal) : number :=
  match l with
  | LitInfinity => PrimFloat.infinity
  | LitDecimal m e =>
      match m with
      | Zpos p => number_of_decimal p e
      | _ => PrimFloat.zero
      end
  end.

Definition parseFloat (s : string) : number :=
  let t := trimStart s in
  let '(neg, u) :=
    match t with
    | String "+" r => (false, r)
    | String "-" r => (true, r)
    | _ => (false, t)
    end in
  match unsigned_literal u with
  | None => NaN
  | Some l => if neg then PrimFloat.opp (number_of_literal l) else number_of_literal l
  end.

(** ** Dates (ECMA-262 21.4)

    A time value is a number of milliseconds since 1970-01-01T00:00:00Z, or
    NaN; a [Date] object holds one.  Time values are integral, so they are
    modelled in [Z], with [None] for NaN. *)

Definition msPerDay : Z := 86400000.

Definition Day (t : Z) : Z := t / msPerDay.
Definition TimeWithinDay (t : Z) : Z := t mod msPerDay.

Definition leap_year (y : Z) : bool :=
  ((y mod 4 =? 0) && negb (y mod 100 =? 0)) || (y mod 400 =? 0).

Definition DaysInYear (y : Z) : Z := if leap_year y then 366 else 365.

Definition DayFromYear (y : Z) : Z :=
  365 * (y - 1970) + (y - 1969) / 4 - (y - 1901) / 100 + (y - 1601) / 400.

(** The largest [y] with [DayFromYear y <= Day t]: the mean Gregorian year
    gives an estimate that is off by at most one. *)
Definition YearFromTime (t : Z) : Z :=
  let d := Day t in
  let y := 1970 + (400 * d) / 146097 in
  if d <? DayFromYear y then y - 1
  else if DayFromYear (y + 1) <=? d then y + 1
  else y.

Definition InLeapYear (t : Z) : Z :=
  if leap_year (YearFromTime t) then 1 else 0.

Definition DayWithinYear (t : Z) : Z := Day t - DayFromYear (YearFromTime t).

(** The number of days of the year before month [m] (0 = January). *)
Definition days_before_month (leap : Z) (m : Z) : Z :=
  match m with
  | 0 => 0
  | 1 => 31
  | 2 => 59 + leap
  | 3 => 90 + leap
  | 4 => 120 + leap
  | 5 => 151 + leap
  | 6 => 181 + leap
  | 7 => 212 + leap
  | 8 => 243 + leap
  | 9 => 273 + leap
  | 10 => 304 + leap
  | _ => 334 + leap
  end.

Definition MonthFromTime (t : Z) : Z :=
  let d := DayWithinYear t in
  let l := InLeapYear t in
  if d <? 31 then 0
  else if d <? 59 + l then 1
  else if d <? 90 + l then 2
  else if d <? 120 + l then 3
  else if d <? 151 + l then 4
  else if d <? 181 + l then 5
  else if d <? 212 + l then 6
  else if d <? 243 + l then 7
  else if d <? 273 + l then 8
  else if d <? 304 + l then 9
  else if d <? 334 + l then 10
  else 11.

Definition DateFromTime (t : Z) : Z :=
  DayWithinYear t - days_before_month (InLeapYear t) (MonthFromTime t) + 1.

Definition WeekDay (t : Z) : Z := (Day t + 4) mod 7.

Definition MakeTime (hour min sec ms : Z) : Z :=
  hour * 3600000 + min * 60000 + sec * 1000 + ms.

(** [MakeDay(year, month, date)]: the day number of the first day of the
    month, plus [date - 1]. *)
Definition MakeDay (year month date : Z) : Z :=
  let ym := year + month / 12 in
  let mn := month mod 12 in
  DayFromYear ym + days_before_month (if leap_year ym then 1 else 0) mn + date - 1.

Definition MakeDate (day time : Z) : Z := day * msPerDay + time.

Definition TimeClip (t : Z) : option Z :=
  if Z.abs t <=? 8640000000000000 then Some t else None.

(** What ECMA-262 leaves to the host: the offset of local time (21.4.1.25,
    in milliseconds, for a UTC time value when [isUTC] is true and for a
    local one otherwise), and what [Date.parse] makes of a string that is not
    a date-only form of the Date Time String Format. *)
Record Host : Type := {
  LocalTZA : Z -> bool -> Z;
  other_date_parse : string -> option Z
}.

Section HostDates.

Variable host : Host.

Definition LocalTime (t : Z) : Z := t + LocalTZA host t true.
Definition UTC (t : Z) : Z := t - LocalTZA host t false.

(** A [Date] object, by its time value. *)
Definition Date : Type := option Z.

Definition getFullYear (d : Date) : option Z :=
  option_map (fun t => YearFromTime (LocalTime t)) d.
Definition getMonth (d : Date) : option Z :=
  option_map (fun t => MonthFromTime (LocalTime t)) d.
Definition getDate (d : Date) : option Z :=
  option_map (fun t => DateFromTime (LocalTime t)) d.
Definition getDay (d : Date) : option Z :=
  option_map (fun t => WeekDay (LocalTime t)) d.

(** [Date.prototype.setDate(dt)]. *)
Definition setDate (d : Date) (dt : option Z) : Date :=
  match d, dt with
  | Some tv, Some n =>
      let t := LocalTime tv in
      TimeClip (UTC (MakeDate (MakeDay (YearFromTime t) (MonthFromTime t) n)
                              (TimeWithinDay t)))
  | _, _ => None
  end.

(** [Date.prototype.setHours(hour, min, sec, ms)]. *)
Definition setHours (d : Date) (hour min sec ms : Z) : Date :=
  match d with
  | Some tv =>
      let t := LocalTime tv in
      TimeClip (UTC (MakeDate (Day t) (MakeTime hour min sec ms)))
  | None => None
  end.

End HostDates.

(** Number arithmetic and comparison on values that may be NaN. *)
Definition number_sub (a b : option Z) : option Z :=
  match a, b with Some x, Some y => Some (x - y) | _, _ => None end.
Definition number_add (a b : option Z) : option Z :=
  match a, b with Some x, Some y => Some (x + y) | _, _ => None end.
Definition strict_equal (a b : option Z) : bool :=
  match a, b with Some x, Some y => x =? y | _, _ => false end.
Definition greater_equal (a b : option Z) : bool :=
  match a, b with Some x, Some y => y <=? x | _, _ => false end.
Definition less_equal (a b : option Z) : bool :=
  match a, b with Some x, Some y => x <=? y | _, _ => false end.

(** *** [Date.parse]

    The date-only forms [YYYY], [YYYY-MM] and [YYYY-MM-DD] of the Date Time
    String Format (ECMA-262 21.4.1.32) denote midnight UTC of the first
    instant they name.  Every other string is left to the host. *)

Definition all_digits (s : string) : option (list Z) :=
  match take_digits s with
  | (ds, EmptyString) => Some ds
  | _ => None
  end.

Definition fixed_digits (n : nat) (s : string) : option Z :=
  match all_digits s with
  | Some ds => if Nat.eqb (List.length ds) n then Some (digits_value ds) else None
  | None => None
  end.

Definition days_in_month (y m : Z) : Z :=
  match m with
  | 2 => if leap_year y then 29 else 28
  | 4 | 6 | 9 | 11 => 30
  | _ => 31
  end.

(** Year, month (1 to 12) and day of a date-only form. *)
Definition date_only (s : string) : option (Z * Z * Z) :=
  match fixed_digits 4 (substring 0 4 s) with
  | None => None
  | Some y =>
      if Nat.eqb (String.length s) 4 then Some (y, 1, 1)
      else if negb (String.eqb (substring 4 1 s) "-") then None
      else
        match fixed_digits 2 (substring 5 2 s) with
        | None => None
        | Some m =>
            if negb ((1 <=? m) && (m <=? 12)) then None
            else if Nat.eqb (String.length s) 7 then Some (y, m, 1)
            else if negb (String.eqb (substring 7 1 s) "-") then None
            else
              match fixed_digits 2 (substring 8 2 s) with
              | None => None
              | Some d =>
                  if Nat.eqb (String.length s) 10
                     && (1 <=? d) && (d <=? days_in_month y m)
                  then Some (y, m, d)
                  else None
              end
        end
  end.

Definition Date_parse (host : Host) (s : string) : option Z :=
  match date_only s with
  | Some (y, m, d) => TimeClip (MakeDate (MakeDay y (m - 1) d) 0)
  | None => other_date_parse host s
  end.

(** [new Date(s)] for a string [s]. *)
Definition Date_of_string (host : Host) (s : string) : Date := Date_parse host s.

(** A host whose local time is a fixed offset from UTC and that parses
    nothing beyond the date-only forms. *)
Definition fixed_offset_host (offset_ms : Z) : Host :=
  {| LocalTZA := fun _ _ => offset_ms; other_date_parse := fun _ => None |}.

(** ** Plain objects used as maps

    An object created by [{}] has own properties, kept in the order of their
    creation, and inherits the properties of [Object.prototype].  The own
    properties written by the screen hold numbers, or strings that come from
    adding a number to an inherited property. *)

(** Such a string, as the concatenation it is: the source text of a built-in
    function or the text of [Object.prototype], followed by the decimal
    texts of numbers.  None of them is empty. *)
Inductive text : Type :=
| SourceOf (name : string)
| ObjectText
| Followed (t : text) (x : number).

Inductive primitive : Type :=
| PNumber (x : number)
| PString (t : text).

(** What a property read can give. *)
Inductive value : Type :=
| Undefined
| Primitive (p : primitive)
| Function (name : string)
| ObjectPrototype.

Definition object : Type := list (string * primitive).

(** The data properties of [Object.prototype] (ECMA-262 20.1.3 and B.2.2);
    each holds a built-in function. *)
Definition prototype_methods : list string :=
  [ "constructor"; "hasOwnProperty"; "isPrototypeOf"; "propertyIsEnumerable";
    "toLocaleString"; "toString"; "valueOf";
    "__defineGetter__"; "__defineSetter__"; "__lookupGetter__"; "__lookupSetter__" ].

Definition inherited (k : string) : value :=
  if String.eqb k "__proto__" then ObjectPrototype
  else if existsb (String.eqb k) prototype_methods then Function k
  else Undefined.

Fixpoint own (o : object) (k : string) : option primitive :=
  match o with
  | [] => None
  | (k', v) :: r => if String.eqb k k' then Some v else own r k
  end.

(** [o[k]]: the own property, else the inherited one. *)
Definition Get (o : object) (k : string) : value :=
  match own o k with
  | Some v => Primitive v
  | None => inherited k
  end.

Fixpoint replace (o : object) (k : string) (v : primitive) : object :=
  match o with
  | [] => []
  | (k', v') :: r => if String.eqb k k' then (k', v) :: r else (k', v') :: replace r k v
  end.

(** [o[k] = v] for a primitive [v].  The inherited [__proto__] is an accessor
    whose setter ignores a primitive; every other key becomes, or stays, an
    own property (the inherited methods are writable data properties). *)
Definition Put (o : object) (k : string) (v : primitive) : object :=
  if String.eqb k "__proto__" then o
  else match own o k with
       | Some _ => replace o k v
       | None => o ++ [(k, v)]
       end.

Definition ToBoolean (v : value) : bool :=
  match v with
  | Undefined => false
  | Primitive (PNumber x) => truthy_number x
  | Primitive (PString _) => true
  | Function _ | ObjectPrototype => true
  end.

(** [v + x] for a number [x] (ECMA-262 13.15.3): numeric addition when [v]
    is a number; string concatenation when [ToPrimitive v] is a string, as it
    is for a function ([Function.prototype.toString]) and for
    [Object.prototype] (the text [[object Object]]). *)
Definition plus (v : value) (x : number) : primitive :=
  match v with
  | Undefined => PNumber NaN
  | Primitive (PNumber y) => PNumber (PrimFloat.add y x)
  | Primitive (PString t) => PString (Followed t x)
  | Function name => PString (Followed (SourceOf name) x)
  | ObjectPrototype => PString (Followed ObjectText x)
  end.

(** [ToNumber] of a stored value: the texts above are not numeric literals. *)
Definition ToNumber (p : primitive) : number :=
  match p with
  | PNumber x => x
  | PString _ => NaN
  end.

(** A key is an array index when it is the canonical decimal text of an
    integer below [2^32 - 1] (ECMA-262 6.1.7). *)
Definition array_index (k : string) : option Z :=
  match all_digits k with
  | Some (d :: ds) =>
      let v := digits_value (d :: ds) in
      if (negb (d =? 0) || Nat.eqb (List.length ds) 0) && (v <? 4294967295)
      then Some v else None
  | _ => None
  end.

Definition is_array_index (k : string) : bool :=
  match array_index k with Some _ => true | None => false end.

Definition index_of (k : string) : Z :=
  match array_index k with Some v => v | None => 0 end.

Fixpoint insert_by_index (e : string * primitive) (l : object) : object :=
  match l with
  | [] => [e]
  | e' :: r => if index_of (fst e) <=? index_of (fst e') then e :: l
               else e' :: insert_by_index e r
  end.

Definition sort_by_index (l : object) : object :=
  fold_right insert_by_index [] l.

(** [Object.entries(o)]: the array indices in ascending order, then the
    other keys in the order of their creation (ECMA-262 10.1.11). *)
Definition entries (o : object) : object :=
  sort_by_index (filter (fun e => is_array_index (fst e)) o)
  ++ filter (fun e => negb (is_array_index (fst e))) o.

Definition keys (o : object) : list string := map fst (entries o).

(** *** [Number.prototype.toFixed] (ECMA-262 21.1.3.3) *)

(** The integer [n] for which [n / 10^f] is nearest to [m * 2^e]; the larger
    one when two are as near. *)
Definition nearest_scaled (m : positive) (e : Z) (f : Z) : Z :=
  if 0 <=? e then Z.pos m * 2 ^ e * 10 ^ f
  else (2 * Z.pos m * 10 ^ f + 2 ^ (- e)) / 2 ^ (1 - e).

(** The digits of [n] with a point before the last [f] of them, zeros
    added on the left until one digit stands before the point. *)
Definition fixed_text (f : nat) (n : Z) : string :=
  let m := string_of_integer n in
  match f with
  | O => m
  | S _ =>
      let m := if (String.length m <=? f)%nat then padStart0 (f + 1) m else m in
      let k := String.length m in
      String.append (substring 0 (k - f) m)
        (String.append "." (substring (k - f) f m))
  end.

(** [x.toFixed(f)], for [f] from 0 to 100.  From [10^21] on the result is
    the host's decimal text of the number. *)
Definition toFixed (NumberToString : number -> string) (f : nat) (x : number)
    : string :=
  match Prim2SF x with
  | S754_nan => "NaN"
  | S754_infinity s => if s then "-Infinity" else "Infinity"
  | S754_zero _ => fixed_text f 0
  | S754_finite s m e =>
      String.append (if s then "-" else "")
        (if (if 0 <=? e then 10 ^ 21 <=? Z.pos m * 2 ^ e
             else 10 ^ 21 * 2 ^ (- e) <=? Z.pos m)
         then NumberToString (PrimFloat.abs x)
         else fixed_text f (nearest_scaled m e (Z.of_nat f)))
  end.

End JS.

(* ================================================================== *)
(** * Part II: records, the table and the component state             *)
(* ================================================================== *)

(** A row of the [expenses] table as the screen reads it.  The table
    declares [amount], [category] and [date] NOT NULL; [date] is optional
    here because a table created before the column existed yields rows
    without it, a case both revisions guard against ([!exp.date]). *)
Module Expense.
Record t : Type := mk {
  id : Z;
  amount : JS.number;
  category : string;
  note : option string;
  date : option string
}.
End Expense.

(** The three statements the screen issues, with their bound parameters. *)
Inductive Statement : Type :=
| INSERT (amount : JS.number) (category : string) (note : option string) (date : string)
| UPDATE (amount : JS.number) (category : string) (note : option string) (date : string) (id : Z)
| DELETE (id : Z).

(** The table: its rows, the largest row id handed out so far
    (AUTOINCREMENT never reuses one), and whether the database answers. *)
Record Store : Type := {
  rows : list Expense.t;
  sequence : Z;
  available : bool
}.

Definition max_id (l : list Expense.t) : Z :=
  fold_right (fun e m => Z.max (Expense.id e) m) 0 l.

Definition execute (st : Statement) (db : Store) : Store :=
  match st with
  | INSERT a c n d =>
      let i := Z.max (sequence db) (max_id (rows db)) + 1 in
      {| rows := rows db ++ [Expense.mk i a c n (Some d)];
         sequence := i;
         available := available db |}
  | UPDATE a c n d i =>
      {| rows := map (fun e => if Expense.id e =? i
                               then Expense.mk (Expense.id e) a c n (Some d)
                               else e) (rows db);
         sequence := sequence db;
         available := available db |}
  | DELETE i =>
      {| rows := filter (fun e => negb (Expense.id e =? i)) (rows db);
         sequence := sequence db;
         available := available db |}
  end.

Fixpoint insert_desc (e : Expense.t) (l : list Expense.t) : list Expense.t :=
  match l with
  | [] => [e]
  | e' :: r => if Expense.id e' <=? Expense.id e then e :: l
               else e' :: insert_desc e r
  end.

(** [SELECT * FROM expenses ORDER BY id DESC]. *)
Definition select_all (db : Store) : list Expense.t :=
  fold_right insert_desc [] (rows db).

Inductive Filter : Type := ALL | WEEK | MONTH.

(** The state hooks of the component. *)
Module State.
Record t : Type := mk {
  expenses : list Expense.t;
  amount : string;
  category : string;
  note : string;
  filter : Filter;
  editingId : option Z
}.
End State.

Definition initial_state : State.t :=
  State.mk [] "" "" "" ALL None.

Record Alert : Type := { title : string; message : string }.

(** Everything a handler can read or change: the next component state, the
    database, the clock, and what the user and the console are shown. *)
Record World : Type := {
  ui : State.t;
  db : Store;
  clock : Z;
  alerts : list Alert;
  console : list string;
  issued : list Statement
}.

(** ** Asynchronous handlers

    An [async] function either returns or rejects, and changes the world on
    the way. *)

Inductive Completion (A : Type) : Type :=
| Normal (a : A)
| Rejected.
Arguments Normal {A} a.
Arguments Rejected {A}.

Definition Async (A : Type) : Type := World -> Completion A * World.

Definition ret {A} (a : A) : Async A := fun w => (Normal a, w).

Definition bind {A B} (m : Async A) (k : A -> Async B) : Async B :=
  fun w => match m w with
           | (Normal a, w') => k a w'
           | (Rejected, w') => (Rejected, w')
           end.

Declare Scope async_scope.
Delimit Scope async_scope with async.
Notation "x <- m ;; k" := (bind m (fun x => k))
  (at level 61, m at next level, right associativity) : async_scope.
Notation "m ;; k" := (bind m (fun _ => k))
  (at level 61, right associativity) : async_scope.
Local Open Scope async_scope.

(** [try { body } catch (err) { handler }]. *)
Definition try_catch {A} (body handler : Async A) : Async A :=
  fun w => match body w with
           | (Normal a, w') => (Normal a, w')
           | (Rejected, w') => handler w'
           end.

(** A call that is not awaited: its rejection does not reach the caller. *)
Definition detached (m : Async unit) : Async unit :=
  fun w => (Normal tt, snd (m w)).

Definition update_ui (f : State.t -> State.t) : Async unit :=
  fun w => (Normal tt,
            {| ui := f (ui w); db := db w; clock := clock w;
               alerts := alerts w; console := console w; issued := issued w |}).

Definition setExpenses (v : list Expense.t) : Async unit :=
  update_ui (fun s => State.mk v (State.amount s) (State.category s) (State.note s)
                               (State.filter s) (State.editingId s)).
Definition setAmount (v : string) : Async unit :=
  update_ui (fun s => State.mk (State.expenses s) v (State.category s) (State.note s)
                               (State.filter s) (State.editingId s)).
Definition setCategory (v : string) : Async unit :=
  update_ui (fun s => State.mk (State.expenses s) (State.amount s) v (State.note s)
                               (State.filter s) (State.editingId s)).
Definition setNote (v : string) : Async unit :=
  update_ui (fun s => State.mk (State.expenses s) (State.amount s) (State.category s) v
                               (State.filter s) (State.editingId s)).
Definition setFilter (v : Filter) : Async unit :=
  update_ui (fun s => State.mk (State.expenses s) (State.amount s) (State.category s)
                               (State.note s) v (State.editingId s)).
Definition setEditingId (v : option Z) : Async unit :=
  update_ui (fun s => State.mk (State.expenses s) (State.amount s) (State.category s)
                               (State.note s) (State.filter s) v).

(** [Alert.alert(title, message)]. *)
Definition Alert_alert (t m : string) : Async unit :=
  fun w => (Normal tt,
            {| ui := ui w; db := db w; clock := clock w;
               alerts := alerts w ++ [{| title := t; message := m |}];
               console := console w; issued := issued w |}).

(** [console.error(label, err)]. *)
Definition console_error (label : string) : Async unit :=
  fun w => (Normal tt,
            {| ui := ui w; db := db w; clock := clock w;
               alerts := alerts w; console := console w ++ [label];
               issued := issued w |}).

(** [await db.runAsync(statement, params)]: the statement is issued, and
    takes effect unless the database fails. *)
Definition runAsync (st : Statement) : Async unit :=
  fun w =>
    if available (db w)
    then (Normal tt,
          {| ui := ui w; db := execute st (db w); clock := clock w;
             alerts := alerts w; console := console w;
             issued := issued w ++ [st] |})
    else (Rejected,
          {| ui := ui w; db := db w; clock := clock w;
             alerts := alerts w; console := console w;
             issued := issued w ++ [st] |}).

(** [await db.getAllAsync('SELECT * FROM expenses ORDER BY id DESC;')]. *)
Definition getAllAsync : Async (list Expense.t) :=
  fun w => if available (db w) then (Normal (select_all (db w)), w)
           else (Rejected, w).

(** [await db.execAsync('CREATE TABLE IF NOT EXISTS expenses (...)')]: an
    existing table is kept as it is; the call fails when the database does. *)
Definition execAsync_create_table : Async unit :=
  fun w => if available (db w) then (Normal tt, w) else (Rejected, w).

(** [new Date()]. *)
Definition new_Date : Async JS.Date :=
  fun w => (Normal (Some (clock w)), w).

(* ================================================================== *)
(** * Part III: what the two revisions share                          *)
(* ================================================================== *)

Module Screen.

Section WithHost.

Variable host : JS.Host.

Definition number_text (v : option Z) : string :=
  match v with
  | Some z => JS.string_of_integer z
  | None => "NaN"
  end.

(** [getTodayString], on the [Date] that [new Date()] returned. *)
Definition getTodayString (today : JS.Date) : string :=
  let year := JS.getFullYear host today in
  let month := JS.padStart0 2 (number_text (JS.number_add (JS.getMonth host today) (Some 1))) in
  let day := JS.padStart0 2 (number_text (JS.getDate host today)) in
  String.append (number_text year)
    (String.append "-" (String.append month (String.append "-" day))).

(** [!exp.date]. *)
Definition no_date (exp : Expense.t) : bool :=
  match Expense.date exp with
  | None => true
  | Some d => negb (JS.truthy_string d)
  end.

Definition date_text (exp : Expense.t) : string :=
  match Expense.date exp with
  | Some d => d
  | None => ""
  end.

(** The local [startOfWeek] of [getFilteredExpenses]: a copy of [today],
    moved back to Sunday by [setDate], then to midnight by [setHours]. *)
Definition startOfWeek (today : JS.Date) : JS.Date :=
  let startOfWeek := today in
  let startOfWeek :=
    JS.setDate host startOfWeek
      (JS.number_sub (JS.getDate host today) (JS.getDay host today)) in
  JS.setHours host startOfWeek 0 0 0 0.

(** The local [endOfWeek]: a copy of [startOfWeek], moved on six days, then
    to the last millisecond of the day. *)
Definition endOfWeek (today : JS.Date) : JS.Date :=
  let endOfWeek := startOfWeek today in
  let endOfWeek :=
    JS.setDate host endOfWeek
      (JS.number_add (JS.getDate host (startOfWeek today)) (Some 6)) in
  JS.setHours host endOfWeek 23 59 59 999.

(** The test of the MONTH filter. *)
Definition in_month (today : JS.Date) (exp : Expense.t) : bool :=
  if no_date exp then false
  else
    let d := JS.Date_of_string host (date_text exp) in
    JS.strict_equal (JS.getFullYear host d) (JS.getFullYear host today)
    && JS.strict_equal (JS.getMonth host d) (JS.getMonth host today).

(** The test of the WEEK filter. *)
Definition in_week (today : JS.Date) (exp : Expense.t) : bool :=
  if no_date exp then false
  else
    let d := JS.Date_of_string host (date_text exp) in
    JS.greater_equal d (startOfWeek today) && JS.less_equal d (endOfWeek today).

(** [getFilteredExpenses], with [today] the [Date] that [new Date()]
    returned.  The state hook only ever holds ['ALL'], ['WEEK'] or
    ['MONTH'], so the final [return expenses] is not reached. *)
Definition getFilteredExpenses (filter : Filter) (expenses : list Expense.t)
    (today : JS.Date) : list Expense.t :=
  match filter with
  | ALL => expenses
  | MONTH => List.filter (in_month today) expenses
  | WEEK => List.filter (in_week today) expenses
  end.

End WithHost.

(** [Number(exp.amount || 0)]. *)
Definition amount_of (exp : Expense.t) : JS.number :=
  JS.number_or_zero (Expense.amount exp).

(** [totalSpending]. *)
Definition totalSpending (filteredExpenses : list Expense.t) : JS.number :=
  fold_left (fun acc exp => PrimFloat.add acc (amount_of exp))
            filteredExpenses PrimFloat.zero.

(** [exp.category || 'Uncategorized']. *)
Definition bucket (exp : Expense.t) : string :=
  if JS.truthy_string (Expense.category exp) then Expense.category exp
  else "Uncategorized".

(** The body of the [forEach] that fills [categoryTotals]. *)
Definition accumulate (categoryTotals : JS.object) (exp : Expense.t) : JS.object :=
  let cat := bucket exp in
  let amt := amount_of exp in
  let categoryTotals :=
    if negb (JS.ToBoolean (JS.Get categoryTotals cat))
    then JS.Put categoryTotals cat (JS.PNumber PrimFloat.zero)
    else categoryTotals in
  JS.Put categoryTotals cat (JS.plus (JS.Get categoryTotals cat) amt).

(** [categoryTotals]. *)
Definition categoryTotals (filteredExpenses : list Expense.t) : JS.object :=
  fold_left accumulate filteredExpenses [].

(** The categories in the order the summary card lists them:
    [Object.entries(categoryTotals).map(...)]. *)
Definition presented (filteredExpenses : list Expense.t) : list string :=
  JS.keys (categoryTotals filteredExpenses).

(** [editingId === id], for the id of a row: [null] equals none. *)
Definition same_id (editingId : option Z) (id : Z) : bool :=
  match editingId with
  | Some i => id =? i
  | None => false
  end.

(** [(e) => e.id === editingId]. *)
Definition is_edited (editingId : option Z) (e : Expense.t) : bool :=
  same_id editingId (Expense.id e).

(** [existing?.date || getTodayString()]. *)
Definition date_or_today (host : JS.Host) (existing : option Expense.t)
    (today : JS.Date) : string :=
  match existing with
  | Some e => if no_date e then getTodayString host today else date_text e
  | None => getTodayString host today
  end.

(** [trimmedNote || null]. *)
Definition note_or_null (trimmedNote : string) : option string :=
  if JS.truthy_string trimmedNote then Some trimmedNote else None.

End Screen.

(* ================================================================== *)
(** * Part IV: the handlers of [src/ExpenseScreen.js]                 *)
(* ================================================================== *)

(** A handler is a closure of the render that created it: it reads the
    state [s] of that render and schedules updates of the next state. *)

Module ExpenseScreen.

Section WithHost.

Variable host : JS.Host.

Definition loadExpenses : Async unit :=
  rows <- getAllAsync ;;
  setExpenses rows.

Definition handleSaveExpense (s : State.t) : Async unit :=
  let amountNumber := JS.parseFloat (State.amount s) in
  if JS.isNaN amountNumber || PrimFloat.leb amountNumber PrimFloat.zero
  then ret tt
  else
    let trimmedCategory := JS.trim (State.category s) in
    let trimmedNote := JS.trim (State.note s) in
    if negb (JS.truthy_string trimmedCategory)
    then ret tt
    else
      let existing := find (Screen.is_edited (State.editingId s)) (State.expenses s) in
      today <- new_Date ;;
      let dateToUse := Screen.date_or_today host existing today in
      match State.editingId s with
      | None =>
          runAsync (INSERT amountNumber trimmedCategory
                           (Screen.note_or_null trimmedNote) dateToUse)
      | Some editingId =>
          runAsync (UPDATE amountNumber trimmedCategory
                           (Screen.note_or_null trimmedNote) dateToUse editingId)
      end ;;
      setAmount "" ;;
      setCategory "" ;;
      setNote "" ;;
      setEditingId None ;;
      detached loadExpenses.

Definition deleteExpense (s : State.t) (id : Z) : Async unit :=
  runAsync (DELETE id) ;;
  detached loadExpenses.

(** [String(expense.amount)] is the host's decimal text of the number. *)
Definition startEditExpense (NumberToString : JS.number -> string)
    (expense : Expense.t) : Async unit :=
  setEditingId (Some (Expense.id expense)) ;;
  setAmount (NumberToString (Expense.amount expense)) ;;
  setCategory (Expense.category expense) ;;
  setNote (match Expense.note expense with
           | Some n => if JS.truthy_string n then n else ""
           | None => ""
           end).

(** The effect that runs when the component is mounted. *)
Definition setup : Async unit :=
  execAsync_create_table ;;
  loadExpenses.

End WithHost.

End ExpenseScreen.

(* ================================================================== *)
(** * Part V: the handlers of [src/unnamed/part_000]                  *)
(* ================================================================== *)

Module Part000.

Definition double_quote : string := String (ascii_of_nat 34) EmptyString.

Definition save_failed_message : string :=
  String.append "Saving the expense failed. If you see an error like "
  (String.append double_quote
  (String.append "no such column: date"
  (String.append double_quote
     " in Metro, you need to reset the app database (uninstall app or clear data) so the new table schema with the date column is used."))).

Section WithHost.

Variable host : JS.Host.

Definition loadExpenses : Async unit :=
  try_catch
    (rows <- getAllAsync ;;
     setExpenses rows)
    (console_error "Error loading expenses:" ;;
     Alert_alert "Error" "Failed to load expenses from the database.").

Definition handleSaveExpense (s : State.t) : Async unit :=
  if negb (JS.truthy_string (JS.trim (State.amount s)))
  then Alert_alert "Missing amount" "Please enter an amount before saving."
  else if negb (JS.truthy_string (JS.trim (State.category s)))
  then Alert_alert "Missing category" "Please enter a category before saving."
  else
    let amountNumber := JS.parseFloat (State.amount s) in
    if JS.isNaN amountNumber || PrimFloat.leb amountNumber PrimFloat.zero
    then Alert_alert "Invalid amount" "Amount must be a number greater than 0."
    else
      let trimmedCategory := JS.trim (State.category s) in
      let trimmedNote := JS.trim (State.note s) in
      let existing := find (Screen.is_edited (State.editingId s)) (State.expenses s) in
      today <- new_Date ;;
      let dateToUse := Screen.date_or_today host existing today in
      try_catch
        (match State.editingId s with
         | None =>
             runAsync (INSERT amountNumber trimmedCategory
                              (Screen.note_or_null trimmedNote) dateToUse)
         | Some editingId =>
             runAsync (UPDATE amountNumber trimmedCategory
                              (Screen.note_or_null trimmedNote) dateToUse editingId)
         end ;;
         setAmount "" ;;
         setCategory "" ;;
         setNote "" ;;
         setEditingId None ;;
         detached loadExpenses)
        (console_error "Error saving expense:" ;;
         Alert_alert "Save failed" save_failed_message).

Definition deleteExpense (s : State.t) (id : Z) : Async unit :=
  (if Screen.same_id (State.editingId s) id
   then setEditingId None ;; setAmount "" ;; setCategory "" ;; setNote ""
   else ret tt) ;;
  try_catch
    (runAsync (DELETE id) ;;
     detached loadExpenses)
    (console_error "Error deleting expense:" ;;
     Alert_alert "Error" "Failed to delete expense.").

Definition startEditExpense (NumberToString : JS.number -> string)
    (expense : Expense.t) : Async unit :=
  setEditingId (Some (Expense.id expense)) ;;
  setAmount (NumberToString (Expense.amount expense)) ;;
  setCategory (Expense.category expense) ;;
  setNote (match Expense.note expense with
           | Some n => if JS.truthy_string n then n else ""
           | None => ""
           end).

(** The [onPress] of the "Cancel Edit" button. *)
Definition cancelEdit : Async unit :=
  setEditingId None ;;
  setAmount "" ;;
  setCategory "" ;;
  setNote "".

(** The effect that runs when the component is mounted. *)
Definition setup : Async unit :=
  try_catch
    (execAsync_create_table ;;
     loadExpenses)
    (console_error "Error in setup:" ;;
     Alert_alert "Error" "Failed to set up the database.").

End WithHost.

End Part000.

(** Pressing a control runs its handler on the state of the current render. *)
Definition press (handler : State.t -> Async unit) (w : World) : World :=
  snd (handler (ui w) w).

(* ================================================================== *)
(** * Part VI: the specification's own definitions                    *)
(* ================================================================== *)

Module Spec.

Inductive Reason : Type := InvalidAmount | MissingCategory.

(** The validator of section 4.1, in the specification's words: the amount
    text is parsed as a decimal number and refused with [InvalidAmount] when
    it does not parse or the parsed value is not above zero; the category is
    refused with [MissingCategory] when it is empty after trimming; success
    carries the number and the trimmed category. *)
Definition validate (amount_text category_text : string)
    : Reason + (JS.number * string) :=
  let amount := JS.parseFloat amount_text in
  if JS.isNaN amount || PrimFloat.leb amount PrimFloat.zero then inl InvalidAmount
  else if String.eqb (JS.trim category_text) "" then inl MissingCategory
  else inr (amount, JS.trim category_text).

(** The reason an alert of [part_000] names, by its title. *)
Definition reason_named (a : Alert) : option Reason :=
  if String.eqb (title a) "Missing amount" then Some InvalidAmount
  else if String.eqb (title a) "Invalid amount" then Some InvalidAmount
  else if String.eqb (title a) "Missing category" then Some MissingCategory
  else None.

(** The amount and category a statement writes. *)
Definition written (st : Statement) : option (JS.number * string) :=
  match st with
  | INSERT a c _ _ => Some (a, c)
  | UPDATE a c _ _ _ => Some (a, c)
  | DELETE _ => None
  end.

(** The sum of a sequence of numbers, from [0], left to right. *)
Definition sum (l : list JS.number) : JS.number :=
  fold_left PrimFloat.add l PrimFloat.zero.

(** The distinct members of a sequence, each at its first appearance. *)
Fixpoint first_appearances (l : list string) : list string :=
  match l with
  | [] => []
  | c :: r => c :: List.filter (fun x => negb (String.eqb x c)) (first_appearances r)
  end.

(** The subtotals of a per-category mapping, in the order it lists them. *)
Definition subtotals (by_category : JS.object) : list JS.number :=
  map (fun kv => JS.ToNumber (snd kv)) (JS.entries by_category).

(** The stored format of a date (section 3): four digits, a hyphen, two
    digits, a hyphen, two digits. *)
Definition well_formed_date (s : string) : bool :=
  Nat.eqb (String.length s) 10
  && match JS.fixed_digits 4 (substring 0 4 s),
           JS.fixed_digits 2 (substring 5 2 s),
           JS.fixed_digits 2 (substring 8 2 s) with
     | Some _, Some _, Some _ => true
     | _, _, _ => false
     end
  && String.eqb (substring 4 1 s) "-" && String.eqb (substring 7 1 s) "-".

(** Array indices in ascending numeric order. *)
Fixpoint insert_ascending (k : string) (l : list string) : list string :=
  match l with
  | [] => [k]
  | k' :: r => if JS.index_of k <=? JS.index_of k' then k :: l
               else k' :: insert_ascending k r
  end.

Definition ascending (l : list string) : list string :=
  fold_right insert_ascending [] l.

(** The order in which a plain object lists its keys, given the keys in the
    order of their first use: the array indices in ascending order, then the
    other keys in the order of their first appearance. *)
Definition presentation_order (l : list string) : list string :=
  ascending (Spec.first_appearances (List.filter JS.is_array_index l))
  ++ Spec.first_appearances (List.filter (fun k => negb (JS.is_array_index k)) l).
End Spec.

(** ** The vocabulary of the statements *)

(** Typing into the three inputs of the form. *)
Definition type_form (amount category note : string) (w : World) : World :=
  snd ((setAmount amount ;; setCategory category ;; setNote note) w).

(** Selecting row [id] for editing leaves this in the state hook. *)
Definition editing (id : Z) (w : World) : World :=
  snd (setEditingId (Some id) w).

(** The clock moving on. *)
Definition at_time (now : Z) (w : World) : World :=
  {| ui := ui w; db := db w; clock := now;
     alerts := alerts w; console := console w; issued := issued w |}.

(** The statement a save issues once the input is accepted. *)
Definition save_statement (host : JS.Host) (s : State.t) (now : Z) : Statement :=
  let dateToUse :=
    Screen.date_or_today host
      (find (Screen.is_edited (State.editingId s)) (State.expenses s)) (Some now) in
  match State.editingId s with
  | None => INSERT (JS.parseFloat (State.amount s)) (JS.trim (State.category s))
                   (Screen.note_or_null (JS.trim (State.note s))) dateToUse
  | Some i => UPDATE (JS.parseFloat (State.amount s)) (JS.trim (State.category s))
                     (Screen.note_or_null (JS.trim (State.note s))) dateToUse i
  end.

(** What the database holds after a statement was sent to it. *)
Definition after_statement (st : Statement) (db : Store) : Store :=
  if available db then execute st db else db.

(** The row with a given id. *)
Definition stored (db : Store) (i : Z) : option Expense.t :=
  find (fun e => Expense.id e =? i) (rows db).

(** What the editing state consists of: the row selected and the pending
    values of the form. *)
Definition editing_state (s : State.t) : option Z * string * string * string :=
  (State.editingId s, State.amount s, State.category s, State.note s).

Definition idle : option Z * string * string * string := (None, "", "", "").

(** The records of a bucket, in their order. *)
Definition bucketed (c : string) (l : list Expense.t) : list Expense.t :=
  List.filter (fun e => String.eqb (Screen.bucket e) c) l.

Definition positive_amount (e : Expense.t) : Prop :=
  PrimFloat.ltb PrimFloat.zero (Expense.amount e) = true.

Definition plain_key (e : Expense.t) : Prop :=
  JS.inherited (Screen.bucket e) = JS.Undefined.

Definition not_proto (e : Expense.t) : Prop :=
  String.eqb (Screen.bucket e) "__proto__" = false.

Definition not_index (e : Expense.t) : Prop :=
  JS.is_array_index (Screen.bucket e) = false.

Definition mem (c : string) (l : list string) : bool := existsb (String.eqb c) l.

(** The number [n * 2^g]. *)
Definition grid (g n : Z) : JS.number :=
  SF2Prim (binary_normalize prec emax n g false).

Definition grid_exponent (g : Z) (q : positive) : Z :=
  fexp prec emax (Z.pos (digits2_pos q) + g).

(** A record whose amount is a whole, positive number of steps of [2^g]. *)
Definition on_grid (g : Z) (steps : Expense.t -> Z) (e : Expense.t) : Prop :=
  0 < steps e /\ Expense.amount e = grid g (steps e).

Definition steps_of (steps : Expense.t -> Z) (l : list Expense.t) : Z :=
  fold_right (fun e acc => steps e + acc) 0 l.

(** Sums in [Z]. *)
Definition total_of (f : string -> Z) (ks : list string) : Z :=
  fold_right (fun k acc => f k + acc) 0 ks.

(** [+0], a finite number above zero, or [+Infinity]. *)
Definition sf_unsigned (x : spec_float) : Prop :=
  match x with
  | S754_zero false | S754_finite false _ _ | S754_infinity false => True
  | _ => False
  end.

Definition unsigned (x : JS.number) : Prop := sf_unsigned (Prim2SF x).

Definition sf_signed_as (s : bool) (x : spec_float) : Prop :=
  match x with
  | S754_zero s' | S754_finite s' _ _ | S754_infinity s' => s' = s
  | S754_nan => False
  end.

(** A shift record with nothing lost. *)
Definition exact_record (m : Z) : shr_record := {| shr_m := m; shr_r := false; shr_s := false |}.

(** ** The launch of the application *)

(** The table right after [CREATE TABLE IF NOT EXISTS] on a new device. *)
Definition empty_store : Store :=
  {| rows := []; sequence := 0; available := true |}.

(** The world in which the screen is first rendered. *)
Definition fresh_world (now : Z) : World :=
  {| ui := initial_state; db := empty_store; clock := now;
     alerts := []; console := []; issued := [] |}.

(** ** The screen as a transition system *)

(** The two revisions of the screen. *)
Inductive Revision : Type := ExpenseScreenJs | Part000Js.

Module App.

Section Transitions.

Variable revision : Revision.
Variable host : JS.Host.
Variable NumberToString : JS.number -> string.

Definition handleSaveExpense : State.t -> Async unit :=
  match revision with
  | ExpenseScreenJs => ExpenseScreen.handleSaveExpense host
  | Part000Js => Part000.handleSaveExpense host
  end.

Definition deleteExpense : State.t -> Z -> Async unit :=
  match revision with
  | ExpenseScreenJs => ExpenseScreen.deleteExpense
  | Part000Js => Part000.deleteExpense
  end.

Definition startEditExpense : Expense.t -> Async unit :=
  match revision with
  | ExpenseScreenJs => ExpenseScreen.startEditExpense NumberToString
  | Part000Js => Part000.startEditExpense NumberToString
  end.

Definition loadExpenses : Async unit :=
  match revision with
  | ExpenseScreenJs => ExpenseScreen.loadExpenses
  | Part000Js => Part000.loadExpenses
  end.

(** The effect of [useEffect]: [setup], run when the component is mounted. *)
Definition setup : Async unit :=
  match revision with
  | ExpenseScreenJs => ExpenseScreen.setup
  | Part000Js => Part000.setup
  end.

(** The rows the list shows. *)
Definition rendered (w : World) : list Expense.t :=
  Screen.getFilteredExpenses host (State.filter (ui w)) (State.expenses (ui w))
    (Some (clock w)).

(** What can happen to the screen: the user types, picks a filter, presses
    a button of the form or of a row shown; time passes; the database goes
    away or comes back; the component is mounted again. *)
Inductive Event : Type :=
| ChangeAmount (text : string)
| ChangeCategory (text : string)
| ChangeNote (text : string)
| SelectFilter (f : Filter)
| PressSave
| PressDelete (row : nat)
| PressRow (row : nat)
| PressCancel
| Tick (now : Z)
| Outage (up : bool)
| Mount.

Definition with_availability (up : bool) (w : World) : World :=
  {| ui := ui w;
     db := {| rows := rows (db w); sequence := sequence (db w); available := up |};
     clock := clock w; alerts := alerts w; console := console w; issued := issued w |}.

Definition unmounted (w : World) : World :=
  {| ui := initial_state; db := db w; clock := clock w;
     alerts := alerts w; console := console w; issued := issued w |}.

Definition step (ev : Event) (w : World) : World :=
  match ev with
  | ChangeAmount v => snd (setAmount v w)
  | ChangeCategory v => snd (setCategory v w)
  | ChangeNote v => snd (setNote v w)
  | SelectFilter f => snd (setFilter f w)
  | PressSave => press handleSaveExpense w
  | PressDelete n =>
      match nth_error (rendered w) n with
      | Some item => press (fun s => deleteExpense s (Expense.id item)) w
      | None => w
      end
  | PressRow n =>
      match nth_error (rendered w) n with
      | Some item => snd (startEditExpense item w)
      | None => w
      end
  | PressCancel => snd (Part000.cancelEdit w)
  | Tick now => at_time now w
  | Outage up => with_availability up w
  | Mount => snd (setup (unmounted w))
  end.

(** The worlds the screen can be in, from a first launch on an empty table. *)
Inductive reachable : World -> Prop :=
| reachable_launch (now : Z) : reachable (fresh_world now)
| reachable_step (ev : Event) (w : World) : reachable w -> reachable (step ev w).

End Transitions.

End App.

(** What holds of the table and the list in every such world: ids are
    unique and were handed out by the sequence; every row has a date; every
    row listed has a date, and the date of the stored row of that id; and a
    row selected for editing is listed, unless it is gone from the table. *)
Definition listed_as_stored (d : Store) (e : Expense.t) : Prop :=
  Screen.no_date e = false
  /\ Expense.id e <= sequence d
  /\ forall e', In e' (rows d) -> Expense.id e' = Expense.id e ->
                Expense.date e' = Expense.date e.

Definition consistent_with (expenses : list Expense.t) (editingId : option Z)
    (d : Store) : Prop :=
  NoDup (map Expense.id (rows d))
  /\ Forall (fun e => Screen.no_date e = false /\ Expense.id e <= sequence d) (rows d)
  /\ Forall (listed_as_stored d) expenses
  /\ forall i, editingId = Some i ->
       i <= sequence d
       /\ ((exists e, In e expenses /\ Expense.id e = i) \/ stored d i = None).

Definition consistent (w : World) : Prop :=
  consistent_with (State.expenses (ui w)) (State.editingId (ui w)) (db w).

(** A run of the screen: the events one after the other. *)
Definition run (revision : Revision) (host : JS.Host)
    (NumberToString : JS.number -> string) (events : list App.Event) (w : World) : World :=
  fold_left (fun w ev => App.step revision host NumberToString ev w) events w.

(** ** The vocabulary of Parts XIII to XVII *)

(** Newest first: ids in descending order. *)
Definition newest_first (l : list Expense.t) : Prop :=
  StronglySorted (fun a b => Expense.id b <= Expense.id a) l.

(** The decimal text of [y] has four digits and reads back as [y]. *)
Definition four_digit_text (y : Z) : bool :=
  match JS.string_of_integer y with
  | String a (String b (String c (String d EmptyString))) =>
      match JS.fixed_digits 4 (JS.string_of_integer y) with
      | Some v => v =? y
      | None => false
      end
  | _ => false
  end.

(** The decimal text of [n], padded to two places, has two digits and reads
    back as [n]. *)
Definition two_digit_text (n : Z) : bool :=
  match JS.padStart0 2 (JS.string_of_integer n) with
  | String a (String b EmptyString) =>
      match JS.fixed_digits 2 (JS.padStart0 2 (JS.string_of_integer n)) with
      | Some v => v =? n
      | None => false
      end
  | _ => false
  end.

(** The [count] integers from [first] on. *)
Fixpoint integers (first : Z) (count : nat) : list Z :=
  match count with
  | O => []
  | S n => first :: integers (first + 1) n
  end.

(** The Sunday on or before the local day of [now], as a day number. *)
Definition local_sunday (off now : Z) : Z :=
  JS.Day (now + off) - JS.WeekDay (now + off).

(** The day number a date-only text names. *)
Definition day_of (y m d : Z) : Z := JS.MakeDay y (m - 1) d.

(** The list on screen is the content of the table, newest first, or it is
    still empty. *)
Definition list_is_current (w : World) : Prop :=
  State.expenses (ui w) = select_all (db w) \/ State.expenses (ui w) = [].

(** A record as an accepted save writes it: an amount above zero, a
    category that is trimmed and not empty, a note that is absent or trimmed
    and not empty, and a date. *)
Definition validated (e : Expense.t) : Prop :=
  PrimFloat.ltb PrimFloat.zero (Expense.amount e) = true
  /\ (JS.trim (Expense.category e) = Expense.category e /\ Expense.category e <> "")
  /\ match Expense.note e with
     | None => True
     | Some n => JS.trim n = n /\ n <> ""
     end
  /\ Screen.no_date e = false.

(** ** What the screen shows

    The content of the elements the component returns: the summary card,
    the rows of the list with their keys, and the buttons of the form. *)

Module View.

(** [filterLabel]. *)
Definition filterLabel (filter : Filter) : string :=
  match filter with
  | ALL => "All"
  | WEEK => "This Week"
  | MONTH => "This Month"
  end.

(** [Object.keys(categoryTotals).length === 0]. *)
Definition summaryEmpty (categoryTotals : JS.object) : bool :=
  Nat.eqb (List.length (JS.keys categoryTotals)) 0.

(** The members of a list of results, unless one of them is an exception. *)
Fixpoint all_or_thrown {A} (l : list (option A)) : option (list A) :=
  match l with
  | [] => Some []
  | None :: _ => None
  | Some a :: r =>
      match all_or_thrown r with
      | Some t => Some (a :: t)
      | None => None
      end
  end.

(** A row of the list. *)
Record Row : Type := {
  key : string;
  amountLine : string;
  categoryLine : string;
  noteLine : option string;
  dateLine : option string
}.

(** The summary card, the list and the form. *)
Record t : Type := {
  summaryTitle : string;
  summaryAmount : string;
  byCategory : list string;
  saveTitle : option string;
  cancelShown : bool;
  rows : list Row;
  emptyShown : bool
}.

Section WithHost.

Variable NumberToString : JS.number -> string.

(** [$${x.toFixed(2)}]. *)
Definition money (x : JS.number) : string :=
  String.append "$" (JS.toFixed NumberToString 2 x).

(** [{cat}: $${total.toFixed(2)}] for an entry of [categoryTotals]: a string
    has no method [toFixed], and calling it throws a TypeError. *)
Definition summaryCategoryLine (entry : string * JS.primitive) : option string :=
  match snd entry with
  | JS.PNumber total => Some (String.append (fst entry) (String.append ": " (money total)))
  | JS.PString _ => None
  end.

(** The lines under "By Category:". *)
Definition summaryLines (categoryTotals : JS.object) : option (list string) :=
  if summaryEmpty categoryTotals
  then Some ["No expenses for this range."]
  else all_or_thrown (map summaryCategoryLine (JS.entries categoryTotals)).

(** [keyExtractor]: [item.id.toString()]. *)
Definition keyExtractor (item : Expense.t) : string :=
  JS.string_of_integer (Expense.id item).

(** [renderExpense]; the line of the date is in [part_000] only. *)
Definition renderExpense (revision : Revision) (item : Expense.t) : Row :=
  {| key := keyExtractor item;
     amountLine := money (Expense.amount item);
     categoryLine := Expense.category item;
     noteLine := match Expense.note item with
                 | Some n => if JS.truthy_string n then Some n else None
                 | None => None
                 end;
     dateLine := match revision with
                 | ExpenseScreenJs => None
                 | Part000Js =>
                     if Screen.no_date item then None
                     else Some (String.append "Date: " (Screen.date_text item))
                 end |}.

(** What the component returns for the state [s], or [None] when rendering
    throws.  The form, with its two buttons, is in [part_000] only. *)
Definition render (revision : Revision) (host : JS.Host) (s : State.t) (today : JS.Date)
    : option t :=
  let filteredExpenses :=
    Screen.getFilteredExpenses host (State.filter s) (State.expenses s) today in
  match summaryLines (Screen.categoryTotals filteredExpenses) with
  | None => None
  | Some lines =>
      Some {| summaryTitle :=
                String.append "Total Spending ("
                  (String.append (filterLabel (State.filter s)) "):");
              summaryAmount := money (Screen.totalSpending filteredExpenses);
              byCategory := lines;
              saveTitle :=
                match revision with
                | ExpenseScreenJs => None
                | Part000Js =>
                    Some (match State.editingId s with
                          | None => "Add Expense"
                          | Some _ => "Save Changes"
                          end)
                end;
              cancelShown :=
                match revision, State.editingId s with
                | Part000Js, Some _ => true
                | _, _ => false
                end;
              rows := map (renderExpense revision) filteredExpenses;
              emptyShown := Nat.eqb (List.length filteredExpenses) 0 |}
  end.

End WithHost.

End View.

(** A category that names a method every object inherits. *)
Definition method_name (e : Expense.t) : Prop :=
  In (Screen.bucket e) JS.prototype_methods.

(** A stored value that is a text, not a number. *)
Definition is_text (v : JS.primitive) : bool :=
  match v with
  | JS.PString _ => true
  | JS.PNumber _ => false
  end.

(** Every key is a bucket of a record and is not [__proto__]; its value is a
    text exactly when the key names an inherited method. *)
Definition kinds_ok (l : list Expense.t) (o : JS.object) : Prop :=
  Forall (fun kv => String.eqb (fst kv) "__proto__" = false
                    /\ In (fst kv) (map Screen.bucket l)
                    /\ is_text (snd kv) = mem (fst kv) JS.prototype_methods) o.

(** A character that cannot continue a run of digits into a longer numeric
    literal: not a digit, not the point, not the [e] of an exponent. *)
Definition ends_the_number (c : ascii) : bool :=
  match JS.digit_of c with
  | Some _ => false
  | None => negb ((c =? ".")%char || (c =? "e")%char || (c =? "E")%char)
  end.

(** The controls a revision renders.  [ExpenseScreen.js] returns the filter
    buttons, the summary card and the list with its delete buttons: it has
    no form, and no press of a row selects it. *)
Definition rendered_by (revision : Revision) (ev : App.Event) : bool :=
  match revision, ev with
  | ExpenseScreenJs, App.ChangeAmount _ => false
  | ExpenseScreenJs, App.ChangeCategory _ => false
  | ExpenseScreenJs, App.ChangeNote _ => false
  | ExpenseScreenJs, App.PressSave => false
  | ExpenseScreenJs, App.PressRow _ => false
  | ExpenseScreenJs, App.PressCancel => false
  | _, _ => true
  end.

(** Whether [handleSaveExpense] goes past its checks: the amount text
    parses to a number above zero and the category is not blank.
    ([part_000] asks first that the amount text is not blank; a blank text
    parses to NaN.) *)
Definition passes_the_checks (s : State.t) : bool :=
  let amountNumber := JS.parseFloat (State.amount s) in
  negb (JS.isNaN amountNumber || PrimFloat.leb amountNumber PrimFloat.zero)
  && JS.truthy_string (JS.trim (State.category s)).

(** Whether a save wrote to the table. *)
Definition saved (s : State.t) (d : Store) : bool :=
  passes_the_checks s && available d.

(** ** Sample data *)

(** 2024-03-15T12:00:00Z. *)
Definition noon_2024_03_15 : Z := 1710504000000.

Definition utc : JS.Host := JS.fixed_offset_host 0.

(** A zone five hours behind UTC all year (Bogota, Lima, Panama). *)
Definition utc_minus_5 : JS.Host := JS.fixed_offset_host (-18000000).

(** A row entered on 2024-03-15 is selected five days later, and the form
    holds a new amount and category. *)
Definition edit_five_days_later : World :=
  type_form "20" "Transport" ""
    (editing 1
       (at_time (noon_2024_03_15 + 5 * JS.msPerDay)
          (press (Part000.handleSaveExpense utc)
             (type_form "12.50" "Food" "" (fresh_world noon_2024_03_15))))).

(** The first record is entered at noon of 2024-03-15; five days later its
    row is pressed and the form is changed. *)
Definition sample_NumberToString (x : JS.number) : string :=
  if PrimFloat.eqb x 12.5%float then "12.5" else "".

Definition edit_after_five_days : list App.Event :=
  [ App.ChangeAmount "12.50"; App.ChangeCategory "Food"; App.PressSave;
    App.Tick (noon_2024_03_15 + 5 * JS.msPerDay); App.PressRow 0;
    App.ChangeAmount "20"; App.ChangeCategory "Transport" ].

(** A record with the given id and date. *)
Definition dated (i : Z) (d : string) : Expense.t :=
  Expense.mk i 1%float "Food" None (Some d).

Definition three_records : list Expense.t :=
  [dated 1 "2024-03-10"; dated 2 "2024-03-09"; dated 3 "2024-02-29"].

(** The three records of the specification's example. *)
Definition example_records : list Expense.t :=
  [ Expense.mk 3 12.5%float "Food" None (Some "2024-03-15");
    Expense.mk 2 7.25%float "Food" None (Some "2024-03-15");
    Expense.mk 1 20%float "Transport" None (Some "2024-03-15") ].

(** Records whose categories are names, years and one left empty. *)
Definition mixed_records : list Expense.t :=
  [ Expense.mk 5 3%float "Food" None (Some "2024-03-15");
    Expense.mk 4 5%float "2024" None (Some "2024-03-15");
    Expense.mk 3 8%float "Transport" None (Some "2024-03-15");
    Expense.mk 2 4%float "2023" None (Some "2024-03-15");
    Expense.mk 1 1%float "" None (Some "2024-03-15") ].

(** One record is added and deleted again; then the form is filled. *)
Definition delete_then_type : list App.Event :=
  [ App.ChangeAmount "12.50"; App.ChangeCategory "Food"; App.PressSave;
    App.PressDelete 0; App.ChangeAmount "9"; App.ChangeCategory "Books" ].

(** One record is added at noon of 2024-03-15. *)
Definition one_record_added : list App.Event :=
  [ App.ChangeAmount "12.50"; App.ChangeCategory "Food"; App.PressSave ].

(** Sunday 2024-09-01, noon in the zone five hours behind UTC. *)
Definition noon_2024_09_01_minus_5 : Z := 1725210000000.

(** One record is added whose category is the word [constructor]. *)
Definition constructor_saved : list App.Event :=
  [ App.ChangeAmount "4.50"; App.ChangeCategory "constructor"; App.PressSave ].

Ltac unfold_async :=
  unfold press, bind, ret, try_catch, detached, new_Date, runAsync, getAllAsync,
    setExpenses, setAmount, setCategory, setNote, setEditingId, update_ui,
    Alert_alert, console_error in *.

(** Folding the constants of the month tables. *)
Ltac calendar_constants :=
  repeat match goal with
         | |- context [JS.days_before_month ?l (?a - 1)] =>
             let v := eval compute in (a - 1) in change (a - 1) with v
         end;
  cbn [JS.days_before_month JS.days_in_month] in *.

Ltac month_cases m H :=
  assert (m = 1 \/ m = 2 \/ m = 3 \/ m = 4 \/ m = 5 \/ m = 6 \/ m = 7 \/ m = 8
          \/ m = 9 \/ m = 10 \/ m = 11 \/ m = 12) as H by lia;
  repeat destruct H as [H | H]; subst m.

(* ================================================================== *)
(** * Part VII: facts about the built-ins                             *)
(* ================================================================== *)

Example parseFloat_12_50 : JS.parseFloat "12.50" = 12.5%float.
Proof. vm_compute. reflexivity. Qed.

(** ** Numbers *)

Lemma Prim2SF_zero : Prim2SF PrimFloat.zero = S754_zero false.
Proof. reflexivity. Qed.

Lemma SFcompare_finite_refl s m e :
  SFcompare (S754_finite s m e) (S754_finite s m e) = Some Eq.
Proof.
  simpl. rewrite Z.compare_refl.
  replace (Pos.compare_cont Eq m m) with Eq
    by (symmetry; apply Pos.compare_cont_refl).
  destruct s; reflexivity.
Qed.

(** A number above zero passes the guard [isNaN(x) || x <= 0]. *)
Lemma positive_passes_guard (x : JS.number) :
  PrimFloat.ltb PrimFloat.zero x = true ->
  JS.isNaN x || PrimFloat.leb x PrimFloat.zero = false.
Proof.
  unfold JS.isNaN, PrimFloat.is_nan.
  rewrite ltb_spec, leb_spec, eqb_spec, Prim2SF_zero.
  unfold SFltb, SFleb, SFeqb.
  destruct (Prim2SF x) as [s | s | | s m e] eqn:E.
  - simpl. discriminate.
  - destruct s; simpl; [discriminate | reflexivity].
  - simpl. discriminate.
  - rewrite SFcompare_finite_refl. destruct s; simpl; [discriminate | reflexivity].
Qed.

(** A number above zero is truthy. *)
Lemma positive_truthy (x : JS.number) :
  PrimFloat.ltb PrimFloat.zero x = true -> JS.truthy_number x = true.
Proof.
  unfold JS.truthy_number, PrimFloat.is_nan.
  rewrite ltb_spec, !eqb_spec, Prim2SF_zero.
  unfold SFltb, SFeqb.
  destruct (Prim2SF x) as [s | s | | s m e] eqn:E.
  - simpl. discriminate.
  - destruct s; simpl; [discriminate | reflexivity].
  - simpl. discriminate.
  - rewrite SFcompare_finite_refl. destruct s; simpl; [discriminate | reflexivity].
Qed.

(** ** Strings *)

Lemma trimEnd_empty_head c r :
  JS.trimEnd (String c r) = "" -> JS.is_white_space c = true /\ JS.trimEnd r = "".
Proof.
  simpl. destruct (JS.trimEnd r) eqn:E.
  - destruct (JS.is_white_space c); [auto | discriminate].
  - discriminate.
Qed.

Lemma trimStart_head s :
  match JS.trimStart s with
  | EmptyString => True
  | String c _ => JS.is_white_space c = false
  end.
Proof.
  induction s as [| c r IH]; simpl; [exact I |].
  destruct (JS.is_white_space c) eqn:E; [exact IH | exact E].
Qed.

(** A string that trims to nothing is all white space, so nothing is left
    of it after its leading white space either. *)
Lemma trim_empty_trimStart s : JS.trim s = "" -> JS.trimStart s = "".
Proof.
  unfold JS.trim. pose proof (trimStart_head s) as H.
  destruct (JS.trimStart s) as [| c r]; [reflexivity |].
  intros E. apply trimEnd_empty_head in E. destruct E as [E _]. congruence.
Qed.

Lemma parseFloat_blank s : JS.trimStart s = "" -> JS.parseFloat s = JS.NaN.
Proof. unfold JS.parseFloat. intros ->. reflexivity. Qed.

(** [parseFloat] gives NaN for a string that trims to nothing. *)
Lemma parseFloat_of_blank s :
  JS.truthy_string (JS.trim s) = false -> JS.isNaN (JS.parseFloat s) = true.
Proof.
  intros H. rewrite parseFloat_blank; [reflexivity |].
  apply trim_empty_trimStart. destruct (JS.trim s); [reflexivity | discriminate].
Qed.

Lemma truthy_string_eqb s : JS.truthy_string s = negb (String.eqb s "").
Proof. destruct s; reflexivity. Qed.

(* ================================================================== *)
(** * Part VIII: saving                                               *)
(* ================================================================== *)

Lemma validate_refused_cases amount_text category_text r :
  Spec.validate amount_text category_text = inl r ->
  JS.isNaN (JS.parseFloat amount_text)
    || PrimFloat.leb (JS.parseFloat amount_text) PrimFloat.zero = true
  \/ JS.truthy_string (JS.trim category_text) = false.
Proof.
  unfold Spec.validate. rewrite truthy_string_eqb.
  destruct (JS.isNaN _ || PrimFloat.leb _ _); [auto |].
  destruct (String.eqb _ _); [auto | discriminate].
Qed.

(** In [ExpenseScreen.js] a refused input ends the handler with the world as
    it was: nothing is issued, nothing is shown, nothing is logged. *)
Lemma ExpenseScreen_refusal_changes_nothing host s w r :
  Spec.validate (State.amount s) (State.category s) = inl r ->
  ExpenseScreen.handleSaveExpense host s w = (Normal tt, w).
Proof.
  intros H. apply validate_refused_cases in H.
  unfold ExpenseScreen.handleSaveExpense.
  destruct (JS.isNaN _ || PrimFloat.leb _ _); [reflexivity |].
  destruct H as [H | H]; [discriminate |].
  rewrite H. reflexivity.
Qed.

(** In [part_000] a refused input ends the handler after one alert. *)
Lemma Part000_refusal_alerts host s w r :
  Spec.validate (State.amount s) (State.category s) = inl r ->
  exists t m,
    Part000.handleSaveExpense host s w = Alert_alert t m w
    /\ (t = "Missing amount" \/ t = "Missing category" \/ t = "Invalid amount").
Proof.
  intros H. apply validate_refused_cases in H.
  unfold Part000.handleSaveExpense.
  destruct (JS.truthy_string (JS.trim (State.amount s))) eqn:Ea; simpl;
    [| eauto 6].
  destruct (JS.truthy_string (JS.trim (State.category s))) eqn:Ec; simpl;
    [| eauto 6].
  destruct H as [H | H]; [| discriminate].
  rewrite H. eauto 6.
Qed.

(** The alert that [part_000] raises for a refused input names a reason that
    holds of the input. *)
Lemma Part000_refusal_names_reason host s w r :
  Spec.validate (State.amount s) (State.category s) = inl r ->
  exists a r',
    alerts (snd (Part000.handleSaveExpense host s w)) = alerts w ++ [a]
    /\ Spec.reason_named a = Some r'
    /\ match r' with
       | Spec.InvalidAmount =>
           JS.isNaN (JS.parseFloat (State.amount s))
           || PrimFloat.leb (JS.parseFloat (State.amount s)) PrimFloat.zero = true
       | Spec.MissingCategory => JS.trim (State.category s) = ""
       end.
Proof.
  intros H. apply validate_refused_cases in H.
  unfold Part000.handleSaveExpense.
  destruct (JS.truthy_string (JS.trim (State.amount s))) eqn:Ea; simpl.
  - destruct (JS.truthy_string (JS.trim (State.category s))) eqn:Ec; simpl.
    + destruct H as [H | H]; [| discriminate].
      rewrite H. simpl. eexists; exists Spec.InvalidAmount.
      repeat split.
    + eexists; exists Spec.MissingCategory. repeat split.
      destruct (JS.trim (State.category s)); [reflexivity | discriminate].
  - eexists; exists Spec.InvalidAmount. repeat split.
    rewrite (parseFloat_of_blank _ Ea). reflexivity.
Qed.

Lemma validate_accepted_cases amount_text category_text v :
  Spec.validate amount_text category_text = inr v ->
  JS.isNaN (JS.parseFloat amount_text)
    || PrimFloat.leb (JS.parseFloat amount_text) PrimFloat.zero = false
  /\ JS.truthy_string (JS.trim category_text) = true
  /\ JS.truthy_string (JS.trim amount_text) = true
  /\ v = (JS.parseFloat amount_text, JS.trim category_text).
Proof.
  unfold Spec.validate. rewrite truthy_string_eqb.
  destruct (JS.isNaN _ || PrimFloat.leb _ _) eqn:Hg; [discriminate |].
  destruct (String.eqb _ _); [discriminate |].
  intros [= <-]. repeat split.
  destruct (JS.truthy_string (JS.trim amount_text)) eqn:E; [reflexivity |].
  apply parseFloat_of_blank in E. rewrite E in Hg. discriminate.
Qed.

(** An amount text that parses to a number above zero, with a category that
    is not blank, is accepted. *)
Lemma validate_accepts amount_text category_text :
  PrimFloat.ltb PrimFloat.zero (JS.parseFloat amount_text) = true ->
  JS.trim category_text <> "" ->
  Spec.validate amount_text category_text
    = inr (JS.parseFloat amount_text, JS.trim category_text).
Proof.
  intros Hp Hc. unfold Spec.validate.
  rewrite (positive_passes_guard _ Hp).
  destruct (String.eqb_spec (JS.trim category_text) ""); [contradiction | reflexivity].
Qed.

Lemma ExpenseScreen_accepted_issues host s w v :
  Spec.validate (State.amount s) (State.category s) = inr v ->
  issued (snd (ExpenseScreen.handleSaveExpense host s w))
    = issued w ++ [save_statement host s (clock w)]
  /\ db (snd (ExpenseScreen.handleSaveExpense host s w))
    = after_statement (save_statement host s (clock w)) (db w).
Proof.
  intros Hv. destruct (validate_accepted_cases _ _ _ Hv) as (Hg & Ht & _ & _).
  unfold ExpenseScreen.handleSaveExpense, save_statement, after_statement.
  rewrite Hg, Ht. cbn [negb].
  unfold ExpenseScreen.loadExpenses. unfold_async.
  destruct (State.editingId s); cbn;
    destruct (available (db w)) eqn:Ea; cbn; rewrite ?Ea; cbn; auto.
Qed.

Lemma Part000_accepted_issues host s w v :
  Spec.validate (State.amount s) (State.category s) = inr v ->
  issued (snd (Part000.handleSaveExpense host s w))
    = issued w ++ [save_statement host s (clock w)]
  /\ db (snd (Part000.handleSaveExpense host s w))
    = after_statement (save_statement host s (clock w)) (db w).
Proof.
  intros Hv. destruct (validate_accepted_cases _ _ _ Hv) as (Hg & Ht & Ha & _).
  unfold Part000.handleSaveExpense, save_statement, after_statement.
  rewrite Hg, Ht, Ha. cbn [negb].
  unfold Part000.loadExpenses. unfold_async.
  destruct (State.editingId s); cbn;
    destruct (available (db w)) eqn:Ea; cbn; rewrite ?Ea; cbn; auto.
Qed.

Lemma save_statement_written host s now :
  Spec.written (save_statement host s now)
    = Some (JS.parseFloat (State.amount s), JS.trim (State.category s)).
Proof. unfold save_statement. destruct (State.editingId s); reflexivity. Qed.

(** ** Refused input *)

(** C8.  A save whose input is refused by validation issues no statement,
    and the table is as it was, in both revisions. *)
Theorem refused_save_issues_no_statement (host : JS.Host) (w : World) (r : Spec.Reason) :
  Spec.validate (State.amount (ui w)) (State.category (ui w)) = inl r ->
  (issued (press (ExpenseScreen.handleSaveExpense host) w) = issued w
   /\ db (press (ExpenseScreen.handleSaveExpense host) w) = db w)
  /\ (issued (press (Part000.handleSaveExpense host) w) = issued w
      /\ db (press (Part000.handleSaveExpense host) w) = db w).
Proof.
  intros H. split.
  - unfold press. rewrite (ExpenseScreen_refusal_changes_nothing host _ w r H).
    split; reflexivity.
  - unfold press.
    destruct (Part000_refusal_alerts host _ w r H) as (t & m & E & _).
    rewrite E. split; reflexivity.
Qed.

Lemma refused_save_issues_no_statement_witness :
  let w := type_form "abc" "Food" "" (fresh_world noon_2024_03_15) in
  (issued (press (ExpenseScreen.handleSaveExpense utc) w) = issued w
   /\ db (press (ExpenseScreen.handleSaveExpense utc) w) = db w)
  /\ (issued (press (Part000.handleSaveExpense utc) w) = issued w
      /\ db (press (Part000.handleSaveExpense utc) w) = db w).
Proof.
  exact (refused_save_issues_no_statement utc
           (type_form "abc" "Food" "" (fresh_world noon_2024_03_15))
           Spec.InvalidAmount eq_refl).
Defined.

(** C1.  Every save the screen lets its user attempt, and whose input is
    refused by validation, raises exactly one alert, and the alert names a
    reason that holds of the input.  [part_000] renders the form and its
    save button, and this is its handler in every world.  [ExpenseScreen.js]
    renders neither: no save is attempted there. *)
Theorem refused_save_is_reported (revision : Revision) (host : JS.Host)
    (NumberToString : JS.number -> string) (w : World) (r : Spec.Reason) :
  rendered_by revision App.PressSave = true ->
  Spec.validate (State.amount (ui w)) (State.category (ui w)) = inl r ->
  let w' := App.step revision host NumberToString App.PressSave w in
  exists a r',
    alerts w' = alerts w ++ [a]
    /\ Spec.reason_named a = Some r'
    /\ match r' with
       | Spec.InvalidAmount =>
           JS.isNaN (JS.parseFloat (State.amount (ui w)))
           || PrimFloat.leb (JS.parseFloat (State.amount (ui w))) PrimFloat.zero = true
       | Spec.MissingCategory => JS.trim (State.category (ui w)) = ""
       end.
Proof.
  intros Hr Hv. destruct revision; [discriminate Hr |].
  cbn zeta. cbn [App.step App.handleSaveExpense]. unfold press.
  exact (Part000_refusal_names_reason host (ui w) w r Hv).
Qed.

Lemma refused_save_is_reported_witness :
  let w := type_form "abc" "Food" "" (fresh_world noon_2024_03_15) in
  let w' := App.step Part000Js utc sample_NumberToString App.PressSave w in
  exists a r',
    alerts w' = alerts w ++ [a]
    /\ Spec.reason_named a = Some r'
    /\ match r' with
       | Spec.InvalidAmount =>
           JS.isNaN (JS.parseFloat (State.amount (ui w)))
           || PrimFloat.leb (JS.parseFloat (State.amount (ui w))) PrimFloat.zero = true
       | Spec.MissingCategory => JS.trim (State.category (ui w)) = ""
       end.
Proof.
  exact (refused_save_is_reported Part000Js utc sample_NumberToString
           (type_form "abc" "Food" "" (fresh_world noon_2024_03_15))
           Spec.InvalidAmount eq_refl eq_refl).
Defined.

(** The handler that [ExpenseScreen.js] declares returns from a refused
    input with the world exactly as it was: no alert, nothing on the
    console, no rejection.  No control of that revision calls it. *)
Example ExpenseScreen_refused_save_is_silent (host : JS.Host) (w : World) :
  Spec.validate "abc" "Food" = inl Spec.InvalidAmount
  /\ ExpenseScreen.handleSaveExpense host (ui (type_form "abc" "Food" "" w))
       (type_form "abc" "Food" "" w)
     = (Normal tt, type_form "abc" "Food" "" w).
Proof.
  split; [reflexivity |].
  apply (ExpenseScreen_refusal_changes_nothing host _ _ Spec.InvalidAmount).
  reflexivity.
Qed.

(** ** Accepted input *)

(** C7.  When the amount text parses to a number above zero and the
    category is not blank after trimming, validation succeeds with the
    parsed number and the trimmed category, and both revisions issue one
    statement that writes exactly these two values. *)
Theorem accepted_save_writes_parsed_amount (host : JS.Host) (w : World) :
  PrimFloat.ltb PrimFloat.zero (JS.parseFloat (State.amount (ui w))) = true ->
  JS.trim (State.category (ui w)) <> "" ->
  Spec.validate (State.amount (ui w)) (State.category (ui w))
    = inr (JS.parseFloat (State.amount (ui w)), JS.trim (State.category (ui w)))
  /\ (exists st,
        issued (press (ExpenseScreen.handleSaveExpense host) w) = issued w ++ [st]
        /\ Spec.written st
           = Some (JS.parseFloat (State.amount (ui w)), JS.trim (State.category (ui w))))
  /\ (exists st,
        issued (press (Part000.handleSaveExpense host) w) = issued w ++ [st]
        /\ Spec.written st
           = Some (JS.parseFloat (State.amount (ui w)), JS.trim (State.category (ui w)))).
Proof.
  intros Hp Hc. pose proof (validate_accepts _ _ Hp Hc) as Hv.
  split; [exact Hv |]. split.
  - exists (save_statement host (ui w) (clock w)). split.
    + apply (ExpenseScreen_accepted_issues host (ui w) w _ Hv).
    + apply save_statement_written.
  - exists (save_statement host (ui w) (clock w)). split.
    + apply (Part000_accepted_issues host (ui w) w _ Hv).
    + apply save_statement_written.
Qed.

Lemma string_neq_by_eqb (a b : string) : String.eqb a b = false -> a <> b.
Proof. intros H. apply String.eqb_neq. exact H. Qed.

Lemma accepted_save_writes_parsed_amount_witness :
  let w := type_form " 12.50" " Food " "" (fresh_world noon_2024_03_15) in
  Spec.validate (State.amount (ui w)) (State.category (ui w))
    = inr (JS.parseFloat (State.amount (ui w)), JS.trim (State.category (ui w)))
  /\ (exists st,
        issued (press (ExpenseScreen.handleSaveExpense utc) w) = issued w ++ [st]
        /\ Spec.written st
           = Some (JS.parseFloat (State.amount (ui w)), JS.trim (State.category (ui w))))
  /\ (exists st,
        issued (press (Part000.handleSaveExpense utc) w) = issued w ++ [st]
        /\ Spec.written st
           = Some (JS.parseFloat (State.amount (ui w)), JS.trim (State.category (ui w)))).
Proof.
  exact (accepted_save_writes_parsed_amount utc
           (type_form " 12.50" " Food " "" (fresh_world noon_2024_03_15))
           eq_refl (string_neq_by_eqb (JS.trim " Food ") "" eq_refl)).
Defined.

Example sample_save_in_part_000 :
  issued (press (Part000.handleSaveExpense utc)
                (type_form " 12.50" " Food " " " (fresh_world noon_2024_03_15)))
  = [INSERT 12.5%float "Food" None "2024-03-15"].
Proof. vm_compute. reflexivity. Qed.

(* ================================================================== *)
(** * Part IX: deleting and the editing state                         *)
(* ================================================================== *)

(** In [part_000], deleting the row that is being edited leaves the screen
    idle, with the form cleared. *)
Lemma Part000_delete_of_edited_row (w : World) (id : Z) :
  State.editingId (ui w) = Some id ->
  editing_state (ui (press (fun s => Part000.deleteExpense s id) w)) = idle.
Proof.
  intros H. unfold Part000.deleteExpense, press, Screen.same_id.
  rewrite H, Z.eqb_refl. unfold Part000.loadExpenses. unfold_async.
  destruct (available (db w)) eqn:Ea; cbn; rewrite ?Ea; reflexivity.
Qed.

(** In [part_000], deleting any other row, or deleting while idle, leaves
    the editing state as it was. *)
Lemma Part000_delete_of_other_row (w : World) (id : Z) :
  State.editingId (ui w) <> Some id ->
  editing_state (ui (press (fun s => Part000.deleteExpense s id) w))
    = editing_state (ui w).
Proof.
  intros H. unfold Part000.deleteExpense, press.
  assert (Screen.same_id (State.editingId (ui w)) id = false) as ->.
  { unfold Screen.same_id. destruct (State.editingId (ui w)) as [i |]; [| reflexivity].
    apply Z.eqb_neq. congruence. }
  unfold Part000.loadExpenses. unfold_async.
  destruct (available (db w)) eqn:Ea; cbn; rewrite ?Ea; reflexivity.
Qed.

(** The [deleteExpense] of [ExpenseScreen.js] does not touch the editing
    state. *)
Lemma ExpenseScreen_delete_leaves_the_form (w : World) (id : Z) :
  editing_state (ui (press (fun s => ExpenseScreen.deleteExpense s id) w))
  = editing_state (ui w).
Proof.
  unfold ExpenseScreen.deleteExpense, press.
  unfold ExpenseScreen.loadExpenses. unfold_async.
  cbn. destruct (available (db w)) eqn:Ea; cbn; rewrite ?Ea; reflexivity.
Qed.

(** What the controls of [ExpenseScreen.js] can do: the filter buttons and
    the delete buttons, time, the database and a new mount leave the form
    empty and no row selected, and issue DELETEs only. *)
Lemma ExpenseScreen_step host NumberToString ev w :
  rendered_by ExpenseScreenJs ev = true ->
  editing_state (ui w) = idle ->
  let w' := App.step ExpenseScreenJs host NumberToString ev w in
  editing_state (ui w') = idle
  /\ incl (rows (db w')) (rows (db w))
  /\ exists ids, issued w' = issued w ++ map DELETE ids.
Proof.
  intros Hev Hidle. cbn zeta.
  assert (forall w0 : World,
            incl (rows (db w0)) (rows (db w0))
            /\ exists ids, issued w0 = issued w0 ++ map DELETE ids) as Hsame.
  { intros w0. split; [apply incl_refl | exists []; rewrite app_nil_r; reflexivity]. }
  destruct ev; cbn [rendered_by] in Hev; try discriminate Hev; cbn [App.step].
  - split; [exact Hidle | apply (Hsame w)].
  - destruct (nth_error (App.rendered host w) row) as [item |];
      [| split; [exact Hidle | apply Hsame]].
    unfold press. cbn [App.deleteExpense].
    unfold ExpenseScreen.deleteExpense, ExpenseScreen.loadExpenses. unfold_async.
    destruct (available (db w)) eqn:Ea; cbn; rewrite ?Ea; cbn.
    + split; [exact Hidle |]. split; [| exists [Expense.id item]; reflexivity].
      intros e He. apply filter_In in He. apply He.
    + split; [exact Hidle |]. split; [apply incl_refl | exists [Expense.id item]; reflexivity].
  - split; [exact Hidle | apply (Hsame w)].
  - split; [exact Hidle | apply (Hsame w)].
  - cbn [App.setup].
    unfold ExpenseScreen.setup, execAsync_create_table, ExpenseScreen.loadExpenses.
    unfold_async.
    cbn. destruct (available (db w)) eqn:Ea; cbn; rewrite ?Ea; cbn;
      (split; [reflexivity | apply (Hsame w)]).
Qed.

Lemma ExpenseScreen_stays_idle host NumberToString events w :
  Forall (fun ev => rendered_by ExpenseScreenJs ev = true) events ->
  editing_state (ui w) = idle ->
  editing_state (ui (run ExpenseScreenJs host NumberToString events w)) = idle.
Proof.
  intros Hev. revert w. induction Hev as [| ev events Hev _ IH]; intros w Hidle.
  - exact Hidle.
  - cbn [run fold_left]. apply IH.
    apply (ExpenseScreen_step host NumberToString ev w Hev Hidle).
Qed.

(** C4.  In every state the screen reaches from its launch through the
    controls it renders, a delete of the row that is being edited leaves the
    screen idle, the form emptied, and a delete of any other row, or a
    delete while no row is edited, leaves the editing state and the form as
    they were.  [part_000] does so by its reset ahead of the DELETE;
    [ExpenseScreen.js], whose screen has no way to select a row, is never
    editing. *)
Theorem delete_ends_the_edit_of_that_row (revision : Revision) (host : JS.Host)
    (NumberToString : JS.number -> string) (events : list App.Event) (now id : Z) :
  Forall (fun ev => rendered_by revision ev = true) events ->
  let w := run revision host NumberToString events (fresh_world now) in
  let w' := press (fun s => App.deleteExpense revision s id) w in
  (State.editingId (ui w) = Some id -> editing_state (ui w') = idle)
  /\ (State.editingId (ui w) <> Some id -> editing_state (ui w') = editing_state (ui w)).
Proof.
  intros Hev. cbn zeta. destruct revision; cbn [App.deleteExpense].
  - pose proof (ExpenseScreen_stays_idle host NumberToString events (fresh_world now)
                  Hev eq_refl) as Hidle.
    split.
    + intros H. unfold editing_state, idle in Hidle. congruence.
    + intros _. apply ExpenseScreen_delete_leaves_the_form.
  - split; [apply Part000_delete_of_edited_row | apply Part000_delete_of_other_row].
Qed.

Lemma delete_ends_the_edit_of_that_row_witness :
  let w := run Part000Js utc sample_NumberToString edit_after_five_days
             (fresh_world noon_2024_03_15) in
  editing_state (ui w) = (Some 1, "20", "Transport", "")
  /\ editing_state (ui (press (fun s => App.deleteExpense Part000Js s 1) w)) = idle.
Proof.
  split; [vm_compute; reflexivity |].
  apply (delete_ends_the_edit_of_that_row Part000Js utc sample_NumberToString
           edit_after_five_days noon_2024_03_15 1).
  - repeat constructor.
  - vm_compute. reflexivity.
Defined.

(** The handler of [ExpenseScreen.js] as it is written, in a state its
    screen does not reach: with row 7 selected for editing, [deleteExpense]
    deletes row 7 and leaves the screen editing row 7, the form untouched. *)
Example ExpenseScreen_delete_keeps_editing (w : World) :
  editing_state (ui (press (fun s => ExpenseScreen.deleteExpense s 7) (editing 7 w)))
  = (Some 7, State.amount (ui w), State.category (ui w), State.note (ui w)).
Proof.
  unfold ExpenseScreen.deleteExpense, press, editing.
  unfold ExpenseScreen.loadExpenses. unfold_async.
  cbn. destruct (available (db w)) eqn:Ea; cbn; rewrite ?Ea; reflexivity.
Qed.

(* ================================================================== *)
(** * Part X: editing keeps the date                                  *)
(* ================================================================== *)

Lemma insert_desc_permutation e l : Permutation (insert_desc e l) (e :: l).
Proof.
  induction l as [| e' r IH]; simpl; [apply Permutation_refl |].
  destruct (Expense.id e' <=? Expense.id e); [apply Permutation_refl |].
  eapply perm_trans; [apply perm_skip, IH | apply perm_swap].
Qed.

Lemma select_all_permutation db : Permutation (select_all db) (rows db).
Proof.
  unfold select_all. induction (rows db) as [| e r IH]; simpl; [constructor |].
  eapply perm_trans; [apply insert_desc_permutation | apply perm_skip, IH].
Qed.

Lemma find_by_unique_id (l : list Expense.t) (e : Expense.t) :
  NoDup (map Expense.id l) -> In e l ->
  find (fun x => Expense.id x =? Expense.id e) l = Some e.
Proof.
  induction l as [| x r IH]; simpl; [contradiction |].
  intros Hnd Hin. inversion Hnd as [| ? ? Hx Hr]; subst.
  destruct Hin as [-> | Hin].
  - rewrite Z.eqb_refl. reflexivity.
  - destruct (Z.eqb_spec (Expense.id x) (Expense.id e)) as [E | _].
    + exfalso. apply Hx. rewrite E. apply in_map. exact Hin.
    + apply IH; assumption.
Qed.

(** With unique ids, the list read from the table shows the stored row. *)
Lemma find_in_select_all db i e :
  NoDup (map Expense.id (rows db)) ->
  stored db i = Some e ->
  find (Screen.is_edited (Some i)) (select_all db) = Some e.
Proof.
  intros Hnd Hs. unfold stored in Hs.
  apply find_some in Hs. destruct Hs as [Hin Hid].
  apply Z.eqb_eq in Hid. subst i.
  change (Screen.is_edited (Some (Expense.id e)))
    with (fun x => Expense.id x =? Expense.id e).
  apply find_by_unique_id.
  - eapply Permutation_NoDup; [| exact Hnd].
    apply Permutation_map, Permutation_sym, select_all_permutation.
  - eapply Permutation_in; [apply Permutation_sym, select_all_permutation | exact Hin].
Qed.

Lemma stored_after_update db a c n d i e :
  stored db i = Some e ->
  stored (execute (UPDATE a c n d i) db) i = Some (Expense.mk (Expense.id e) a c n (Some d)).
Proof.
  unfold stored. simpl. induction (rows db) as [| x r IH]; simpl; [discriminate |].
  destruct (Z.eqb_spec (Expense.id x) i) as [E | E].
  - intros [= ->]. simpl. rewrite E, Z.eqb_refl. reflexivity.
  - intros H. simpl. destruct (Z.eqb_spec (Expense.id x) i); [contradiction |].
    apply IH, H.
Qed.

(** The date an edit writes is the one the list shows for the edited row. *)
Lemma save_statement_of_edit host s now i e d :
  State.editingId s = Some i ->
  find (Screen.is_edited (Some i)) (State.expenses s) = Some e ->
  Expense.date e = Some d -> d <> "" ->
  save_statement host s now
  = UPDATE (JS.parseFloat (State.amount s)) (JS.trim (State.category s))
           (Screen.note_or_null (JS.trim (State.note s))) d i.
Proof.
  intros Hi Hf Hd Hne. unfold save_statement. rewrite Hi, Hf.
  unfold Screen.date_or_today, Screen.no_date, Screen.date_text. rewrite Hd.
  destruct d; [contradiction | reflexivity].
Qed.

Lemma date_after_save host s db now i e d :
  State.editingId s = Some i ->
  find (Screen.is_edited (Some i)) (State.expenses s) = Some e ->
  stored db i = Some e ->
  Expense.date e = Some d -> d <> "" ->
  option_map Expense.date (stored (after_statement (save_statement host s now) db) i)
  = Some (Some d).
Proof.
  intros Hi Hf Hs Hd Hne. unfold after_statement.
  destruct (available db).
  - rewrite (save_statement_of_edit host s now i e d Hi Hf Hd Hne).
    rewrite (stored_after_update _ _ _ _ _ _ _ Hs). reflexivity.
  - rewrite Hs. simpl. rewrite Hd. reflexivity.
Qed.

(** While a row is selected for editing, the list on screen being the
    content of the table and the stored date being present, a save leaves
    the stored date of that row as it was, whatever the form holds and
    whether or not the database answers, in both revisions. *)
Lemma date_kept_when_list_is_current (host : JS.Host) (w : World) (i : Z)
    (e : Expense.t) (d : string) :
  State.editingId (ui w) = Some i ->
  State.expenses (ui w) = select_all (db w) ->
  NoDup (map Expense.id (rows (db w))) ->
  stored (db w) i = Some e ->
  Expense.date e = Some d -> d <> "" ->
  option_map Expense.date
    (stored (db (press (ExpenseScreen.handleSaveExpense host) w)) i) = Some (Some d)
  /\ option_map Expense.date
       (stored (db (press (Part000.handleSaveExpense host) w)) i) = Some (Some d).
Proof.
  intros Hi Hsync Hnd Hs Hd Hne.
  assert (find (Screen.is_edited (Some i)) (State.expenses (ui w)) = Some e) as Hf.
  { rewrite Hsync. apply find_in_select_all; assumption. }
  unfold press.
  destruct (Spec.validate (State.amount (ui w)) (State.category (ui w))) as [r | v] eqn:Hv.
  - rewrite (ExpenseScreen_refusal_changes_nothing host _ w r Hv).
    destruct (Part000_refusal_alerts host _ w r Hv) as (t & m & E & _).
    rewrite E. simpl. rewrite Hs. simpl. rewrite Hd. auto.
  - destruct (ExpenseScreen_accepted_issues host (ui w) w v Hv) as [_ ->].
    destruct (Part000_accepted_issues host (ui w) w v Hv) as [_ ->].
    split; apply (date_after_save host (ui w) (db w) (clock w) i e d); assumption.
Qed.

Example date_kept_five_days_later :
  option_map Expense.date
    (stored (db (press (ExpenseScreen.handleSaveExpense utc) edit_five_days_later)) 1)
    = Some (Some "2024-03-15")
  /\ option_map Expense.date
       (stored (db (press (Part000.handleSaveExpense utc) edit_five_days_later)) 1)
     = Some (Some "2024-03-15").
Proof.
  apply (date_kept_when_list_is_current utc edit_five_days_later 1
           (Expense.mk 1 12.5%float "Food" None (Some "2024-03-15")) "2024-03-15").
  - reflexivity.
  - vm_compute. reflexivity.
  - vm_compute. constructor; [intros [] | constructor].
  - vm_compute. reflexivity.
  - reflexivity.
  - discriminate.
Qed.

Example edit_five_days_later_rows :
  rows (db (press (Part000.handleSaveExpense utc) edit_five_days_later))
  = [Expense.mk 1 20%float "Transport" None (Some "2024-03-15")].
Proof. vm_compute. reflexivity. Qed.

(** ** The table and the list in every reachable world *)

Lemma stored_none d i :
  stored d i = None <-> forall e, In e (rows d) -> Expense.id e <> i.
Proof.
  unfold stored. split.
  - intros H e He E. apply (find_none _ _ H) in He. apply Z.eqb_neq in He. contradiction.
  - intros H. destruct (find _ _) as [e |] eqn:E; [| reflexivity].
    apply find_some in E. destruct E as [He Hi]. apply Z.eqb_eq in Hi.
    exfalso. exact (H e He Hi).
Qed.

Lemma consistent_with_idle exps eid d :
  consistent_with exps eid d -> consistent_with exps None d.
Proof.
  intros (H1 & H2 & H3 & _).
  split; [exact H1 |]. split; [exact H2 |]. split; [exact H3 | discriminate].
Qed.

Lemma consistent_with_same_rows exps eid d d' :
  rows d' = rows d -> sequence d' = sequence d ->
  consistent_with exps eid d -> consistent_with exps eid d'.
Proof.
  intros Hr Hs (H1 & H2 & H3 & H4).
  unfold consistent_with, listed_as_stored, stored in *. rewrite Hr, Hs.
  split; [exact H1 |]. split; [exact H2 |]. split; [exact H3 | exact H4].
Qed.

Lemma select_all_In d e : In e (select_all d) <-> In e (rows d).
Proof.
  split; intros H.
  - eapply Permutation_in; [apply select_all_permutation | exact H].
  - eapply Permutation_in; [apply Permutation_sym, select_all_permutation | exact H].
Qed.

Lemma unique_by_id (l : list Expense.t) (e e' : Expense.t) :
  NoDup (map Expense.id l) -> In e l -> In e' l -> Expense.id e' = Expense.id e -> e' = e.
Proof.
  intros Hnd He He' Hid.
  pose proof (find_by_unique_id l e Hnd He) as F.
  pose proof (find_by_unique_id l e' Hnd He') as F'.
  rewrite Hid in F'. congruence.
Qed.

(** Reading the table makes the list consistent with it. *)
Lemma consistent_with_load exps eid d :
  consistent_with exps eid d -> consistent_with (select_all d) eid d.
Proof.
  intros (H1 & H2 & H3 & H4).
  split; [exact H1 |]. split; [exact H2 |]. split.
  - apply Forall_forall. intros e He. apply select_all_In in He.
    pose proof (proj1 (Forall_forall _ _) H2 e He) as [Hd Hi].
    split; [exact Hd |]. split; [exact Hi |].
    intros e' He' Hid. rewrite (unique_by_id _ e e' H1 He He' Hid). reflexivity.
  - intros i Hi. split; [apply (H4 i Hi) |].
    destruct (stored d i) as [e |] eqn:E; [left | right; reflexivity].
    unfold stored in E. apply find_some in E. destruct E as [He Hid].
    apply Z.eqb_eq in Hid. exists e. split; [apply select_all_In, He | exact Hid].
Qed.

Lemma max_id_bound (l : list Expense.t) (b : Z) :
  0 <= b -> Forall (fun e => Expense.id e <= b) l -> max_id l <= b.
Proof. intros Hb H. induction H as [| e r He _ IH]; simpl; lia. Qed.

Lemma sequence_nonneg_fact (l : list Expense.t) : 0 <= max_id l.
Proof. induction l as [| e r IH]; simpl; lia. Qed.

(** The id an INSERT hands out is above every id handed out before. *)
Lemma insert_id_fresh d :
  sequence d < Z.max (sequence d) (max_id (rows d)) + 1.
Proof. lia. Qed.

Lemma consistent_with_insert exps eid d a c n dstr :
  dstr <> "" ->
  consistent_with exps eid d ->
  consistent_with exps eid (execute (INSERT a c n dstr) d).
Proof.
  intros Hd (H1 & H2 & H3 & H4).
  assert (Forall (fun e => Expense.id e <= sequence d) (rows d)) as Hb.
  { eapply Forall_impl; [| exact H2]. simpl. intros e [_ H]. exact H. }
  set (j := Z.max (sequence d) (max_id (rows d)) + 1).
  assert (sequence d < j) as Hj by (subst j; lia).
  unfold consistent_with, listed_as_stored. cbn [execute rows sequence]. fold j.
  split; [| split; [| split]].
  - rewrite map_app. cbn [map Expense.id].
    apply NoDup_app; [exact H1 | repeat constructor; intros [] | ].
    intros x Hx [<- | []]. apply in_map_iff in Hx. destruct Hx as (e & He & Hin).
    pose proof (proj1 (Forall_forall _ _) Hb e Hin). simpl in *. lia.
  - apply Forall_app. split.
    + eapply Forall_impl; [| exact H2]. simpl. intros e [? ?]. split; [assumption | lia].
    + repeat constructor; cbn; [| lia].
      unfold Screen.no_date. cbn. destruct dstr; [contradiction | reflexivity].
  - eapply Forall_impl; [| exact H3]. intros e (Hnd & Hi & Hagree).
    split; [exact Hnd |]. split; [lia |].
    intros e' He' Hid. apply in_app_or in He'. destruct He' as [He' | [<- | []]].
    + apply Hagree; assumption.
    + cbn in Hid. lia.
  - intros i Hi. destruct (H4 i Hi) as [Hle Hor]. split; [lia |].
    destruct Hor as [Hl | Hs]; [left; exact Hl | right].
    apply stored_none. cbn [rows]. intros e He.
    apply in_app_or in He. destruct He as [He | [<- | []]].
    + apply (proj1 (stored_none d i) Hs e He).
    + cbn. lia.
Qed.

Lemma consistent_with_delete exps eid d k :
  consistent_with exps eid d ->
  consistent_with exps eid (execute (DELETE k) d).
Proof.
  intros (H1 & H2 & H3 & H4).
  unfold consistent_with, listed_as_stored. cbn [execute rows sequence].
  set (keep := fun e => negb (Expense.id e =? k)).
  split; [| split; [| split]].
  - clear -H1. induction (rows d) as [| e r IH]; simpl; [constructor |].
    inversion H1 as [| ? ? Hx Hr]; subst.
    destruct (keep e); simpl; [| apply IH, Hr].
    constructor; [| apply IH, Hr].
    intros Hin. apply Hx. apply in_map_iff in Hin. destruct Hin as (x & E & Hin).
    apply filter_In in Hin. rewrite <- E. apply in_map, Hin.
  - apply Forall_forall. intros e He. apply filter_In in He.
    apply (proj1 (Forall_forall _ _) H2 e), He.
  - eapply Forall_impl; [| exact H3]. intros e (Hnd & Hi & Hagree).
    split; [exact Hnd |]. split; [exact Hi |].
    intros e' He' Hid. apply filter_In in He'. apply Hagree; [apply He' | exact Hid].
  - intros i Hi. destruct (H4 i Hi) as [Hle Hor]. split; [exact Hle |].
    destruct Hor as [Hl | Hs]; [left; exact Hl | right].
    apply stored_none. cbn [rows]. intros e He. apply filter_In in He.
    apply (proj1 (stored_none d i) Hs e), He.
Qed.

Lemma consistent_with_select exps eid d e :
  In e exps -> consistent_with exps eid d ->
  consistent_with exps (Some (Expense.id e)) d.
Proof.
  intros He (H1 & H2 & H3 & H4).
  split; [exact H1 |]. split; [exact H2 |]. split; [exact H3 |].
  intros i [= <-]. split.
  - apply (proj1 (Forall_forall _ _) H3 e He).
  - left. exists e. split; [exact He | reflexivity].
Qed.

(** An UPDATE that writes to each row of the id the date it has changes no
    id and no date. *)
Lemma update_keeps_ids_and_dates d a c n dstr i :
  (forall e, In e (rows d) -> Expense.id e = i -> Expense.date e = Some dstr) ->
  map Expense.id (rows (execute (UPDATE a c n dstr i) d)) = map Expense.id (rows d)
  /\ map Expense.date (rows (execute (UPDATE a c n dstr i) d)) = map Expense.date (rows d).
Proof.
  cbn [execute rows]. induction (rows d) as [| e r IH]; intros H; [split; reflexivity |].
  destruct IH as [IH1 IH2]; [intros x Hx; apply H; right; exact Hx |].
  cbn [map]. rewrite IH1, IH2.
  destruct (Z.eqb_spec (Expense.id e) i) as [E | _]; [| split; reflexivity].
  cbn. rewrite (H e (or_introl eq_refl) E). split; reflexivity.
Qed.

Lemma rows_by_id_and_date (l l' : list Expense.t) :
  map Expense.id l' = map Expense.id l ->
  map Expense.date l' = map Expense.date l ->
  forall e', In e' l' -> exists e, In e l /\ Expense.id e = Expense.id e'
                                   /\ Expense.date e = Expense.date e'.
Proof.
  revert l'. induction l as [| x r IH]; intros [| x' r'] Hi Hd e' He';
    try discriminate; [contradiction |].
  cbn in Hi, Hd. injection Hi as Hi1 Hi2. injection Hd as Hd1 Hd2.
  destruct He' as [<- | He'].
  - exists x. split; [left; reflexivity | split; congruence].
  - destruct (IH r' Hi2 Hd2 e' He') as (e & He & E1 & E2).
    exists e. split; [right; exact He | split; assumption].
Qed.

Lemma consistent_with_same_ids_and_dates exps eid d d' :
  map Expense.id (rows d') = map Expense.id (rows d) ->
  map Expense.date (rows d') = map Expense.date (rows d) ->
  sequence d' = sequence d ->
  consistent_with exps eid d -> consistent_with exps eid d'.
Proof.
  intros Hi Hd Hs (H1 & H2 & H3 & H4).
  pose proof (rows_by_id_and_date (rows d) (rows d') Hi Hd) as Hback.
  unfold consistent_with, listed_as_stored. rewrite Hi, Hs.
  split; [exact H1 |]. split; [| split].
  - apply Forall_forall. intros e' He'. destruct (Hback e' He') as (e & He & E1 & E2).
    pose proof (proj1 (Forall_forall _ _) H2 e He) as [Hnd Hle].
    unfold Screen.no_date in *. rewrite <- E2, <- E1. split; assumption.
  - eapply Forall_impl; [| exact H3]. intros e (Hnd & Hle & Hagree).
    split; [exact Hnd |]. split; [exact Hle |].
    intros e' He' Hid. destruct (Hback e' He') as (e0 & He0 & E1 & E2).
    rewrite <- E2. apply Hagree; [exact He0 | congruence].
  - intros i Hi'. destruct (H4 i Hi') as [Hle Hor]. split; [exact Hle |].
    destruct Hor as [Hl | Hst]; [left; exact Hl | right].
    apply stored_none. intros e' He' Hid. destruct (Hback e' He') as (e0 & He0 & E1 & E2).
    apply (proj1 (stored_none d i) Hst e0 He0). congruence.
Qed.

(** The UPDATE of a save writes, to the row being edited, the date it has. *)
Lemma edit_writes_stored_date host exps d i today :
  consistent_with exps (Some i) d ->
  forall e, In e (rows d) -> Expense.id e = i ->
    Expense.date e
    = Some (Screen.date_or_today host (find (Screen.is_edited (Some i)) exps) today).
Proof.
  intros (H1 & H2 & H3 & H4) e He Hid.
  destruct (H4 i eq_refl) as [_ [(x & Hx & Hxi) | Hs]].
  - destruct (find (Screen.is_edited (Some i)) exps) as [y |] eqn:F.
    + apply find_some in F. destruct F as [Hy Hyi].
      unfold Screen.is_edited, Screen.same_id in Hyi. apply Z.eqb_eq in Hyi.
      pose proof (proj1 (Forall_forall _ _) H3 y Hy) as (Hnd & _ & Hagree).
      unfold Screen.date_or_today. rewrite Hnd.
      rewrite (Hagree e He ltac:(congruence)).
      unfold Screen.no_date, Screen.date_text in *.
      destruct (Expense.date y); [reflexivity | discriminate].
    + exfalso. apply (find_none _ _ F) in Hx.
      unfold Screen.is_edited, Screen.same_id in Hx. apply Z.eqb_neq in Hx. contradiction.
  - exfalso. apply (proj1 (stored_none d i) Hs e He Hid).
Qed.

Lemma consistent_with_update host exps d i a c n today :
  consistent_with exps (Some i) d ->
  consistent_with exps (Some i)
    (execute (UPDATE a c n
                (Screen.date_or_today host (find (Screen.is_edited (Some i)) exps) today) i) d).
Proof.
  intros H.
  destruct (update_keeps_ids_and_dates d a c n
              (Screen.date_or_today host (find (Screen.is_edited (Some i)) exps) today) i
              (edit_writes_stored_date host exps d i today H)) as [Hi Hd].
  eapply consistent_with_same_ids_and_dates; [exact Hi | exact Hd | reflexivity | exact H].
Qed.

Lemma append_nonempty (a b : string) : b <> "" -> String.append a b <> "".
Proof. destruct a; simpl; [auto | discriminate]. Qed.

(** The date a save writes is never empty. *)
Lemma date_or_today_nonempty host existing today :
  Screen.date_or_today host existing today <> "".
Proof.
  assert (Screen.getTodayString host today <> "") as Ht.
  { unfold Screen.getTodayString. apply append_nonempty. discriminate. }
  unfold Screen.date_or_today. destruct existing as [e |]; [| exact Ht].
  destruct (Screen.no_date e) eqn:E; [exact Ht |].
  unfold Screen.no_date, Screen.date_text in *.
  destruct (Expense.date e) as [[| c r] |]; discriminate.
Qed.

(** A save leaves the table and the state as they were, or executes its
    statement, leaves editing and shows the table as it then is. *)
Lemma save_outcome revision host w :
  let w' := press (App.handleSaveExpense revision host) w in
  (State.expenses (ui w') = State.expenses (ui w)
   /\ State.editingId (ui w') = State.editingId (ui w)
   /\ db w' = db w)
  \/ (db w' = execute (save_statement host (ui w) (clock w)) (db w)
      /\ State.expenses (ui w') = select_all (db w')
      /\ State.editingId (ui w') = None).
Proof.
  cbn zeta. unfold press.
  destruct (Spec.validate (State.amount (ui w)) (State.category (ui w))) as [r | v] eqn:Hv.
  - left. destruct revision; cbn [App.handleSaveExpense].
    + rewrite (ExpenseScreen_refusal_changes_nothing host _ w r Hv).
      cbn [snd]. auto.
    + destruct (Part000_refusal_alerts host _ w r Hv) as (t & m & E & _).
      rewrite E. unfold Alert_alert. cbn. auto.
  - destruct (validate_accepted_cases _ _ _ Hv) as (Hg & Ht & Ha & _).
    destruct revision; cbn [App.handleSaveExpense].
    + unfold ExpenseScreen.handleSaveExpense, save_statement.
      rewrite Hg, Ht. cbn [negb]. unfold ExpenseScreen.loadExpenses. unfold_async.
      destruct (State.editingId (ui w)) eqn:Ei; cbn;
        destruct (available (db w)) eqn:Ea; cbn; rewrite ?Ea, ?Ei; cbn;
        solve [left; split; [reflexivity | split; reflexivity]
              | right; split; [reflexivity | split; reflexivity]].
    + unfold Part000.handleSaveExpense, save_statement.
      rewrite Hg, Ht, Ha. cbn [negb]. unfold Part000.loadExpenses. unfold_async.
      destruct (State.editingId (ui w)) eqn:Ei; cbn;
        destruct (available (db w)) eqn:Ea; cbn; rewrite ?Ea, ?Ei; cbn;
        solve [left; split; [reflexivity | split; reflexivity]
              | right; split; [reflexivity | split; reflexivity]].
Qed.

Lemma delete_outcome revision w k :
  let w' := press (fun s => App.deleteExpense revision s k) w in
  (State.editingId (ui w') = State.editingId (ui w) \/ State.editingId (ui w') = None)
  /\ ((State.expenses (ui w') = State.expenses (ui w) /\ db w' = db w)
      \/ (db w' = execute (DELETE k) (db w)
          /\ State.expenses (ui w') = select_all (db w'))).
Proof.
  cbn zeta. unfold press. destruct revision; cbn [App.deleteExpense].
  - unfold ExpenseScreen.deleteExpense, ExpenseScreen.loadExpenses. unfold_async.
    destruct (available (db w)) eqn:Ea; cbn; rewrite ?Ea; cbn;
      (split; [auto |]);
      solve [left; split; reflexivity | right; split; reflexivity].
  - unfold Part000.deleteExpense, Part000.loadExpenses. unfold_async.
    destruct (Screen.same_id (State.editingId (ui w)) k) eqn:Ei; cbn;
      destruct (available (db w)) eqn:Ea; cbn; rewrite ?Ea; cbn;
      (split; [auto |]);
      solve [left; split; reflexivity | right; split; reflexivity].
Qed.

Lemma setup_outcome revision w :
  let w' := snd (App.setup revision w) in
  State.editingId (ui w') = State.editingId (ui w)
  /\ db w' = db w
  /\ issued w' = issued w
  /\ (State.expenses (ui w') = State.expenses (ui w)
      \/ State.expenses (ui w') = select_all (db w)).
Proof.
  cbn zeta. destruct revision; cbn [App.setup].
  - unfold ExpenseScreen.setup, execAsync_create_table, ExpenseScreen.loadExpenses.
    unfold_async. destruct (available (db w)) eqn:Ea; cbn; rewrite ?Ea; cbn; auto.
  - unfold Part000.setup, execAsync_create_table, Part000.loadExpenses.
    unfold_async. destruct (available (db w)) eqn:Ea; cbn; rewrite ?Ea; cbn; auto.
Qed.

Lemma startEdit_outcome revision NumberToString item w :
  let w' := snd (App.startEditExpense revision NumberToString item w) in
  State.editingId (ui w') = Some (Expense.id item)
  /\ State.expenses (ui w') = State.expenses (ui w)
  /\ db w' = db w.
Proof. cbn zeta. destruct revision; cbn; auto. Qed.

Lemma rendered_listed host w item n :
  nth_error (App.rendered host w) n = Some item -> In item (State.expenses (ui w)).
Proof.
  intros H. apply nth_error_In in H. unfold App.rendered, Screen.getFilteredExpenses in H.
  destruct (State.filter (ui w)); [exact H | |]; apply filter_In in H; apply H.
Qed.

Lemma consistent_by_parts w w' :
  State.expenses (ui w') = State.expenses (ui w) ->
  State.editingId (ui w') = State.editingId (ui w) ->
  rows (db w') = rows (db w) -> sequence (db w') = sequence (db w) ->
  consistent w -> consistent w'.
Proof.
  unfold consistent. intros -> -> Hr Hs H.
  eapply consistent_with_same_rows; eassumption.
Qed.

Lemma consistent_after_statement host w :
  consistent w ->
  consistent_with (State.expenses (ui w)) (State.editingId (ui w))
    (execute (save_statement host (ui w) (clock w)) (db w)).
Proof.
  unfold consistent, save_statement. intros H.
  destruct (State.editingId (ui w)) as [i |] eqn:E.
  - apply consistent_with_update, H.
  - apply consistent_with_insert; [apply date_or_today_nonempty | exact H].
Qed.

(** Every event keeps the table and the list consistent. *)
Lemma step_consistent revision host NumberToString ev w :
  consistent w -> consistent (App.step revision host NumberToString ev w).
Proof.
  intros H. destruct ev; cbn [App.step].
  - apply (consistent_by_parts w); auto.
  - apply (consistent_by_parts w); auto.
  - apply (consistent_by_parts w); auto.
  - apply (consistent_by_parts w); auto.
  - destruct (save_outcome revision host w) as [(E1 & E2 & E3) | (E1 & E2 & E3)].
    + apply (consistent_by_parts w); try assumption; rewrite E3; reflexivity.
    + unfold consistent. rewrite E2, E3, E1.
      eapply consistent_with_load, (consistent_with_idle _ (State.editingId (ui w))).
      apply consistent_after_statement, H.
  - destruct (nth_error (App.rendered host w) row) as [item |]; [| exact H].
    destruct (delete_outcome revision w (Expense.id item)) as [Hid Hrest].
    assert (forall exps d, consistent_with exps (State.editingId (ui w)) d ->
              consistent_with exps
                (State.editingId (ui (press (fun s => App.deleteExpense revision s (Expense.id item)) w))) d)
      as Hed.
    { intros exps d Hc. destruct Hid as [-> | ->]; [exact Hc |].
      eapply consistent_with_idle, Hc. }
    unfold consistent. destruct Hrest as [(E1 & E2) | (E1 & E2)].
    + rewrite E1, E2. apply Hed, H.
    + rewrite E2, E1. apply Hed. eapply consistent_with_load, consistent_with_delete, H.
  - destruct (nth_error (App.rendered host w) row) as [item |] eqn:En; [| exact H].
    destruct (startEdit_outcome revision NumberToString item w) as (E1 & E2 & E3).
    unfold consistent. rewrite E1, E2, E3.
    eapply consistent_with_select; [eapply rendered_listed, En | exact H].
  - unfold consistent. cbn.
    eapply consistent_with_idle, H.
  - exact H.
  - eapply (consistent_by_parts w); auto.
  - destruct (setup_outcome revision (App.unmounted w)) as (E1 & E2 & _ & E3).
    assert (consistent_with [] None (db w)) as H0.
    { destruct H as (H1 & H2 & _ & _).
      split; [exact H1 |]. split; [exact H2 |]. split; [constructor | discriminate]. }
    unfold consistent. rewrite E1, E2. cbn [App.unmounted ui db State.editingId initial_state].
    destruct E3 as [-> | ->]; cbn [App.unmounted ui db State.expenses initial_state].
    + exact H0.
    + eapply consistent_with_load, H0.
Qed.

Lemma launch_consistent now : consistent (fresh_world now).
Proof.
  unfold consistent, fresh_world, consistent_with. cbn.
  split; [constructor |]. split; [constructor |]. split; [constructor | discriminate].
Qed.

(** The table and the list are consistent in every world the screen reaches. *)
Lemma reachable_consistent revision host NumberToString w :
  App.reachable revision host NumberToString w -> consistent w.
Proof.
  induction 1 as [now | ev w _ IH]; [apply launch_consistent | apply step_consistent, IH].
Qed.

(** ** Editing in a reachable world *)

Lemma reachable_run revision host NumberToString events w :
  App.reachable revision host NumberToString w ->
  App.reachable revision host NumberToString (run revision host NumberToString events w).
Proof.
  revert w. induction events as [| ev events IH]; intros w Hw; [exact Hw |].
  cbn [run fold_left]. apply IH. apply App.reachable_step. exact Hw.
Qed.

Lemma stored_In d i e : stored d i = Some e -> In e (rows d) /\ Expense.id e = i.
Proof.
  unfold stored. intros H. apply find_some in H. destruct H as [H1 H2].
  apply Z.eqb_eq in H2. auto.
Qed.

(** C3.  In every world the screen can reach, in either revision, a save
    made while a row is selected for editing leaves the stored date of that
    row as it was: whatever the form holds, whatever the clock shows and
    whether or not the database answers. *)
Theorem edit_preserves_date (revision : Revision) (host : JS.Host)
    (NumberToString : JS.number -> string) (w : World) (i : Z) (e : Expense.t) :
  App.reachable revision host NumberToString w ->
  State.editingId (ui w) = Some i ->
  stored (db w) i = Some e ->
  option_map Expense.date
    (stored (db (press (App.handleSaveExpense revision host) w)) i)
  = Some (Expense.date e).
Proof.
  intros Hr Hi Hs.
  pose proof (reachable_consistent _ _ _ _ Hr) as Hc.
  unfold consistent in Hc. rewrite Hi in Hc.
  destruct (stored_In _ _ _ Hs) as [He Hid].
  pose proof (edit_writes_stored_date host _ _ _ (Some (clock w)) Hc e He Hid) as Hd.
  destruct (save_outcome revision host w) as [(_ & _ & ->) | (-> & _ & _)].
  - rewrite Hs. reflexivity.
  - unfold save_statement. rewrite Hi.
    rewrite (stored_after_update _ _ _ _ _ _ _ Hs). cbn [option_map Expense.date].
    rewrite Hd. reflexivity.
Qed.

Lemma edit_preserves_date_witness :
  option_map Expense.date
    (stored (db (press (App.handleSaveExpense Part000Js utc)
                   (run Part000Js utc sample_NumberToString edit_after_five_days
                      (fresh_world noon_2024_03_15)))) 1)
  = Some (Some "2024-03-15").
Proof.
  apply (edit_preserves_date Part000Js utc sample_NumberToString
           (run Part000Js utc sample_NumberToString edit_after_five_days
              (fresh_world noon_2024_03_15))
           1 (Expense.mk 1 12.5%float "Food" None (Some "2024-03-15"))).
  - apply reachable_run, App.reachable_launch.
  - vm_compute. reflexivity.
  - vm_compute. reflexivity.
Defined.

(* ================================================================== *)
(** * Part XI: the time windows                                       *)
(* ================================================================== *)

(** [YearFromTime] is the year ECMA-262 defines: the one whose first day is
    at or before the day of [t], and whose successor starts after it. *)
Lemma YearFromTime_spec (t : Z) :
  JS.DayFromYear (JS.YearFromTime t) <= JS.Day t
  < JS.DayFromYear (JS.YearFromTime t + 1).
Proof.
  unfold JS.YearFromTime. generalize (JS.Day t) as d. intro d. cbv zeta.
  destruct (Z.ltb_spec d (JS.DayFromYear (1970 + 400 * d / 146097))) as [H | H].
  - unfold JS.DayFromYear in *. Z.div_mod_to_equations. lia.
  - destruct (Z.leb_spec (JS.DayFromYear (1970 + 400 * d / 146097 + 1)) d) as [H2 | H2];
      unfold JS.DayFromYear in *; Z.div_mod_to_equations; lia.
Qed.

(** The calendar of the example: 2024-03-15 is a Friday, 2024-03-10 the
    Sunday before it. *)
Example weekdays_of_the_example :
  JS.getDay utc (JS.Date_of_string utc "2024-03-15") = Some 5
  /\ JS.getDay utc (JS.Date_of_string utc "2024-03-10") = Some 0
  /\ JS.getDay utc (JS.Date_of_string utc "2024-03-09") = Some 6.
Proof. vm_compute. repeat split. Qed.

(** C2, in a zone behind UTC.  At noon of 2024-03-15 local time, five hours
    behind UTC, the WEEK filter drops the record dated 2024-03-10: [new
    Date("2024-03-10")] is midnight UTC, which is 19:00 of Saturday the 9th
    local time, before the local midnight that starts the week. *)
Theorem week_filter_behind_utc :
  let today := Some (noon_2024_03_15 + 18000000) in
  Screen.getTodayString utc_minus_5 today = "2024-03-15"
  /\ Screen.getFilteredExpenses utc_minus_5 WEEK three_records today = []
  /\ Screen.getFilteredExpenses utc_minus_5 MONTH three_records today
     = [dated 1 "2024-03-10"; dated 2 "2024-03-09"]
  /\ Screen.getFilteredExpenses utc_minus_5 ALL three_records today = three_records.
Proof. vm_compute. repeat split. Qed.

(** The same week, seen from the same zone: the record of the Sunday after
    the week is let in. *)
Example next_sunday_in_week_behind_utc :
  Screen.getFilteredExpenses utc_minus_5 WEEK
    [dated 1 "2024-03-10"; dated 2 "2024-03-16"; dated 3 "2024-03-17"]
    (Some (noon_2024_03_15 + 18000000))
  = [dated 2 "2024-03-16"; dated 3 "2024-03-17"].
Proof. vm_compute. reflexivity. Qed.

(** ** Records without a usable date *)

Lemma filter_drops {A} (p : A -> bool) (l : list A) (x : A) :
  p x = false -> ~ In x (List.filter p l).
Proof. intros H Hin. apply filter_In in Hin. destruct Hin as [_ E]. congruence. Qed.

(** C5, as the code has it.  A record whose date is absent (missing or
    empty), or is a string that [Date] makes an invalid date of, is in
    neither the WEEK nor the MONTH result and stays in the ALL result; the
    filter is a total function, so no such record makes it fail. *)
Theorem unusable_date_matches_no_window (host : JS.Host) (today : JS.Date)
    (expenses : list Expense.t) (exp : Expense.t) :
  Screen.no_date exp = true \/ JS.Date_parse host (Screen.date_text exp) = None ->
  ~ In exp (Screen.getFilteredExpenses host WEEK expenses today)
  /\ ~ In exp (Screen.getFilteredExpenses host MONTH expenses today)
  /\ (In exp expenses <-> In exp (Screen.getFilteredExpenses host ALL expenses today)).
Proof.
  intros H. repeat split; try (simpl; tauto).
  - apply filter_drops. unfold Screen.in_week.
    destruct H as [-> | H]; [reflexivity |].
    destruct (Screen.no_date exp); [reflexivity |].
    unfold JS.Date_of_string. rewrite H. reflexivity.
  - apply filter_drops. unfold Screen.in_month.
    destruct H as [-> | H]; [reflexivity |].
    destruct (Screen.no_date exp); [reflexivity |].
    unfold JS.Date_of_string. rewrite H. reflexivity.
Qed.

Lemma unusable_date_matches_no_window_witness :
  let exp := dated 1 "15/03/2024" in
  let expenses := [dated 1 "15/03/2024"; dated 2 "2024-03-15"] in
  let today := Some noon_2024_03_15 in
  ~ In exp (Screen.getFilteredExpenses utc WEEK expenses today)
  /\ ~ In exp (Screen.getFilteredExpenses utc MONTH expenses today)
  /\ (In exp expenses <-> In exp (Screen.getFilteredExpenses utc ALL expenses today)).
Proof.
  apply (unusable_date_matches_no_window utc (Some noon_2024_03_15)
           [dated 1 "15/03/2024"; dated 2 "2024-03-15"] (dated 1 "15/03/2024")).
  right. vm_compute. reflexivity.
Defined.

(** C5 as stated fails: the text [2024-03] is not in the stored format, yet
    it is a date-only form that [Date] reads as the first of March, so in
    March 2024 the MONTH filter keeps the record. *)
Lemma malformed_date_in_month :
  Spec.well_formed_date "2024-03" = false
  /\ Screen.getFilteredExpenses utc MONTH [dated 1 "2024-03"] (Some noon_2024_03_15)
     = [dated 1 "2024-03"].
Proof. vm_compute. split; reflexivity. Qed.
Lemma Day_MakeDate d time :
  0 <= time < JS.msPerDay -> JS.Day (JS.MakeDate d time) = d.
Proof.
  intros H. unfold JS.Day, JS.MakeDate, JS.msPerDay in *.
  rewrite Z.add_comm, Z.div_add by lia. rewrite Z.div_small by lia. lia.
Qed.

Lemma TimeWithinDay_MakeDate d time :
  0 <= time < JS.msPerDay -> JS.TimeWithinDay (JS.MakeDate d time) = time.
Proof.
  intros H. unfold JS.TimeWithinDay, JS.MakeDate, JS.msPerDay in *.
  rewrite Z.add_comm, Z.mod_add by lia. apply Z.mod_small. lia.
Qed.

Lemma time_decomposition t :
  t = JS.MakeDate (JS.Day t) (JS.TimeWithinDay t) /\ 0 <= JS.TimeWithinDay t < JS.msPerDay.
Proof.
  unfold JS.MakeDate, JS.Day, JS.TimeWithinDay, JS.msPerDay. split.
  - pose proof (Z.div_mod t 86400000). lia.
  - apply Z.mod_pos_bound. lia.
Qed.

(** The calendar fields of a time value depend on its day only. *)
Lemma fields_by_day t d :
  JS.Day t = d ->
  JS.YearFromTime t = JS.YearFromTime (JS.MakeDate d 0)
  /\ JS.MonthFromTime t = JS.MonthFromTime (JS.MakeDate d 0)
  /\ JS.DateFromTime t = JS.DateFromTime (JS.MakeDate d 0)
  /\ JS.WeekDay t = JS.WeekDay (JS.MakeDate d 0).
Proof.
  intros H.
  assert (JS.Day (JS.MakeDate d 0) = d) as E by (apply Day_MakeDate; unfold JS.msPerDay; lia).
  unfold JS.DateFromTime, JS.MonthFromTime, JS.InLeapYear, JS.DayWithinYear, JS.WeekDay, JS.YearFromTime.
  rewrite H, E. repeat split.
Qed.

Lemma week_bounds_fixed_offset off now :
  - JS.msPerDay < off < JS.msPerDay ->
  JS.Day (now + off) = 19797 ->
  Screen.startOfWeek (JS.fixed_offset_host off) (Some now) = Some (JS.MakeDate 19792 0 - off)
  /\ Screen.endOfWeek (JS.fixed_offset_host off) (Some now) = Some (JS.MakeDate 19798 86399999 - off).
Proof.
  intros Hoff Hday.
  destruct (time_decomposition (now + off)) as [Hdec Htwd].
  destruct (fields_by_day (now + off) 19797 Hday) as (Hy & Hm & Hd & Hw).
  assert (Screen.startOfWeek (JS.fixed_offset_host off) (Some now) = Some (JS.MakeDate 19792 0 - off)) as Hs.
  { unfold Screen.startOfWeek, JS.getDate, JS.getDay, JS.setDate, JS.LocalTime, JS.UTC.
    cbn [JS.LocalTZA JS.fixed_offset_host option_map JS.number_sub].
    rewrite Hy, Hm, Hd, Hw.
    change (JS.MakeDay _ _ _) with 19792.
    unfold JS.TimeClip.
    set (twd := JS.TimeWithinDay (now + off)) in *.
    destruct (Z.leb_spec (Z.abs (JS.MakeDate 19792 twd - off)) 8640000000000000) as [_ | Hbad];
      [| unfold JS.MakeDate, JS.msPerDay in *; lia].
    unfold JS.setHours, JS.LocalTime, JS.UTC.
    cbn [JS.LocalTZA JS.fixed_offset_host].
    replace (JS.MakeDate 19792 twd - off + off) with (JS.MakeDate 19792 twd) by lia.
    rewrite Day_MakeDate by exact Htwd.
    unfold JS.TimeClip.
    destruct (Z.leb_spec (Z.abs (JS.MakeDate 19792 (JS.MakeTime 0 0 0 0) - off)) 8640000000000000) as [_ | Hbad];
      [reflexivity | unfold JS.MakeDate, JS.MakeTime, JS.msPerDay in *; lia]. }
  split; [exact Hs |].
  unfold Screen.endOfWeek. rewrite Hs.
  unfold JS.getDate, JS.setDate, JS.LocalTime, JS.UTC.
  cbn [JS.LocalTZA JS.fixed_offset_host option_map JS.number_add].
  replace (JS.MakeDate 19792 0 - off + off) with (JS.MakeDate 19792 0) by lia.
  change (JS.MakeDay _ _ _) with 19798.
  change (JS.TimeWithinDay (JS.MakeDate 19792 0)) with 0.
  unfold JS.TimeClip.
  destruct (Z.leb_spec (Z.abs (JS.MakeDate 19798 0 - off)) 8640000000000000) as [_ | Hbad];
    [| unfold JS.MakeDate, JS.msPerDay in *; lia].
  unfold JS.setHours, JS.LocalTime, JS.UTC.
  cbn [JS.LocalTZA JS.fixed_offset_host].
  replace (JS.MakeDate 19798 0 - off + off) with (JS.MakeDate 19798 0) by lia.
  change (JS.Day (JS.MakeDate 19798 0)) with 19798.
  change (JS.MakeTime 23 59 59 999) with 86399999.
  unfold JS.TimeClip.
  destruct (Z.leb_spec (Z.abs (JS.MakeDate 19798 86399999 - off)) 8640000000000000) as [_ | Hbad];
    [reflexivity | unfold JS.MakeDate, JS.msPerDay in *; lia].
Qed.

(** The WEEK test of a record whose date text [Date] reads as midnight UTC
    of day number [day], in the week of 2024-03-15, in a zone at a fixed
    offset of less than a day. *)
Lemma in_week_fixed_offset off now i text day :
  - JS.msPerDay < off < JS.msPerDay ->
  JS.Day (now + off) = 19797 ->
  text <> "" ->
  (forall host, JS.Date_of_string host text = Some (JS.MakeDate day 0)) ->
  Screen.in_week (JS.fixed_offset_host off) (Some now) (dated i text)
  = (JS.MakeDate 19792 0 - off <=? JS.MakeDate day 0)
    && (JS.MakeDate day 0 <=? JS.MakeDate 19798 86399999 - off).
Proof.
  intros Hoff Hday Hne Hparse.
  destruct (week_bounds_fixed_offset off now Hoff Hday) as [Hs He].
  unfold Screen.in_week, Screen.no_date, Screen.date_text, dated. cbn [Expense.date].
  destruct text as [| c r]; [contradiction |]. cbn [JS.truthy_string negb].
  rewrite Hparse, Hs, He. reflexivity.
Qed.

(** At or east of UTC the week runs from Sunday the 10th to Saturday the
    16th, as the comments in [part_000] say. *)
Lemma in_week_east_of_utc off now i text day :
  0 <= off < JS.msPerDay ->
  JS.Day (now + off) = 19797 ->
  text <> "" ->
  (forall host, JS.Date_of_string host text = Some (JS.MakeDate day 0)) ->
  Screen.in_week (JS.fixed_offset_host off) (Some now) (dated i text)
  = (19792 <=? day) && (day <=? 19798).
Proof.
  intros Hoff Hday Hne Hparse.
  rewrite (in_week_fixed_offset off now i text day) by (assumption || lia).
  unfold JS.MakeDate, JS.msPerDay in *.
  destruct (Z.leb_spec 19792 day), (Z.leb_spec day 19798); cbn [andb];
    repeat match goal with
           | |- context [?a <=? ?b] => destruct (Z.leb_spec a b); try lia
           end; reflexivity.
Qed.

(** West of UTC the same code lets in Monday the 11th to Sunday the 17th. *)
Lemma in_week_west_of_utc off now i text day :
  - JS.msPerDay < off < 0 ->
  JS.Day (now + off) = 19797 ->
  text <> "" ->
  (forall host, JS.Date_of_string host text = Some (JS.MakeDate day 0)) ->
  Screen.in_week (JS.fixed_offset_host off) (Some now) (dated i text)
  = (19793 <=? day) && (day <=? 19799).
Proof.
  intros Hoff Hday Hne Hparse.
  rewrite (in_week_fixed_offset off now i text day) by (assumption || lia).
  unfold JS.MakeDate, JS.msPerDay in *.
  destruct (Z.leb_spec 19793 day), (Z.leb_spec day 19799); cbn [andb];
    repeat match goal with
           | |- context [?a <=? ?b] => destruct (Z.leb_spec a b); try lia
           end; reflexivity.
Qed.

(** At or east of UTC, less than a day ahead, midnight UTC of a day is a
    time of the same local day. *)
Lemma local_fields_east_of_utc off day :
  0 <= off < JS.msPerDay ->
  let host := JS.fixed_offset_host off in
  let d := Some (JS.MakeDate day 0) in
  JS.getFullYear host d = Some (JS.YearFromTime (JS.MakeDate day 0))
  /\ JS.getMonth host d = Some (JS.MonthFromTime (JS.MakeDate day 0)).
Proof.
  intros Hoff. cbn zeta. unfold JS.getFullYear, JS.getMonth, JS.LocalTime.
  cbn [JS.LocalTZA JS.fixed_offset_host option_map].
  assert (JS.Day (JS.MakeDate day 0 + off) = day) as E.
  { replace (JS.MakeDate day 0 + off) with (JS.MakeDate day off)
      by (unfold JS.MakeDate; lia).
    apply Day_MakeDate, Hoff. }
  destruct (fields_by_day _ _ E) as (-> & -> & _). split; reflexivity.
Qed.

(** The MONTH test of such a record, in March 2024 at or east of UTC. *)
Lemma in_month_east_of_utc off now i text day :
  0 <= off < JS.msPerDay ->
  JS.Day (now + off) = 19797 ->
  text <> "" ->
  (forall host, JS.Date_of_string host text = Some (JS.MakeDate day 0)) ->
  Screen.in_month (JS.fixed_offset_host off) (Some now) (dated i text)
  = (JS.YearFromTime (JS.MakeDate day 0) =? 2024)
    && (JS.MonthFromTime (JS.MakeDate day 0) =? 2).
Proof.
  intros Hoff Hday Hne Hparse.
  destruct (fields_by_day (now + off) 19797 Hday) as (Hy & Hm & _ & _).
  unfold Screen.in_month, Screen.no_date, Screen.date_text, dated. cbn [Expense.date].
  destruct text as [| c r]; [contradiction |]. cbn [JS.truthy_string negb].
  rewrite Hparse.
  destruct (local_fields_east_of_utc off day Hoff) as [-> ->].
  unfold JS.getFullYear, JS.getMonth, JS.LocalTime.
  cbn [JS.LocalTZA JS.fixed_offset_host option_map JS.strict_equal].
  rewrite Hy, Hm. reflexivity.
Qed.

(** At or east of UTC, at any time of the local day 2024-03-15, the three
    records of the example are classified as the specification says. *)
Lemma windows_east_of_utc off now :
  0 <= off < JS.msPerDay ->
  JS.Day (now + off) = 19797 ->
  let host := JS.fixed_offset_host off in
  Screen.getFilteredExpenses host WEEK three_records (Some now) = [dated 1 "2024-03-10"]
  /\ Screen.getFilteredExpenses host MONTH three_records (Some now)
     = [dated 1 "2024-03-10"; dated 2 "2024-03-09"]
  /\ Screen.getFilteredExpenses host ALL three_records (Some now) = three_records.
Proof.
  intros Hoff Hday host. subst host.
  unfold Screen.getFilteredExpenses, three_records, List.filter.
  rewrite (in_week_east_of_utc off now 1 "2024-03-10" 19792 Hoff Hday)
    by (discriminate || reflexivity).
  rewrite (in_week_east_of_utc off now 2 "2024-03-09" 19791 Hoff Hday)
    by (discriminate || reflexivity).
  rewrite (in_week_east_of_utc off now 3 "2024-02-29" 19782 Hoff Hday)
    by (discriminate || reflexivity).
  rewrite (in_month_east_of_utc off now 1 "2024-03-10" 19792 Hoff Hday)
    by (discriminate || reflexivity).
  rewrite (in_month_east_of_utc off now 2 "2024-03-09" 19791 Hoff Hday)
    by (discriminate || reflexivity).
  rewrite (in_month_east_of_utc off now 3 "2024-02-29" 19782 Hoff Hday)
    by (discriminate || reflexivity).
  repeat split.
Qed.

(** West of UTC, at any time of the local day 2024-03-15, the WEEK filter
    drops the record of Sunday the 10th. *)
Lemma week_west_of_utc off now :
  - JS.msPerDay < off < 0 ->
  JS.Day (now + off) = 19797 ->
  Screen.getFilteredExpenses (JS.fixed_offset_host off) WEEK three_records (Some now) = [].
Proof.
  intros Hoff Hday.
  unfold Screen.getFilteredExpenses, three_records, List.filter.
  rewrite (in_week_west_of_utc off now 1 "2024-03-10" 19792 Hoff Hday)
    by (discriminate || reflexivity).
  rewrite (in_week_west_of_utc off now 2 "2024-03-09" 19791 Hoff Hday)
    by (discriminate || reflexivity).
  rewrite (in_week_west_of_utc off now 3 "2024-02-29" 19782 Hoff Hday)
    by (discriminate || reflexivity).
  reflexivity.
Qed.

(* ================================================================== *)
(** * Part XII: totals and categories                                 *)
(* ================================================================== *)

(** ** Sums of amounts never turn NaN *)

Lemma iter_pos_invariant {A} (P : A -> Prop) (f : A -> A) :
  (forall x, P x -> P (f x)) -> forall n x, P x -> P (iter_pos f n x).
Proof.
  intros Hf. induction n as [n IH | n IH |]; intros x Hx; simpl; auto.
Qed.

Lemma shr_1_nonneg mrs : 0 <= shr_m mrs -> 0 <= shr_m (shr_1 mrs).
Proof.
  destruct mrs as [m r s]. simpl. intros H.
  destruct m as [| p | p]; [simpl; lia | | lia].
  destruct p; simpl; lia.
Qed.

Lemma shr_fexp_nonneg m e l :
  0 <= m -> 0 <= shr_m (fst (shr_fexp prec emax m e l)).
Proof.
  intros H. unfold shr_fexp, shr.
  assert (0 <= shr_m (shr_record_of_loc m l)) as H0.
  { destruct l as [| []]; simpl; exact H. }
  destruct (fexp prec emax (Zdigits2 m + e) - e); simpl; try exact H0.
  apply iter_pos_invariant; [apply shr_1_nonneg | exact H0].
Qed.

Lemma round_nearest_even_nonneg m l : 0 <= m -> 0 <= round_nearest_even m l.
Proof.
  intros H. destruct l as [| []]; simpl; try lia.
  destruct (Z.even m); lia.
Qed.

(** Rounding a mantissa that is not negative gives no NaN and keeps the sign. *)
Lemma binary_round_aux_sign s m e l :
  0 <= m -> sf_signed_as s (binary_round_aux prec emax s m e l).
Proof.
  intros H. unfold binary_round_aux.
  pose proof (shr_fexp_nonneg m e l H) as H1.
  destruct (shr_fexp prec emax m e l) as [mrs' e'] eqn:E1. simpl in H1.
  pose proof (shr_fexp_nonneg _ e' loc_Exact
                (round_nearest_even_nonneg _ (loc_of_shr_record mrs') H1)) as H2.
  destruct (shr_fexp prec emax (round_nearest_even (shr_m mrs') (loc_of_shr_record mrs')) e' loc_Exact)
    as [mrs'' e''] eqn:E2. simpl in H2.
  destruct (shr_m mrs'') as [| p | p]; [reflexivity | | lia].
  destruct (e'' <=? emax - prec); reflexivity.
Qed.

Lemma SFadd_unsigned x y :
  sf_unsigned x -> sf_unsigned y -> sf_unsigned (SFadd prec emax x y).
Proof.
  destruct x as [[] | [] | | [] mx ex]; try contradiction;
    destruct y as [[] | [] | | [] my ey]; try contradiction; intros _ _;
    try exact I.
  unfold SFadd, cond_Zopp.
  set (ez := Z.min ex ey).
  destruct (shl_align mx ex ez) as [mx' ex'], (shl_align my ey ez) as [my' ey'].
  simpl fst. change (Z.pos mx' + Z.pos my') with (Z.pos (mx' + my')).
  unfold binary_normalize, binary_round.
  destruct (shl_align (mx' + my') ez _) as [mz ez'].
  pose proof (binary_round_aux_sign false (Z.pos mz) ez' loc_Exact ltac:(lia)) as H.
  destruct (binary_round_aux prec emax false (Z.pos mz) ez' loc_Exact)
    as [[] | [] | | [] m e]; simpl in H; try discriminate; try contradiction; exact I.
Qed.

(** The sum of two numbers that are [+0], above zero or [+Infinity] is one
    of these again. *)
Lemma add_unsigned (x y : JS.number) :
  unsigned x -> unsigned y -> unsigned (PrimFloat.add x y).
Proof. unfold unsigned. rewrite add_spec. apply SFadd_unsigned. Qed.

Lemma zero_unsigned : unsigned PrimFloat.zero.
Proof. exact I. Qed.

Lemma positive_unsigned (x : JS.number) :
  PrimFloat.ltb PrimFloat.zero x = true -> unsigned x.
Proof.
  unfold unsigned. rewrite ltb_spec, Prim2SF_zero. unfold SFltb.
  destruct (Prim2SF x) as [[] | [] | | [] m e]; simpl; intros H;
    try discriminate; exact I.
Qed.

(** Among these numbers only [+0] is falsy. *)
Lemma unsigned_falsy_is_zero (x : JS.number) :
  unsigned x -> JS.truthy_number x = false -> x = PrimFloat.zero.
Proof.
  unfold unsigned, JS.truthy_number, PrimFloat.is_nan.
  rewrite !eqb_spec, Prim2SF_zero. unfold SFeqb. intros H.
  destruct (Prim2SF x) as [[] | [] | | [] m e] eqn:E; try contradiction.
  - intros _. apply Prim2SF_inj. rewrite E. reflexivity.
  - simpl. discriminate.
  - rewrite SFcompare_finite_refl. simpl. discriminate.
Qed.

Lemma sum_unsigned (l : list JS.number) (acc : JS.number) :
  unsigned acc -> Forall unsigned l -> unsigned (fold_left PrimFloat.add l acc).
Proof.
  revert acc. induction l as [| x r IH]; intros acc Ha Hl; simpl; [exact Ha |].
  inversion Hl; subst. apply IH; [apply add_unsigned |]; assumption.
Qed.

(** ** Own properties *)

Lemma own_replace o k v k' :
  JS.own (JS.replace o k v) k'
  = if String.eqb k' k
    then match JS.own o k with Some _ => Some v | None => None end
    else JS.own o k'.
Proof.
  induction o as [| [k0 v0] r IH]; simpl.
  - destruct (String.eqb k' k); reflexivity.
  - destruct (String.eqb_spec k k0) as [-> | Hk]; simpl.
    + destruct (String.eqb_spec k' k0); reflexivity.
    + rewrite IH. destruct (String.eqb_spec k' k0) as [-> | Hk']; [| reflexivity].
      destruct (String.eqb_spec k0 k); [congruence | reflexivity].
Qed.

Lemma own_app o k v k' :
  JS.own (o ++ [(k, v)]) k'
  = match JS.own o k' with
    | Some x => Some x
    | None => if String.eqb k' k then Some v else None
    end.
Proof.
  induction o as [| [k0 v0] r IH]; simpl; [reflexivity |].
  destruct (String.eqb k' k0); [reflexivity | exact IH].
Qed.

Lemma own_Put o k v k' :
  String.eqb k "__proto__" = false ->
  JS.own (JS.Put o k v) k' = if String.eqb k' k then Some v else JS.own o k'.
Proof.
  intros Hk. unfold JS.Put. rewrite Hk.
  destruct (JS.own o k) eqn:E.
  - rewrite own_replace, E. reflexivity.
  - rewrite own_app. destruct (String.eqb_spec k' k) as [-> | _].
    + rewrite E. reflexivity.
    + destruct (JS.own o k'); reflexivity.
Qed.

Lemma not_inherited_not_proto k :
  JS.inherited k = JS.Undefined -> String.eqb k "__proto__" = false.
Proof. unfold JS.inherited. destruct (String.eqb k "__proto__"); [discriminate | reflexivity]. Qed.

Lemma Get_not_inherited o k :
  JS.inherited k = JS.Undefined ->
  JS.Get o k = match JS.own o k with Some v => JS.Primitive v | None => JS.Undefined end.
Proof. intros H. unfold JS.Get. rewrite H. reflexivity. Qed.

(** What one step of the [forEach] leaves under each key, for a key that is
    not inherited and holds a number or nothing. *)
Lemma own_accumulate o e c :
  JS.inherited (Screen.bucket e) = JS.Undefined ->
  (forall t, JS.own o (Screen.bucket e) <> Some (JS.PString t)) ->
  JS.own (Screen.accumulate o e) c
  = if String.eqb c (Screen.bucket e)
    then Some (JS.PNumber
                 (PrimFloat.add
                    match JS.own o (Screen.bucket e) with
                    | Some (JS.PNumber x) => JS.number_or_zero x
                    | _ => PrimFloat.zero
                    end
                    (Screen.amount_of e)))
    else JS.own o c.
Proof.
  intros Hi Hs. pose proof (not_inherited_not_proto _ Hi) as Hp.
  unfold Screen.accumulate. rewrite (Get_not_inherited o _ Hi).
  destruct (JS.own o (Screen.bucket e)) as [[x | t] |] eqn:E.
  - cbn [JS.ToBoolean]. unfold JS.number_or_zero.
    destruct (JS.truthy_number x) eqn:Ex; cbn [negb].
    + rewrite (Get_not_inherited o _ Hi), E. cbn [JS.plus].
      rewrite own_Put by exact Hp. reflexivity.
    + rewrite (Get_not_inherited _ _ Hi), !own_Put by exact Hp.
      rewrite String.eqb_refl. cbn [JS.plus].
      destruct (String.eqb c (Screen.bucket e)); [reflexivity |].
      reflexivity.
  - exfalso. apply (Hs t). reflexivity.
  - cbn [JS.ToBoolean negb].
    rewrite (Get_not_inherited _ _ Hi), !own_Put by exact Hp.
    rewrite String.eqb_refl. cbn [JS.plus].
    destruct (String.eqb_spec c (Screen.bucket e)) as [-> | _]; [reflexivity |].
    reflexivity.
Qed.

(** ** Totals *)

Lemma amount_of_positive e : positive_amount e -> Screen.amount_of e = Expense.amount e.
Proof.
  intros H. unfold Screen.amount_of, JS.number_or_zero.
  rewrite (positive_truthy _ H). reflexivity.
Qed.

Lemma totalSpending_from l acc :
  Forall positive_amount l ->
  fold_left (fun a e => PrimFloat.add a (Screen.amount_of e)) l acc
  = fold_left PrimFloat.add (map Expense.amount l) acc.
Proof.
  revert acc. induction l as [| e r IH]; intros acc H; simpl; [reflexivity |].
  inversion H; subst. rewrite amount_of_positive by assumption. apply IH. assumption.
Qed.

Lemma categoryTotals_snoc l e :
  Screen.categoryTotals (l ++ [e]) = Screen.accumulate (Screen.categoryTotals l) e.
Proof. unfold Screen.categoryTotals. rewrite fold_left_app. reflexivity. Qed.

Lemma bucketed_snoc c l e :
  bucketed c (l ++ [e])
  = bucketed c l ++ (if String.eqb c (Screen.bucket e) then [e] else []).
Proof.
  unfold bucketed. rewrite filter_app. simpl.
  rewrite (String.eqb_sym (Screen.bucket e) c).
  destruct (String.eqb c (Screen.bucket e)); reflexivity.
Qed.

Lemma sum_snoc l x :
  Spec.sum (l ++ [x]) = PrimFloat.add (Spec.sum l) x.
Proof. unfold Spec.sum. rewrite fold_left_app. reflexivity. Qed.

Lemma sum_of_positive_unsigned l :
  Forall positive_amount l -> unsigned (Spec.sum (map Expense.amount l)).
Proof.
  intros H. apply sum_unsigned; [apply zero_unsigned |].
  induction H; simpl; constructor; [apply positive_unsigned |]; assumption.
Qed.

Lemma number_or_zero_unsigned x : unsigned x -> JS.number_or_zero x = x.
Proof.
  intros H. unfold JS.number_or_zero.
  destruct (JS.truthy_number x) eqn:E; [reflexivity |].
  symmetry. apply unsigned_falsy_is_zero; assumption.
Qed.

(** What [categoryTotals] holds under each key, when the amounts are above
    zero and no key is an inherited name. *)
Lemma categoryTotals_own l :
  Forall positive_amount l -> Forall plain_key l ->
  forall c,
    JS.own (Screen.categoryTotals l) c
    = match bucketed c l with
      | [] => None
      | es => Some (JS.PNumber (Spec.sum (map Expense.amount es)))
      end.
Proof.
  induction l as [| e l IH] using rev_ind; intros Hp Hk c; [reflexivity |].
  apply Forall_app in Hp. destruct Hp as [Hp He]. inversion He as [| ? ? Hpe _]; subst.
  apply Forall_app in Hk. destruct Hk as [Hk Hke]. inversion Hke as [| ? ? Hie _]; subst.
  specialize (IH Hp Hk).
  rewrite categoryTotals_snoc, own_accumulate; [| exact Hie |].
  2:{ intros t. rewrite IH. destruct (bucketed _ l); discriminate. }
  rewrite bucketed_snoc.
  destruct (String.eqb_spec c (Screen.bucket e)) as [-> | Hc].
  - rewrite IH, amount_of_positive by exact Hpe.
    assert (Forall positive_amount (bucketed (Screen.bucket e) l)) as Hb.
    { unfold bucketed. apply Forall_forall. intros x Hx.
      apply filter_In in Hx. destruct Hx as [Hx _].
      eapply Forall_forall in Hp; eassumption. }
    destruct (bucketed (Screen.bucket e) l) as [| x r] eqn:E.
    + reflexivity.
    + rewrite number_or_zero_unsigned by (apply sum_of_positive_unsigned, Hb).
      cbn [app]. rewrite <- sum_snoc, <- map_last. reflexivity.
  - rewrite app_nil_r. apply IH.
Qed.

(** ** The order of the categories *)

Lemma mem_filter c p l : mem c (List.filter p l) = mem c l && p c.
Proof.
  unfold mem. induction l as [| x r IH]; simpl; [reflexivity |].
  destruct (p x) eqn:Ex; simpl; rewrite IH.
  - destruct (String.eqb_spec c x) as [-> | _]; simpl; [rewrite Ex; reflexivity | reflexivity].
  - destruct (String.eqb_spec c x) as [-> | _]; simpl; [rewrite Ex |]; try reflexivity.
    rewrite andb_false_r. reflexivity.
Qed.

Lemma mem_app c l l' : mem c (l ++ l') = mem c l || mem c l'.
Proof. unfold mem. apply existsb_app. Qed.

Lemma first_appearances_snoc l c :
  Spec.first_appearances (l ++ [c])
  = if mem c (Spec.first_appearances l) then Spec.first_appearances l
    else Spec.first_appearances l ++ [c].
Proof.
  induction l as [| x r IH]; [reflexivity |].
  cbn [app Spec.first_appearances]. rewrite IH.
  change (mem c (x :: ?t)) with (String.eqb c x || mem c t).
  rewrite mem_filter.
  destruct (mem c (Spec.first_appearances r)) eqn:Em.
  - destruct (String.eqb c x); reflexivity.
  - rewrite filter_app. cbn [List.filter]. cbn [andb].
    destruct (String.eqb_spec c x) as [-> | _]; cbn [negb orb].
    + rewrite app_nil_r. reflexivity.
    + reflexivity.
Qed.

Lemma first_appearances_incl l x : In x (Spec.first_appearances l) -> In x l.
Proof.
  revert x. induction l as [| c r IH]; intros x; simpl; [tauto |].
  intros [-> | H]; [auto |]. apply filter_In in H. right. apply IH, H.
Qed.

Lemma keys_replace o k v : map fst (JS.replace o k v) = map fst o.
Proof.
  induction o as [| [k0 v0] r IH]; simpl; [reflexivity |].
  destruct (String.eqb k k0); simpl; [reflexivity | rewrite IH; reflexivity].
Qed.

Lemma own_mem o k :
  mem k (map fst o) = match JS.own o k with Some _ => true | None => false end.
Proof.
  unfold mem. induction o as [| [k0 v0] r IH]; simpl; [reflexivity |].
  destruct (String.eqb k k0); simpl; [reflexivity | exact IH].
Qed.

Lemma keys_Put o k v :
  String.eqb k "__proto__" = false ->
  map fst (JS.Put o k v) = if mem k (map fst o) then map fst o else map fst o ++ [k].
Proof.
  intros Hk. unfold JS.Put. rewrite Hk, own_mem.
  destruct (JS.own o k).
  - apply keys_replace.
  - rewrite map_app. reflexivity.
Qed.

(** One step of the [forEach] creates the key of the record when it is new,
    after all the keys there are, and moves none. *)
Lemma keys_accumulate o e :
  String.eqb (Screen.bucket e) "__proto__" = false ->
  map fst (Screen.accumulate o e)
  = if mem (Screen.bucket e) (map fst o) then map fst o
    else map fst o ++ [Screen.bucket e].
Proof.
  intros Hk. unfold Screen.accumulate.
  rewrite !keys_Put by exact Hk.
  destruct (negb (JS.ToBoolean (JS.Get o (Screen.bucket e)))).
  - rewrite keys_Put by exact Hk.
    destruct (mem (Screen.bucket e) (map fst o)) eqn:E.
    + rewrite E. reflexivity.
    + rewrite mem_app, E. unfold mem at 1. simpl. rewrite String.eqb_refl. reflexivity.
  - reflexivity.
Qed.

(** The keys of [categoryTotals], in the order of their creation, are the
    buckets of the records at their first appearance. *)
Lemma categoryTotals_keys l :
  Forall not_proto l ->
  map fst (Screen.categoryTotals l) = Spec.first_appearances (map Screen.bucket l).
Proof.
  induction l as [| e l IH] using rev_ind; intros H; [reflexivity |].
  apply Forall_app in H. destruct H as [H He]. inversion He as [| ? ? Hk _]; subst.
  rewrite categoryTotals_snoc, keys_accumulate by exact Hk.
  rewrite map_app. cbn [map]. rewrite first_appearances_snoc, IH by exact H.
  reflexivity.
Qed.

Lemma entries_without_indices o :
  Forall (fun kv => JS.is_array_index (fst kv) = false) o -> JS.entries o = o.
Proof.
  intros H. unfold JS.entries.
  assert (List.filter (fun e => JS.is_array_index (fst e)) o = []) as ->.
  { induction H as [| kv r Hkv _ IH]; simpl; [reflexivity |]. rewrite Hkv. exact IH. }
  simpl. induction H as [| kv r Hkv _ IH]; simpl; [reflexivity |].
  rewrite Hkv. simpl. rewrite IH. reflexivity.
Qed.

(** When no bucket key (the category, or [Uncategorized] for an empty one)
    is an array index or [__proto__], the summary card lists the categories
    in the order of their first appearance among the records. *)
Lemma presented_without_indices (l : list Expense.t) :
  Forall not_index l -> Forall not_proto l ->
  Screen.presented l = Spec.first_appearances (map Screen.bucket l).
Proof.
  intros Hi Hp. unfold Screen.presented, JS.keys.
  rewrite entries_without_indices; [apply categoryTotals_keys, Hp |].
  apply Forall_forall. intros kv Hkv.
  assert (In (fst kv) (map fst (Screen.categoryTotals l))) as Hin by (apply in_map, Hkv).
  rewrite (categoryTotals_keys l Hp) in Hin.
  apply first_appearances_incl, in_map_iff in Hin.
  destruct Hin as (e & <- & He).
  eapply Forall_forall in Hi; [exact Hi | exact He].
Qed.

(** ** Exact sums on a binary grid *)

Lemma fexp_value e : fexp prec emax e = Z.max (e - 53) (-1074).
Proof. reflexivity. Qed.

Lemma digits2_log2 p : Z.pos (digits2_pos p) = Z.log2 (Z.pos p) + 1.
Proof.
  induction p as [p IH | p IH |]; [| | reflexivity].
  - change (Z.pos (digits2_pos p~1)) with (Z.pos (Pos.succ (digits2_pos p))).
    rewrite Pos2Z.inj_succ, IH.
    change (Z.log2 (Z.pos p~1)) with (Z.pos (Pos.size p)).
    clear IH. induction p; simpl in *; lia.
  - change (Z.pos (digits2_pos p~0)) with (Z.pos (Pos.succ (digits2_pos p))).
    rewrite Pos2Z.inj_succ, IH.
    change (Z.log2 (Z.pos p~0)) with (Z.pos (Pos.size p)).
    clear IH. induction p; simpl in *; lia.
Qed.

Lemma iter_xO_value m d : Z.pos (Pos.iter xO m d) = Z.pos m * 2 ^ Z.pos d.
Proof.
  induction d as [| d IH] using Pos.peano_ind.
  - simpl. lia.
  - rewrite Pos.iter_succ, Pos2Z.inj_xO, IH, Pos2Z.inj_succ, Z.pow_succ_r by lia. lia.
Qed.

Lemma iter_pos_as_iter {A} (f : A -> A) n x : iter_pos f n x = Pos.iter f x n.
Proof.
  revert x. induction n as [n IH | n IH |]; intros x; simpl; [| | reflexivity].
  - rewrite !IH. rewrite Pos.iter_swap. f_equal. rewrite Pos.iter_swap. reflexivity.
  - rewrite !IH. reflexivity.
Qed.

Lemma shr_exact n m :
  iter_pos shr_1 n (exact_record (Z.pos (Pos.iter xO m n))) = exact_record (Z.pos m).
Proof.
  rewrite iter_pos_as_iter.
  induction n as [| n IH] using Pos.peano_ind.
  - reflexivity.
  - rewrite Pos.iter_succ_r, Pos.iter_succ. exact IH.
Qed.

Lemma digits2_shift m d :
  Z.pos (digits2_pos (Pos.iter xO m d)) = Z.pos (digits2_pos m) + Z.pos d.
Proof.
  rewrite !digits2_log2, iter_xO_value, Z.log2_mul_pow2 by lia. lia.
Qed.

(** A mantissa that sits at its exponent is kept as it is. *)
Lemma binary_round_aux_canonical s m e :
  fexp prec emax (Z.pos (digits2_pos m) + e) = e ->
  e <= emax - prec ->
  binary_round_aux prec emax s (Z.pos m) e loc_Exact = S754_finite s m e.
Proof.
  intros Hc He. unfold binary_round_aux, shr_fexp.
  cbn [Zdigits2 shr_record_of_loc]. rewrite Hc, Z.sub_diag.
  cbn [shr shr_m loc_of_shr_record round_nearest_even Zdigits2 shr_record_of_loc].
  rewrite Hc, Z.sub_diag. cbn [shr shr_m].
  destruct (Z.leb_spec e (emax - prec)); [reflexivity | lia].
Qed.

(** A mantissa with [n] spare low zeros, [n] places below its exponent, is
    shifted there without loss. *)
Lemma binary_round_aux_shift s m n e :
  fexp prec emax (Z.pos (digits2_pos m) + Z.pos n + e) = e + Z.pos n ->
  e + Z.pos n <= emax - prec ->
  binary_round_aux prec emax s (Z.pos (Pos.iter xO m n)) e loc_Exact
  = S754_finite s m (e + Z.pos n).
Proof.
  intros Hc He. unfold binary_round_aux, shr_fexp.
  cbn [Zdigits2 shr_record_of_loc]. rewrite digits2_shift, Hc.
  replace (e + Z.pos n - e) with (Z.pos n) by lia.
  cbn [shr]. change {| shr_m := Z.pos (Pos.iter xO m n); shr_r := false; shr_s := false |}
    with (exact_record (Z.pos (Pos.iter xO m n))).
  rewrite shr_exact.
  cbn [exact_record shr_m loc_of_shr_record round_nearest_even Zdigits2 shr_record_of_loc].
  replace (Z.pos (digits2_pos m) + (e + Z.pos n)) with (Z.pos (digits2_pos m) + Z.pos n + e) by lia.
  rewrite Hc, Z.sub_diag. cbn [shr shr_m].
  destruct (Z.leb_spec (e + Z.pos n) (emax - prec)); [reflexivity | lia].
Qed.

Lemma pos_of_shift q k : 0 <= k -> Z.pos (Z.to_pos (Z.pos q * 2 ^ k)) = Z.pos q * 2 ^ k.
Proof. intros H. apply Z2Pos.id. apply Z.mul_pos_pos; [lia | apply Z.pow_pos_nonneg; lia]. Qed.

(** Rounding [q * 2^j] at exponent [e], when [q] fits the precision: the
    result is [q] shifted to the exponent [fexp] gives it. *)
Lemma binary_round_exact s q j e p :
  0 <= j ->
  Z.pos p = Z.pos q * 2 ^ j ->
  fexp prec emax (Z.pos (digits2_pos q) + j + e) <= e + j ->
  fexp prec emax (Z.pos (digits2_pos q) + j + e) <= emax - prec ->
  binary_round prec emax s p e
  = S754_finite s
      (Z.to_pos (Z.pos q * 2 ^ (e + j - fexp prec emax (Z.pos (digits2_pos q) + j + e))))
      (fexp prec emax (Z.pos (digits2_pos q) + j + e)).
Proof.
  intros Hj Hp Hfx Hmax.
  set (fx := fexp prec emax (Z.pos (digits2_pos q) + j + e)) in *.
  assert (Z.pos (digits2_pos p) = Z.pos (digits2_pos q) + j) as Hd.
  { rewrite !digits2_log2, Hp, Z.log2_mul_pow2 by lia. lia. }
  unfold binary_round, shl_align. rewrite Hd.
  replace (Z.pos (digits2_pos q) + j + e) with (Z.pos (digits2_pos q) + j + e) by lia.
  fold fx.
  destruct (fx - e) as [| n | d] eqn:En.
  - assert (fx = e) as Hfe by lia.
    rewrite binary_round_aux_canonical; [| rewrite Hd; fold fx; lia | lia].
    rewrite Hfe. replace (e + j - e) with j by lia.
    f_equal. apply Pos2Z.inj. rewrite pos_of_shift by lia. exact Hp.
  - assert (Z.pos n <= j) as Hn by lia.
    assert (p = Pos.iter xO (Z.to_pos (Z.pos q * 2 ^ (j - Z.pos n))) n) as ->.
    { apply Pos2Z.inj. rewrite iter_xO_value, pos_of_shift, Hp by lia.
      rewrite <- Z.mul_assoc, <- Z.pow_add_r by lia. f_equal. f_equal. lia. }
    rewrite binary_round_aux_shift.
    + replace (e + Z.pos n) with fx by lia.
      replace (e + j - fx) with (j - Z.pos n) by lia. reflexivity.
    + assert (Z.pos (digits2_pos (Z.to_pos (Z.pos q * 2 ^ (j - Z.pos n))))
              = Z.pos (digits2_pos q) + (j - Z.pos n)) as Hd'.
      { rewrite !digits2_log2, pos_of_shift, Z.log2_mul_pow2 by lia. lia. }
      rewrite Hd'.
      replace (Z.pos (digits2_pos q) + (j - Z.pos n) + Z.pos n + e)
        with (Z.pos (digits2_pos q) + j + e) by lia.
      fold fx. lia.
    + lia.
  - assert (Z.pos d = e - fx) as Hde by lia.
    rewrite binary_round_aux_canonical.
    + f_equal. apply Pos2Z.inj.
      rewrite iter_xO_value, pos_of_shift, Hp, Hde by lia.
      rewrite <- Z.mul_assoc, <- Z.pow_add_r by lia. f_equal. f_equal. lia.
    + rewrite digits2_shift, Hd.
      replace (Z.pos (digits2_pos q) + j + Z.pos d + fx) with (Z.pos (digits2_pos q) + j + e) by lia.
      reflexivity.
    + lia.
Qed.

Lemma digits_bound q : Z.pos q < 2 ^ 53 -> Z.pos (digits2_pos q) <= 53.
Proof.
  intros H. rewrite digits2_log2.
  assert (Z.log2 (Z.pos q) < 53) by (apply Z.log2_lt_pow2; lia). lia.
Qed.

Lemma grid_exponent_bounds g q :
  -1074 <= g <= 971 -> Z.pos q < 2 ^ 53 ->
  -1074 <= grid_exponent g q <= g.
Proof.
  intros Hg Hq. pose proof (digits_bound q Hq).
  unfold grid_exponent. rewrite fexp_value. lia.
Qed.

Lemma SF_grid g q :
  -1074 <= g <= 971 -> Z.pos q < 2 ^ 53 ->
  binary_normalize prec emax (Z.pos q) g false
  = S754_finite false (Z.to_pos (Z.pos q * 2 ^ (g - grid_exponent g q)))
                (grid_exponent g q).
Proof.
  intros Hg Hq. pose proof (grid_exponent_bounds g q Hg Hq) as Hb.
  unfold grid_exponent in *. cbn [binary_normalize].
  rewrite (binary_round_exact false q 0 g q); rewrite ?Z.add_0_r.
  - reflexivity.
  - lia.
  - lia.
  - lia.
  - change (emax - prec) with 971. lia.
Qed.

Lemma SF_grid_valid g q :
  -1074 <= g <= 971 -> Z.pos q < 2 ^ 53 ->
  valid_binary (binary_normalize prec emax (Z.pos q) g false) = true.
Proof.
  intros Hg Hq. pose proof (grid_exponent_bounds g q Hg Hq) as Hb.
  rewrite SF_grid by assumption.
  unfold valid_binary, SpecFloat.valid_binary, bounded, canonical_mantissa.
  apply andb_true_iff. split; [apply Z.eqb_eq | apply Z.leb_le; change (emax - prec) with 971; lia].
  rewrite digits2_log2, pos_of_shift by lia.
  rewrite Z.log2_mul_pow2; [| lia | lia].
  unfold grid_exponent at 3. rewrite digits2_log2. f_equal. lia.
Qed.

Lemma Prim2SF_grid g q :
  -1074 <= g <= 971 -> Z.pos q < 2 ^ 53 ->
  Prim2SF (grid g (Z.pos q))
  = S754_finite false (Z.to_pos (Z.pos q * 2 ^ (g - grid_exponent g q)))
                (grid_exponent g q).
Proof.
  intros Hg Hq. unfold grid.
  rewrite Prim2SF_SF2Prim by (apply SF_grid_valid; assumption).
  apply SF_grid; assumption.
Qed.

Lemma shl_align_fst m ex ez :
  ez <= ex -> Z.pos (fst (shl_align m ex ez)) = Z.pos m * 2 ^ (ex - ez).
Proof.
  intros H. unfold shl_align.
  destruct (ez - ex) as [| n | d] eqn:E; cbn [fst].
  - replace (ex - ez) with 0 by lia. lia.
  - lia.
  - rewrite iter_xO_value. f_equal. f_equal. lia.
Qed.

(** On a grid, adding is exact while the sum stays below [2^53] steps. *)
Lemma grid_add_positive g a b :
  -1074 <= g <= 971 -> Z.pos a + Z.pos b < 2 ^ 53 ->
  PrimFloat.add (grid g (Z.pos a)) (grid g (Z.pos b)) = grid g (Z.pos a + Z.pos b).
Proof.
  intros Hg Hs. apply Prim2SF_inj. rewrite add_spec.
  change (Z.pos a + Z.pos b) with (Z.pos (a + b)) in *.
  rewrite !Prim2SF_grid by lia.
  pose proof (grid_exponent_bounds g a Hg ltac:(lia)) as Ha.
  pose proof (grid_exponent_bounds g b Hg ltac:(lia)) as Hb.
  pose proof (grid_exponent_bounds g (a + b) Hg ltac:(lia)) as Hab.
  set (fa := grid_exponent g a) in *. set (fb := grid_exponent g b) in *.
  unfold SF64add, SFadd, cond_Zopp.
  set (ez := Z.min fa fb).
  assert (ez <= fa /\ ez <= fb /\ -1074 <= ez) as (Hza & Hzb & Hz) by (subst ez; lia).
  set (ma := fst (shl_align (Z.to_pos (Z.pos a * 2 ^ (g - fa))) fa ez)).
  set (mb := fst (shl_align (Z.to_pos (Z.pos b * 2 ^ (g - fb))) fb ez)).
  assert (Z.pos ma = Z.pos a * 2 ^ (g - ez)) as Hma.
  { subst ma. rewrite shl_align_fst, pos_of_shift by lia.
    rewrite <- Z.mul_assoc, <- Z.pow_add_r by lia. f_equal. f_equal. lia. }
  assert (Z.pos mb = Z.pos b * 2 ^ (g - ez)) as Hmb.
  { subst mb. rewrite shl_align_fst, pos_of_shift by lia.
    rewrite <- Z.mul_assoc, <- Z.pow_add_r by lia. f_equal. f_equal. lia. }
  change (Z.pos ma + Z.pos mb) with (Z.pos (ma + mb)).
  cbn [binary_normalize].
  rewrite (binary_round_exact false (a + b) (g - ez) ez (ma + mb)).
  - replace (Z.pos (digits2_pos (a + b)) + (g - ez) + ez)
      with (Z.pos (digits2_pos (a + b)) + g) by lia.
    fold (grid_exponent g (a + b)).
    replace (ez + (g - ez) - grid_exponent g (a + b)) with (g - grid_exponent g (a + b)) by lia.
    reflexivity.
  - lia.
  - rewrite Pos2Z.inj_add, Hma, Hmb. lia.
  - replace (Z.pos (digits2_pos (a + b)) + (g - ez) + ez)
      with (Z.pos (digits2_pos (a + b)) + g) by lia.
    fold (grid_exponent g (a + b)). lia.
  - replace (Z.pos (digits2_pos (a + b)) + (g - ez) + ez)
      with (Z.pos (digits2_pos (a + b)) + g) by lia.
    fold (grid_exponent g (a + b)). change (emax - prec) with 971. lia.
Qed.

Lemma grid_zero g : grid g 0 = PrimFloat.zero.
Proof. reflexivity. Qed.

Lemma add_zero_l_grid g q :
  -1074 <= g <= 971 -> Z.pos q < 2 ^ 53 ->
  PrimFloat.add PrimFloat.zero (grid g (Z.pos q)) = grid g (Z.pos q).
Proof.
  intros Hg Hq. apply Prim2SF_inj. rewrite add_spec, Prim2SF_zero, Prim2SF_grid by assumption.
  reflexivity.
Qed.

Lemma add_zero_r_grid g q :
  -1074 <= g <= 971 -> Z.pos q < 2 ^ 53 ->
  PrimFloat.add (grid g (Z.pos q)) PrimFloat.zero = grid g (Z.pos q).
Proof.
  intros Hg Hq. apply Prim2SF_inj. rewrite add_spec, Prim2SF_zero, Prim2SF_grid by assumption.
  reflexivity.
Qed.

(** Adding two numbers of the grid [2^g], neither below zero, whose sum
    stays below [2^53] steps, is exact. *)
Lemma grid_add g a b :
  -1074 <= g <= 971 -> 0 <= a -> 0 <= b -> a + b < 2 ^ 53 ->
  PrimFloat.add (grid g a) (grid g b) = grid g (a + b).
Proof.
  intros Hg Ha Hb Hs.
  destruct a as [| a | a]; [| | lia]; destruct b as [| b | b]; try lia.
  - reflexivity.
  - rewrite grid_zero. apply add_zero_l_grid; [exact Hg | lia].
  - rewrite grid_zero, Z.add_0_r. apply add_zero_r_grid; [exact Hg | lia].
  - apply grid_add_positive; assumption.
Qed.

Lemma grid_positive g q :
  -1074 <= g <= 971 -> Z.pos q < 2 ^ 53 ->
  PrimFloat.ltb PrimFloat.zero (grid g (Z.pos q)) = true.
Proof.
  intros Hg Hq. rewrite ltb_spec, Prim2SF_zero, Prim2SF_grid by assumption. reflexivity.
Qed.

Example grid_quarters : grid (-2) 29 = 7.25%float.
Proof. reflexivity. Qed.

(** ** The total and the subtotals *)

(** Away from the names a plain object inherits, the totals are the sums.
    For records whose amounts are above zero and whose bucket key (the
    category, or [Uncategorized] for an empty one) is not a name inherited
    from [Object.prototype]: the total is the sum of
    the amounts; the mapping holds, under each key, the sum of the amounts
    of the records of that bucket, and nothing under any other key; no
    records give total [0] and an empty mapping; and the three records of
    the example give 39.75, with 19.75 for Food and 20 for Transport. *)
Lemma totals_of_positive_amounts (l : list Expense.t) :
  Forall positive_amount l -> Forall plain_key l ->
  Screen.totalSpending l = Spec.sum (map Expense.amount l)
  /\ (forall c,
        JS.own (Screen.categoryTotals l) c
        = match bucketed c l with
          | [] => None
          | es => Some (JS.PNumber (Spec.sum (map Expense.amount es)))
          end)
  /\ (Screen.totalSpending [] = PrimFloat.zero /\ Screen.categoryTotals [] = [])
  /\ (Screen.totalSpending example_records = 39.75%float
      /\ Screen.categoryTotals example_records
         = [("Food", JS.PNumber 19.75%float); ("Transport", JS.PNumber 20%float)]).
Proof.
  intros Hp Hk. split; [| split; [| split]].
  - apply totalSpending_from, Hp.
  - apply categoryTotals_own; assumption.
  - split; reflexivity.
  - split; reflexivity.
Qed.

Example totals_of_the_example :
  Screen.totalSpending example_records = Spec.sum (map Expense.amount example_records)
  /\ (forall c,
        JS.own (Screen.categoryTotals example_records) c
        = match bucketed c example_records with
          | [] => None
          | es => Some (JS.PNumber (Spec.sum (map Expense.amount es)))
          end)
  /\ (Screen.totalSpending [] = PrimFloat.zero /\ Screen.categoryTotals [] = [])
  /\ (Screen.totalSpending example_records = 39.75%float
      /\ Screen.categoryTotals example_records
         = [("Food", JS.PNumber 19.75%float); ("Transport", JS.PNumber 20%float)]).
Proof.
  apply (totals_of_positive_amounts example_records).
  - repeat constructor.
  - repeat constructor.
Qed.

(** A record whose category is empty, which the form does not store, would
    be counted under [Uncategorized]. *)
Example empty_category_is_filed_as_uncategorized :
  let exp := Expense.mk 1 5%float "" None (Some "2024-03-15") in
  JS.own (Screen.categoryTotals [exp]) (Expense.category exp) = None
  /\ JS.own (Screen.categoryTotals [exp]) "Uncategorized" = Some (JS.PNumber 5%float).
Proof. split; reflexivity. Qed.

(** A category that names a method of [Object.prototype] gets a text, not
    a sum: the first [+=] adds the amount to the inherited function. *)
Example inherited_name_as_category :
  Screen.categoryTotals
    [ Expense.mk 2 5%float "constructor" None (Some "2024-03-15");
      Expense.mk 1 4%float "constructor" None (Some "2024-03-15") ]
  = [("constructor",
      JS.PString (JS.Followed (JS.Followed (JS.SourceOf "constructor") 5%float) 4%float))].
Proof. reflexivity. Qed.

(** ** The order of the categories *)

Lemma filter_filter_implied {A} (p q : A -> bool) (l : list A) :
  (forall x, p x = true -> q x = true) ->
  List.filter p (List.filter q l) = List.filter p l.
Proof.
  intros H. induction l as [| x r IH]; simpl; [reflexivity |].
  destruct (q x) eqn:Eq; simpl.
  - rewrite IH. reflexivity.
  - destruct (p x) eqn:Ep; [rewrite (H x Ep) in Eq; discriminate | exact IH].
Qed.

Lemma filter_comm {A} (p q : A -> bool) (l : list A) :
  List.filter p (List.filter q l) = List.filter q (List.filter p l).
Proof.
  induction l as [| x r IH]; simpl; [reflexivity |].
  destruct (q x) eqn:Eq, (p x) eqn:Ep; simpl; rewrite ?Eq, ?Ep, IH; reflexivity.
Qed.

(** Keeping some members commutes with keeping first appearances. *)
Lemma first_appearances_filter (p : string -> bool) (l : list string) :
  Spec.first_appearances (List.filter p l) = List.filter p (Spec.first_appearances l).
Proof.
  induction l as [| c r IH]; simpl; [reflexivity |].
  destruct (p c) eqn:Ec; simpl.
  - rewrite IH, filter_comm. reflexivity.
  - rewrite IH. symmetry. apply filter_filter_implied.
    intros x Hx. apply negb_true_iff, String.eqb_neq. intros ->. congruence.
Qed.

Lemma keys_filter (p : string -> bool) (o : JS.object) :
  map fst (List.filter (fun e => p (fst e)) o) = List.filter p (map fst o).
Proof.
  induction o as [| [k v] r IH]; simpl; [reflexivity |].
  destruct (p k); simpl; rewrite IH; reflexivity.
Qed.

Lemma keys_insert_by_index e o :
  map fst (JS.insert_by_index e o) = Spec.insert_ascending (fst e) (map fst o).
Proof.
  induction o as [| x r IH]; simpl; [reflexivity |].
  destruct (JS.index_of (fst e) <=? JS.index_of (fst x)); simpl; [reflexivity |].
  rewrite IH. reflexivity.
Qed.

Lemma keys_sort_by_index o :
  map fst (JS.sort_by_index o) = Spec.ascending (map fst o).
Proof.
  unfold JS.sort_by_index, Spec.ascending.
  induction o as [| x r IH]; simpl; [reflexivity |].
  rewrite keys_insert_by_index, IH. reflexivity.
Qed.

(** C9, as the code has it.  No bucket key (the category, or
    [Uncategorized] for an empty one) being [__proto__], the summary card
    lists the categories as a plain object lists its keys: those that are
    array indices first, in ascending numeric order, then the others in the
    order of their first appearance among the records. *)
Theorem categories_presented_in_key_order (l : list Expense.t) :
  Forall not_proto l ->
  Screen.presented l = Spec.presentation_order (map Screen.bucket l).
Proof.
  intros Hp. unfold Screen.presented, JS.keys, JS.entries, Spec.presentation_order.
  rewrite map_app, keys_sort_by_index.
  rewrite (keys_filter JS.is_array_index).
  rewrite (keys_filter (fun k => negb (JS.is_array_index k))).
  rewrite (categoryTotals_keys l Hp), !first_appearances_filter. reflexivity.
Qed.

(** Without array indices the order is that of first appearance. *)
Lemma presentation_order_without_indices (l : list string) :
  Forall (fun k => JS.is_array_index k = false) l ->
  Spec.presentation_order l = Spec.first_appearances l.
Proof.
  intros H. unfold Spec.presentation_order.
  assert (List.filter JS.is_array_index l = []) as ->.
  { induction H as [| k r Hk _ IH]; simpl; [reflexivity |]. rewrite Hk. exact IH. }
  assert (List.filter (fun k => negb (JS.is_array_index k)) l = l) as ->.
  { induction H as [| k r Hk _ IH]; simpl; [reflexivity |]. rewrite Hk. simpl. rewrite IH. reflexivity. }
  reflexivity.
Qed.

(** The array indices come out in ascending order. *)
Lemma insert_ascending_sorted k l :
  StronglySorted (fun a b => JS.index_of a <= JS.index_of b) l ->
  StronglySorted (fun a b => JS.index_of a <= JS.index_of b) (Spec.insert_ascending k l).
Proof.
  induction 1 as [| x r Hr IH Hx]; simpl.
  - repeat constructor.
  - destruct (Z.leb_spec (JS.index_of k) (JS.index_of x)) as [Hle | Hgt].
    + constructor; [constructor; assumption |].
      constructor; [exact Hle |].
      eapply Forall_impl; [| exact Hx]. simpl. intros. lia.
    + constructor; [exact IH |].
      assert (forall y, In y (Spec.insert_ascending k r) -> y = k \/ In y r) as Hin.
      { clear. induction r as [| z r IH]; simpl; intros y.
        - intros [<- | []]. left. reflexivity.
        - destruct (JS.index_of k <=? JS.index_of z); simpl.
          + intros [<- | H]; [left; reflexivity | right; exact H].
          + intros [<- | H]; [right; left; reflexivity |].
            destruct (IH y H) as [-> | H']; [left; reflexivity | right; right; exact H']. }
      apply Forall_forall. intros y Hy. destruct (Hin y Hy) as [-> | Hy']; [lia |].
      eapply Forall_forall in Hx; [exact Hx | exact Hy'].
Qed.

Lemma ascending_sorted l :
  StronglySorted (fun a b => JS.index_of a <= JS.index_of b) (Spec.ascending l).
Proof.
  unfold Spec.ascending. induction l as [| k r IH]; simpl; [constructor |].
  apply insert_ascending_sorted, IH.
Qed.

Lemma categories_presented_in_key_order_witness :
  Screen.presented mixed_records
  = Spec.presentation_order (map Screen.bucket mixed_records).
Proof.
  apply (categories_presented_in_key_order mixed_records).
  repeat constructor.
Defined.

Example mixed_records_presented :
  Screen.presented mixed_records
  = ["2023"; "2024"; "Food"; "Transport"; "Uncategorized"].
Proof. reflexivity. Qed.

(** C9 as stated fails: categories that are array indices are listed in
    ascending numeric order, whatever the order of their first appearance. *)
Lemma numeric_categories_are_sorted :
  let l := [ Expense.mk 2 5%float "2024" None (Some "2024-03-15");
             Expense.mk 1 4%float "2023" None (Some "2024-03-15") ] in
  Screen.presented l = ["2023"; "2024"]
  /\ Spec.first_appearances (map Expense.category l) = ["2024"; "2023"].
Proof. split; reflexivity. Qed.

(** ** The total against the sum of the subtotals *)

(** C10 as stated fails: with the amounts 1.1, 2.2 and 3.3 the total is
    [(1.1 + 2.2) + 3.3] and the sum of the subtotals is [(1.1 + 3.3) + 2.2],
    which differ in the last place. *)
Lemma total_differs_from_sum_of_subtotals :
  let l := [ Expense.mk 3 (JS.parseFloat "1.1") "Food" None (Some "2024-03-15");
             Expense.mk 2 (JS.parseFloat "2.2") "Transport" None (Some "2024-03-15");
             Expense.mk 1 (JS.parseFloat "3.3") "Food" None (Some "2024-03-15") ] in
  Screen.totalSpending l = 6.6%float
  /\ Spec.sum (Spec.subtotals (Screen.categoryTotals l)) = 6.6000000000000005%float
  /\ Screen.totalSpending l <> Spec.sum (Spec.subtotals (Screen.categoryTotals l)).
Proof.
  cbv zeta. split; [vm_compute; reflexivity |]. split; [vm_compute; reflexivity |].
  intros H. vm_compute in H.
  assert (PrimFloat.eqb 6.6%float 6.6000000000000005%float = true) as E
    by (rewrite H at 1; reflexivity).
  vm_compute in E. discriminate.
Qed.

Lemma total_of_indicator (b : string) (x : Z) (ks : list string) :
  NoDup ks -> In b ks ->
  total_of (fun k => if String.eqb k b then x else 0) ks = x.
Proof.
  induction ks as [| k r IH]; simpl; [contradiction |].
  intros Hnd Hin. inversion Hnd as [| ? ? Hk Hr]; subst.
  destruct (String.eqb_spec k b) as [-> | Hkb].
  - assert (total_of (fun k => if String.eqb k b then x else 0) r = 0) as ->; [| lia].
    clear IH Hin Hr Hnd. induction r as [| k1 r1 IH1]; simpl; [reflexivity |].
    destruct (String.eqb_spec k1 b) as [-> | _]; [exfalso; apply Hk; left; reflexivity |].
    rewrite IH1; [reflexivity |]. intros H. apply Hk. right. exact H.
  - destruct Hin as [-> | Hin]; [contradiction |]. rewrite IH by assumption. lia.
Qed.

Lemma total_of_add (f g : string -> Z) (ks : list string) :
  total_of (fun k => f k + g k) ks = total_of f ks + total_of g ks.
Proof. induction ks as [| k r IH]; simpl; [reflexivity | rewrite IH; lia]. Qed.

Lemma total_of_ext (f g : string -> Z) (ks : list string) :
  (forall k, f k = g k) -> total_of f ks = total_of g ks.
Proof. intros H. induction ks as [| k r IH]; simpl; [reflexivity | rewrite IH, H; reflexivity]. Qed.

Lemma total_of_zero (ks : list string) : total_of (fun _ => 0) ks = 0.
Proof. induction ks as [| k r IH]; simpl; [reflexivity | exact IH]. Qed.

Lemma total_of_permutation (f : string -> Z) (ks ks1 : list string) :
  Permutation ks ks1 -> total_of f ks = total_of f ks1.
Proof. induction 1; simpl; lia. Qed.

(** Over keys that are distinct and cover the buckets, the bucket sums add
    up to the sum over all records. *)
Lemma bucket_sums_add_up (steps : Expense.t -> Z) (ks : list string) (l : list Expense.t) :
  NoDup ks ->
  (forall e, In e l -> In (Screen.bucket e) ks) ->
  total_of (fun k => steps_of steps (bucketed k l)) ks = steps_of steps l.
Proof.
  intros Hnd. induction l as [| e r IH]; intros Hcover.
  - simpl. apply total_of_zero.
  - rewrite (total_of_ext _ (fun k => (if String.eqb k (Screen.bucket e) then steps e else 0)
                                     + steps_of steps (bucketed k r))).
    + rewrite total_of_add, total_of_indicator, IH; [reflexivity | | exact Hnd |].
      * intros x Hx. apply Hcover. right. exact Hx.
      * apply Hcover. left. reflexivity.
    + intros k. unfold bucketed. cbn [List.filter].
      rewrite (String.eqb_sym k). destruct (String.eqb (Screen.bucket e) k); reflexivity.
Qed.

Lemma first_appearances_covers l x : In x l -> In x (Spec.first_appearances l).
Proof.
  induction l as [| c r IH]; simpl; [tauto |].
  intros [-> | H]; [left; reflexivity |].
  destruct (String.eqb_spec x c) as [-> | Hxc]; [left; reflexivity |].
  right. apply filter_In. split; [apply IH, H |].
  apply negb_true_iff, String.eqb_neq, Hxc.
Qed.

Lemma first_appearances_NoDup l : NoDup (Spec.first_appearances l).
Proof.
  induction l as [| c r IH]; simpl; constructor.
  - intros H. apply filter_In in H. destruct H as [_ H].
    rewrite String.eqb_refl in H. discriminate.
  - apply NoDup_filter, IH.
Qed.

Lemma insert_by_index_permutation e l : Permutation (JS.insert_by_index e l) (e :: l).
Proof.
  induction l as [| x r IH]; simpl; [apply Permutation_refl |].
  destruct (JS.index_of (fst e) <=? JS.index_of (fst x)); [apply Permutation_refl |].
  eapply perm_trans; [apply perm_skip, IH | apply perm_swap].
Qed.

Lemma sort_by_index_permutation l : Permutation (JS.sort_by_index l) l.
Proof.
  unfold JS.sort_by_index. induction l as [| x r IH]; simpl; [constructor |].
  eapply perm_trans; [apply insert_by_index_permutation | apply perm_skip, IH].
Qed.

Lemma filter_partition_permutation {A} (p : A -> bool) (l : list A) :
  Permutation (List.filter p l ++ List.filter (fun x => negb (p x)) l) l.
Proof.
  induction l as [| x r IH]; simpl; [constructor |].
  destruct (p x); simpl.
  - apply perm_skip, IH.
  - apply Permutation_sym, Permutation_cons_app, Permutation_sym, IH.
Qed.

(** [Object.entries] lists every own property once. *)
Lemma entries_permutation o : Permutation (JS.entries o) o.
Proof.
  unfold JS.entries.
  eapply perm_trans; [| apply (filter_partition_permutation (fun e => JS.is_array_index (fst e)))].
  apply Permutation_app_tail, sort_by_index_permutation.
Qed.

Lemma own_of_entry o k v : NoDup (map fst o) -> In (k, v) o -> JS.own o k = Some v.
Proof.
  induction o as [| [k0 v0] r IH]; simpl; [contradiction |].
  intros Hnd Hin. inversion Hnd as [| ? ? Hk Hr]; subst.
  destruct Hin as [[= -> ->] | Hin].
  - rewrite String.eqb_refl. reflexivity.
  - destruct (String.eqb_spec k k0) as [-> | _]; [| apply IH; assumption].
    exfalso. apply Hk. change k0 with (fst (k0, v)). apply in_map, Hin.
Qed.

Lemma steps_of_nonneg g steps l : Forall (on_grid g steps) l -> 0 <= steps_of steps l.
Proof. induction 1 as [| e r [He _] _ IH]; simpl; lia. Qed.

Lemma steps_of_filter g steps p l :
  Forall (on_grid g steps) l -> 0 <= steps_of steps (List.filter p l) <= steps_of steps l.
Proof.
  induction 1 as [| e r [He _] _ IH]; simpl; [lia |].
  destruct (p e); simpl; lia.
Qed.

Lemma sum_from_on_grid g steps l acc :
  -1074 <= g <= 971 -> 0 <= acc ->
  Forall (on_grid g steps) l -> acc + steps_of steps l < 2 ^ 53 ->
  fold_left PrimFloat.add (map Expense.amount l) (grid g acc)
  = grid g (acc + steps_of steps l).
Proof.
  intros Hg. revert acc. induction l as [| e r IH]; intros acc Ha Hl Hb; simpl.
  - rewrite Z.add_0_r. reflexivity.
  - inversion Hl as [| ? ? [He Ee] Hr]; subst. simpl in Hb.
    pose proof (steps_of_nonneg g steps r Hr).
    rewrite Ee, grid_add by lia.
    rewrite IH by (assumption || lia). f_equal. lia.
Qed.

Lemma sum_on_grid g steps l :
  -1074 <= g <= 971 ->
  Forall (on_grid g steps) l -> steps_of steps l < 2 ^ 53 ->
  Spec.sum (map Expense.amount l) = grid g (steps_of steps l).
Proof.
  intros Hg Hl Hb. unfold Spec.sum. rewrite <- (grid_zero g).
  rewrite (sum_from_on_grid g steps l 0) by (assumption || lia). reflexivity.
Qed.

Lemma on_grid_positive g steps l :
  -1074 <= g <= 971 ->
  Forall (on_grid g steps) l -> steps_of steps l < 2 ^ 53 ->
  Forall positive_amount l.
Proof.
  intros Hg Hl. induction Hl as [| e r [He Ee] Hr IH]; intros Hb; constructor.
  - unfold positive_amount. rewrite Ee. simpl in Hb.
    pose proof (steps_of_nonneg g steps r Hr).
    destruct (steps e) as [| q | q]; try lia. apply grid_positive; [exact Hg | lia].
  - apply IH. simpl in Hb. lia.
Qed.

Lemma sum_of_grid_values g (f : string -> Z) (ks : list string) acc :
  -1074 <= g <= 971 -> 0 <= acc ->
  (forall k, 0 <= f k) -> acc + total_of f ks < 2 ^ 53 ->
  fold_left PrimFloat.add (map (fun k => grid g (f k)) ks) (grid g acc)
  = grid g (acc + total_of f ks).
Proof.
  intros Hg. revert acc. induction ks as [| k r IH]; intros acc Ha Hf Hb; simpl.
  - rewrite Z.add_0_r. reflexivity.
  - simpl in Hb.
    assert (0 <= total_of f r).
    { clear -Hf. induction r; simpl; [lia |]. specialize (Hf a). lia. }
    pose proof (Hf k).
    rewrite grid_add by lia. rewrite IH by (assumption || lia). f_equal. lia.
Qed.

(** C10, on a grid.  When every amount is a whole, positive number of steps
    of one power of two (whole units, halves, quarters, ...), all the
    amounts together stay below [2^53] steps, and no bucket key is an
    inherited name, the total equals the sum of the subtotals. *)
Theorem total_is_sum_of_subtotals_on_grid (g : Z) (steps : Expense.t -> Z)
    (l : list Expense.t) :
  -1074 <= g <= 971 ->
  Forall (on_grid g steps) l ->
  steps_of steps l < 2 ^ 53 ->
  Forall plain_key l ->
  Screen.totalSpending l = Spec.sum (Spec.subtotals (Screen.categoryTotals l)).
Proof.
  intros Hg Hl Hb Hk.
  pose proof (on_grid_positive g steps l Hg Hl Hb) as Hp.
  assert (Forall not_proto l) as Hnp.
  { apply Forall_forall. intros e He. apply not_inherited_not_proto.
    eapply Forall_forall in Hk; [exact Hk | exact He]. }
  pose proof (categoryTotals_keys l Hnp) as Hkeys.
  set (o := Screen.categoryTotals l) in *.
  set (f := fun k => steps_of steps (bucketed k l)).
  assert (NoDup (map fst o)) as Hnd by (rewrite Hkeys; apply first_appearances_NoDup).
  (* every listed value is the bucket's sum *)
  assert (forall kv, In kv (JS.entries o) ->
                     JS.ToNumber (snd kv) = grid g (f (fst kv))) as Hval.
  { intros [k v] Hin. cbn [fst snd].
    apply (Permutation_in _ (entries_permutation o)) in Hin.
    pose proof (own_of_entry o k v Hnd Hin) as Hown.
    subst o. rewrite (categoryTotals_own l Hp Hk k) in Hown.
    assert (Forall (on_grid g steps) (bucketed k l)) as Hbl.
    { apply Forall_forall. intros x Hx. apply filter_In in Hx.
      eapply Forall_forall in Hl; [exact Hl | apply Hx]. }
    pose proof (steps_of_filter g steps (fun e => String.eqb (Screen.bucket e) k) l Hl) as Hle.
    fold (bucketed k l) in Hle.
    destruct (bucketed k l) as [| x r] eqn:E; [discriminate |].
    injection Hown as <-. cbn [JS.ToNumber].
    unfold f. rewrite E. apply (sum_on_grid g steps (x :: r)); [exact Hg | exact Hbl | lia]. }
  (* the total *)
  unfold Screen.totalSpending. rewrite (totalSpending_from l PrimFloat.zero Hp).
  fold (Spec.sum (map Expense.amount l)).
  rewrite (sum_on_grid g steps l Hg Hl Hb).
  (* the sum of the subtotals *)
  unfold Spec.subtotals.
  rewrite (map_ext_in _ (fun kv => grid g (f (fst kv))) _ Hval).
  rewrite <- (map_map fst (fun k => grid g (f k))).
  assert (total_of f (map fst (JS.entries o)) = steps_of steps l) as Htot.
  { rewrite (total_of_permutation f _ (map fst o))
      by (apply Permutation_map, entries_permutation).
    rewrite Hkeys. apply bucket_sums_add_up; [apply first_appearances_NoDup |].
    intros e He. apply first_appearances_covers, in_map, He. }
  unfold Spec.sum. rewrite <- (grid_zero g).
  rewrite (sum_of_grid_values g f _ 0); [rewrite Htot; reflexivity | exact Hg | lia | | lia].
  intros k. unfold f. apply (steps_of_filter g steps _ l Hl).
Qed.

Lemma total_is_sum_of_subtotals_witness :
  Screen.totalSpending example_records
  = Spec.sum (Spec.subtotals (Screen.categoryTotals example_records)).
Proof.
  apply (total_is_sum_of_subtotals_on_grid (-2)
           (fun e => match Expense.id e with 3 => 50 | 2 => 29 | _ => 80 end)
           example_records).
  - lia.
  - repeat constructor.
  - reflexivity.
  - repeat constructor.
Defined.

(* ================================================================== *)
(** * Part XIII: loading, saving and deleting                         *)
(* ================================================================== *)

(** ** The checks of a save *)

Lemma passes_the_checks_validate (s : State.t) :
  passes_the_checks s
  = match Spec.validate (State.amount s) (State.category s) with
    | inr _ => true
    | inl _ => false
    end.
Proof.
  unfold passes_the_checks, Spec.validate. cbn zeta. rewrite truthy_string_eqb.
  destruct (JS.isNaN (JS.parseFloat (State.amount s))
            || PrimFloat.leb (JS.parseFloat (State.amount s)) PrimFloat.zero);
    [reflexivity |].
  destruct (String.eqb (JS.trim (State.category s)) ""); reflexivity.
Qed.

Lemma checks_failed (s : State.t) :
  passes_the_checks s = false ->
  exists r, Spec.validate (State.amount s) (State.category s) = inl r.
Proof.
  rewrite passes_the_checks_validate.
  destruct (Spec.validate (State.amount s) (State.category s)) as [r | v];
    [exists r; reflexivity | discriminate].
Qed.

Lemma saved_validate (s : State.t) (d : Store) :
  saved s d
  = match Spec.validate (State.amount s) (State.category s) with
    | inr _ => available d
    | inl _ => false
    end.
Proof.
  unfold saved. rewrite passes_the_checks_validate.
  destruct (Spec.validate (State.amount s) (State.category s)); reflexivity.
Qed.

Lemma insert_desc_In e x l : In x (insert_desc e l) <-> x = e \/ In x l.
Proof.
  split.
  - intros H. apply (Permutation_in _ (insert_desc_permutation e l)) in H.
    destruct H as [<- | H]; auto.
  - intros H. apply (Permutation_in _ (Permutation_sym (insert_desc_permutation e l))).
    destruct H as [-> | H]; [left; reflexivity | right; exact H].
Qed.

Lemma insert_desc_sorted e l : newest_first l -> newest_first (insert_desc e l).
Proof.
  unfold newest_first. induction 1 as [| x r Hr IH Hx]; simpl.
  - repeat constructor.
  - destruct (Z.leb_spec (Expense.id x) (Expense.id e)) as [Hle | Hgt].
    + constructor; [constructor; assumption |].
      constructor; [exact Hle |].
      eapply Forall_impl; [| exact Hx]. simpl. intros. lia.
    + constructor; [exact IH |].
      apply Forall_forall. intros y Hy. apply insert_desc_In in Hy.
      destruct Hy as [-> | Hy]; [lia |].
      eapply Forall_forall in Hx; [exact Hx | exact Hy].
Qed.

Lemma select_all_sorted d : newest_first (select_all d).
Proof.
  unfold select_all. induction (rows d) as [| e r IH]; simpl; [constructor |].
  apply insert_desc_sorted, IH.
Qed.

(** X1.  [loadExpenses], the database answering, returns normally, and the list
    then holds every row of the table exactly once, the highest id first,
    in both revisions. *)
Theorem load_lists_every_row_newest_first (revision : Revision) (w : World) :
  available (db w) = true ->
  fst (App.loadExpenses revision w) = Normal tt
  /\ Permutation (State.expenses (ui (snd (App.loadExpenses revision w)))) (rows (db w))
  /\ newest_first (State.expenses (ui (snd (App.loadExpenses revision w)))).
Proof.
  intros Ha.
  assert (App.loadExpenses revision w = setExpenses (select_all (db w)) w) as ->.
  { destruct revision; cbn [App.loadExpenses];
      [unfold ExpenseScreen.loadExpenses | unfold Part000.loadExpenses];
      unfold try_catch, bind, getAllAsync; rewrite Ha; reflexivity. }
  cbn. split; [reflexivity |]. split; [apply select_all_permutation | apply select_all_sorted].
Qed.

Lemma load_lists_every_row_newest_first_witness :
  let w := run Part000Js utc sample_NumberToString edit_after_five_days
             (fresh_world noon_2024_03_15) in
  fst (App.loadExpenses Part000Js w) = Normal tt
  /\ Permutation (State.expenses (ui (snd (App.loadExpenses Part000Js w)))) (rows (db w))
  /\ newest_first (State.expenses (ui (snd (App.loadExpenses Part000Js w)))).
Proof.
  apply (load_lists_every_row_newest_first Part000Js
           (run Part000Js utc sample_NumberToString edit_after_five_days
              (fresh_world noon_2024_03_15))).
  reflexivity.
Defined.

(** ** Failures of the database *)

(** X2.  In [part_000] no handler rejects: [loadExpenses],
    [handleSaveExpense], [deleteExpense] and [setup] return normally in
    every world, whether or not the database answers. *)
Theorem part_000_handlers_never_reject (host : JS.Host) (s : State.t) (id : Z) (w : World) :
  fst (Part000.loadExpenses w) = Normal tt
  /\ fst (Part000.handleSaveExpense host s w) = Normal tt
  /\ fst (Part000.deleteExpense s id w) = Normal tt
  /\ fst (Part000.setup w) = Normal tt.
Proof.
  repeat split.
  - unfold Part000.loadExpenses. unfold_async. destruct (available (db w)); reflexivity.
  - unfold Part000.handleSaveExpense, Part000.loadExpenses. unfold_async.
    destruct (negb (JS.truthy_string (JS.trim (State.amount s)))); [reflexivity |].
    destruct (negb (JS.truthy_string (JS.trim (State.category s)))); [reflexivity |].
    destruct (JS.isNaN (JS.parseFloat (State.amount s))
              || PrimFloat.leb (JS.parseFloat (State.amount s)) PrimFloat.zero);
      [reflexivity |].
    destruct (State.editingId s); cbn; destruct (available (db w)); reflexivity.
  - unfold Part000.deleteExpense, Part000.loadExpenses. unfold_async.
    destruct (Screen.same_id (State.editingId s) id); cbn;
      destruct (available (db w)); reflexivity.
  - unfold Part000.setup, execAsync_create_table, Part000.loadExpenses. unfold_async.
    destruct (available (db w)) eqn:Ea; cbn; rewrite ?Ea; reflexivity.
Qed.

(** X3.  In [ExpenseScreen.js] nothing catches a failure of the database:
    [loadExpenses], [deleteExpense] and [setup] reject exactly when the
    database does not answer, and [handleSaveExpense] exactly when it does
    not answer and the input passes the checks of the handler. *)
Theorem ExpenseScreen_handlers_reject_on_outage (host : JS.Host) (s : State.t) (id : Z)
    (w : World) :
  (fst (ExpenseScreen.loadExpenses w) = Rejected <-> available (db w) = false)
  /\ (fst (ExpenseScreen.handleSaveExpense host s w) = Rejected
      <-> available (db w) = false /\ passes_the_checks s = true)
  /\ (fst (ExpenseScreen.deleteExpense s id w) = Rejected <-> available (db w) = false)
  /\ (fst (ExpenseScreen.setup w) = Rejected <-> available (db w) = false).
Proof.
  split; [| split; [| split]].
  - unfold ExpenseScreen.loadExpenses. unfold_async.
    destruct (available (db w)); cbn; split; congruence.
  - rewrite passes_the_checks_validate.
    destruct (Spec.validate (State.amount s) (State.category s)) as [r | v] eqn:Hv.
    + rewrite (ExpenseScreen_refusal_changes_nothing host s w r Hv). cbn.
      split; [discriminate | intros [_ Hv']; discriminate].
    + destruct (validate_accepted_cases _ _ _ Hv) as (Hg & Ht & _ & _).
      unfold ExpenseScreen.handleSaveExpense. rewrite Hg, Ht. cbn [negb].
      unfold ExpenseScreen.loadExpenses. unfold_async.
      destruct (State.editingId s); cbn; destruct (available (db w)); cbn;
        (split; [intros H; first [discriminate H | split; reflexivity]
                | intros [H _]; first [discriminate H | reflexivity]]).
  - unfold ExpenseScreen.deleteExpense, ExpenseScreen.loadExpenses. unfold_async.
    destruct (available (db w)); cbn; split; congruence.
  - unfold ExpenseScreen.setup, execAsync_create_table, ExpenseScreen.loadExpenses.
    unfold_async.
    destruct (available (db w)) eqn:Ea; cbn; rewrite ?Ea; cbn; split; congruence.
Qed.

(** ** The two revisions side by side *)

(** X4.  For every state and input, a save leaves the same component state,
    the same table and the same statements issued in both revisions; they
    differ in the alerts, the console and the rejection only. *)
Theorem revisions_save_alike (host : JS.Host) (w : World) :
  ui (press (ExpenseScreen.handleSaveExpense host) w)
    = ui (press (Part000.handleSaveExpense host) w)
  /\ db (press (ExpenseScreen.handleSaveExpense host) w)
     = db (press (Part000.handleSaveExpense host) w)
  /\ issued (press (ExpenseScreen.handleSaveExpense host) w)
     = issued (press (Part000.handleSaveExpense host) w).
Proof.
  unfold press.
  destruct (Spec.validate (State.amount (ui w)) (State.category (ui w))) as [r | v] eqn:Hv.
  - rewrite (ExpenseScreen_refusal_changes_nothing host _ w r Hv).
    destruct (Part000_refusal_alerts host _ w r Hv) as (t & m & -> & _).
    unfold Alert_alert. cbn. auto.
  - destruct (validate_accepted_cases _ _ _ Hv) as (Hg & Ht & Ha & _).
    unfold ExpenseScreen.handleSaveExpense, Part000.handleSaveExpense.
    rewrite Hg, Ht, Ha. cbn [negb].
    unfold ExpenseScreen.loadExpenses, Part000.loadExpenses. unfold_async.
    destruct (State.editingId (ui w)); cbn;
      destruct (available (db w)) eqn:Ea; cbn; rewrite ?Ea; cbn; auto.
Qed.

Lemma save_without_effect (revision : Revision) (host : JS.Host) (w : World) :
  available (db w) = false
  \/ (exists r, Spec.validate (State.amount (ui w)) (State.category (ui w)) = inl r) ->
  ui (press (App.handleSaveExpense revision host) w) = ui w
  /\ db (press (App.handleSaveExpense revision host) w) = db w.
Proof.
  intros H. unfold press.
  destruct (Spec.validate (State.amount (ui w)) (State.category (ui w))) as [r | v] eqn:Hv.
  - destruct revision; cbn [App.handleSaveExpense].
    + rewrite (ExpenseScreen_refusal_changes_nothing host _ w r Hv). auto.
    + destruct (Part000_refusal_alerts host _ w r Hv) as (t & m & -> & _).
      unfold Alert_alert. cbn. auto.
  - destruct H as [Ha | [r Hr]]; [| discriminate].
    destruct (validate_accepted_cases _ _ _ Hv) as (Hg & Ht & Hb & _).
    destruct revision; cbn [App.handleSaveExpense].
    + unfold ExpenseScreen.handleSaveExpense. rewrite Hg, Ht. cbn [negb].
      unfold_async. destruct (State.editingId (ui w)); cbn; rewrite Ha; cbn;
        destruct (ui w); auto.
    + unfold Part000.handleSaveExpense. rewrite Hg, Ht, Hb. cbn [negb].
      unfold_async. destruct (State.editingId (ui w)); cbn; rewrite Ha; cbn;
        destruct (ui w); auto.
Qed.

(** X5.  When the database does not answer, or the input does not pass the
    checks of the handler, a save leaves the component state (the form, the row selected, the list) and
    the table as they were, in both revisions. *)
Theorem unsaved_input_stays_in_the_form (revision : Revision) (host : JS.Host) (w : World) :
  available (db w) = false \/ passes_the_checks (ui w) = false ->
  ui (press (App.handleSaveExpense revision host) w) = ui w
  /\ db (press (App.handleSaveExpense revision host) w) = db w.
Proof.
  intros [Ha | Hc]; apply save_without_effect; [left; exact Ha | right].
  apply checks_failed. exact Hc.
Qed.

Lemma unsaved_input_stays_in_the_form_witness :
  let w := App.with_availability false
             (type_form "12.50" "Food" "lunch" (fresh_world noon_2024_03_15)) in
  ui (press (App.handleSaveExpense ExpenseScreenJs utc) w) = ui w
  /\ db (press (App.handleSaveExpense ExpenseScreenJs utc) w) = db w.
Proof.
  apply (unsaved_input_stays_in_the_form ExpenseScreenJs utc
           (App.with_availability false
              (type_form "12.50" "Food" "lunch" (fresh_world noon_2024_03_15)))).
  left. reflexivity.
Defined.

(** ** Adding a record *)

Lemma max_id_ge (l : list Expense.t) (e : Expense.t) : In e l -> Expense.id e <= max_id l.
Proof.
  induction l as [| x r IH]; simpl; [contradiction |].
  intros [-> | H]; [lia | specialize (IH H); lia].
Qed.

Lemma select_all_newest (l : list Expense.t) (e : Expense.t) :
  (forall x, In x l -> Expense.id x < Expense.id e) ->
  fold_right insert_desc [] (l ++ [e]) = e :: fold_right insert_desc [] l.
Proof.
  intros H. rewrite fold_right_app. simpl.
  induction l as [| x r IH]; simpl; [reflexivity |].
  rewrite IH by (intros y Hy; apply H; right; exact Hy).
  simpl. destruct (Z.leb_spec (Expense.id e) (Expense.id x)) as [Hle | _]; [| reflexivity].
  specialize (H x (or_introl eq_refl)). lia.
Qed.

Lemma select_all_after_insert d a c n dstr :
  select_all (execute (INSERT a c n dstr) d)
  = Expense.mk (Z.max (sequence d) (max_id (rows d)) + 1) a c n (Some dstr) :: select_all d.
Proof.
  unfold select_all. cbn [execute rows]. apply select_all_newest.
  intros x Hx. cbn [Expense.id]. pose proof (max_id_ge _ _ Hx). lia.
Qed.

(** What an accepted save leaves, the database answering. *)
Lemma save_pipeline (st : Statement) (l : list Expense.t) (w : World) :
  available (db w) = true ->
  snd ((runAsync st ;;
        setAmount "" ;; setCategory "" ;; setNote "" ;; setEditingId None ;;
        setExpenses l) w)
  = {| ui := State.mk l "" "" "" (State.filter (ui w)) None;
       db := execute st (db w); clock := clock w;
       alerts := alerts w; console := console w; issued := issued w ++ [st] |}.
Proof. intros Ha. unfold_async. rewrite Ha. reflexivity. Qed.

Lemma accepted_save_pipeline revision host w v :
  Spec.validate (State.amount (ui w)) (State.category (ui w)) = inr v ->
  available (db w) = true ->
  press (App.handleSaveExpense revision host) w
  = snd ((runAsync (save_statement host (ui w) (clock w)) ;;
          setAmount "" ;; setCategory "" ;; setNote "" ;; setEditingId None ;;
          setExpenses (select_all (execute (save_statement host (ui w) (clock w)) (db w))))
           w).
Proof.
  intros Hv Ha.
  destruct (validate_accepted_cases _ _ _ Hv) as (Hg & Ht & Hb & _).
  unfold press. destruct revision; cbn [App.handleSaveExpense].
  - unfold ExpenseScreen.handleSaveExpense, save_statement. rewrite Hg, Ht. cbn [negb].
    unfold ExpenseScreen.loadExpenses. unfold_async.
    destruct (State.editingId (ui w)); cbn; rewrite Ha; cbn; rewrite ?Ha; reflexivity.
  - unfold Part000.handleSaveExpense, save_statement. rewrite Hg, Ht, Hb. cbn [negb].
    unfold Part000.loadExpenses. unfold_async.
    destruct (State.editingId (ui w)); cbn; rewrite Ha; cbn; rewrite ?Ha; reflexivity.
Qed.

Lemma accepted_save_result revision host w v :
  Spec.validate (State.amount (ui w)) (State.category (ui w)) = inr v ->
  available (db w) = true ->
  press (App.handleSaveExpense revision host) w
  = {| ui := State.mk (select_all (execute (save_statement host (ui w) (clock w)) (db w)))
                      "" "" "" (State.filter (ui w)) None;
       db := execute (save_statement host (ui w) (clock w)) (db w); clock := clock w;
       alerts := alerts w; console := console w;
       issued := issued w ++ [save_statement host (ui w) (clock w)] |}.
Proof.
  intros Hv Ha. rewrite (accepted_save_pipeline revision host w v Hv Ha).
  apply save_pipeline, Ha.
Qed.

Lemma find_edited_none (l : list Expense.t) : find (Screen.is_edited None) l = None.
Proof. induction l as [| x r IH]; [reflexivity | exact IH]. Qed.

Lemma insert_outcome (revision : Revision) (host : JS.Host) (w : World) :
  available (db w) = true ->
  State.editingId (ui w) = None ->
  PrimFloat.ltb PrimFloat.zero (JS.parseFloat (State.amount (ui w))) = true ->
  JS.trim (State.category (ui w)) <> "" ->
  let w' := press (App.handleSaveExpense revision host) w in
  let added :=
    Expense.mk (Z.max (sequence (db w)) (max_id (rows (db w))) + 1)
               (JS.parseFloat (State.amount (ui w)))
               (JS.trim (State.category (ui w)))
               (Screen.note_or_null (JS.trim (State.note (ui w))))
               (Some (Screen.getTodayString host (Some (clock w)))) in
  State.expenses (ui w') = added :: select_all (db w)
  /\ rows (db w') = rows (db w) ++ [added]
  /\ editing_state (ui w') = idle.
Proof.
  intros Ha Hi Hp Hc. cbn zeta.
  pose proof (validate_accepts _ _ Hp Hc) as Hv.
  rewrite (accepted_save_result revision host w _ Hv Ha).
  cbn [ui db State.expenses editing_state State.editingId State.amount State.category
       State.note].
  unfold save_statement. rewrite Hi, find_edited_none. cbn [Screen.date_or_today].
  rewrite select_all_after_insert. cbn [execute rows]. auto.
Qed.

(** X6.  While no row is selected, a save of accepted input that the database
    executes appends one row: the next id, the parsed amount, the trimmed
    category, the trimmed note or none, the text of today.  The list then
    shows that row first and the stored rows after it, and the form is
    empty and idle again.  In both revisions. *)
Theorem added_record_heads_the_list (revision : Revision) (host : JS.Host) (w : World) :
  available (db w) = true ->
  State.editingId (ui w) = None ->
  PrimFloat.ltb PrimFloat.zero (JS.parseFloat (State.amount (ui w))) = true ->
  JS.trim (State.category (ui w)) <> "" ->
  let w' := press (App.handleSaveExpense revision host) w in
  let added :=
    Expense.mk (Z.max (sequence (db w)) (max_id (rows (db w))) + 1)
               (JS.parseFloat (State.amount (ui w)))
               (JS.trim (State.category (ui w)))
               (Screen.note_or_null (JS.trim (State.note (ui w))))
               (Some (Screen.getTodayString host (Some (clock w)))) in
  State.expenses (ui w') = added :: select_all (db w)
  /\ rows (db w') = rows (db w) ++ [added]
  /\ editing_state (ui w') = idle.
Proof. exact (insert_outcome revision host w). Qed.

Lemma added_record_heads_the_list_witness :
  let w := type_form "12.50" " Food " "" (fresh_world noon_2024_03_15) in
  let w' := press (App.handleSaveExpense Part000Js utc) w in
  let added :=
    Expense.mk (Z.max (sequence (db w)) (max_id (rows (db w))) + 1)
               (JS.parseFloat (State.amount (ui w)))
               (JS.trim (State.category (ui w)))
               (Screen.note_or_null (JS.trim (State.note (ui w))))
               (Some (Screen.getTodayString utc (Some (clock w)))) in
  State.expenses (ui w') = added :: select_all (db w)
  /\ rows (db w') = rows (db w) ++ [added]
  /\ editing_state (ui w') = idle.
Proof.
  apply (added_record_heads_the_list Part000Js utc
           (type_form "12.50" " Food " "" (fresh_world noon_2024_03_15))).
  - reflexivity.
  - reflexivity.
  - vm_compute. reflexivity.
  - apply (string_neq_by_eqb (JS.trim " Food ") "" eq_refl).
Defined.

(** X7.  In [part_000] a load, a delete and the setup raise no alert and
    write nothing to the console when the database answers, and exactly one
    alert and one console line, their own, when it does not: a setup that
    fails does not also report a failed load. *)
Theorem part_000_reports_each_failure_once (s : State.t) (id : Z) (w : World) :
  let report (t : string) := if available (db w) then [] else [t] in
  let alert (m : string) :=
    if available (db w) then [] else [{| title := "Error"; message := m |}] in
  (alerts (snd (Part000.loadExpenses w))
     = alerts w ++ alert "Failed to load expenses from the database."
   /\ console (snd (Part000.loadExpenses w)) = console w ++ report "Error loading expenses:")
  /\ (alerts (snd (Part000.deleteExpense s id w)) = alerts w ++ alert "Failed to delete expense."
      /\ console (snd (Part000.deleteExpense s id w))
         = console w ++ report "Error deleting expense:")
  /\ (alerts (snd (Part000.setup w)) = alerts w ++ alert "Failed to set up the database."
      /\ console (snd (Part000.setup w)) = console w ++ report "Error in setup:").
Proof.
  cbn zeta. split; [| split].
  - unfold Part000.loadExpenses. unfold_async.
    destruct (available (db w)); cbn; rewrite ?app_nil_r; auto.
  - unfold Part000.deleteExpense, Part000.loadExpenses. unfold_async.
    destruct (Screen.same_id (State.editingId s) id); cbn;
      destruct (available (db w)) eqn:Ea; cbn; rewrite ?Ea; cbn; rewrite ?app_nil_r; auto.
  - unfold Part000.setup, execAsync_create_table, Part000.loadExpenses. unfold_async.
    destruct (available (db w)) eqn:Ea; cbn; rewrite ?Ea; cbn; rewrite ?app_nil_r; auto.
Qed.

(** ** Deleting a record *)

Lemma stored_after_delete d i j :
  stored (execute (DELETE i) d) j = if j =? i then None else stored d j.
Proof.
  unfold stored. cbn [execute rows].
  induction (rows d) as [| e r IH]; simpl.
  - destruct (j =? i); reflexivity.
  - destruct (Z.eqb_spec (Expense.id e) i) as [Hei | Hei]; simpl.
    + rewrite IH. destruct (Z.eqb_spec j i) as [Hji | Hji]; [reflexivity |].
      destruct (Z.eqb_spec (Expense.id e) j); [lia | reflexivity].
    + destruct (Z.eqb_spec (Expense.id e) j) as [Hej | Hej].
      * destruct (Z.eqb_spec j i); [lia | reflexivity].
      * exact IH.
Qed.

Lemma successful_delete revision w id :
  available (db w) = true ->
  db (press (fun s => App.deleteExpense revision s id) w) = execute (DELETE id) (db w)
  /\ State.expenses (ui (press (fun s => App.deleteExpense revision s id) w))
     = select_all (execute (DELETE id) (db w)).
Proof.
  intros Ha. unfold press. destruct revision; cbn [App.deleteExpense].
  - unfold ExpenseScreen.deleteExpense, ExpenseScreen.loadExpenses. unfold_async.
    rewrite Ha. cbn. rewrite ?Ha. cbn. auto.
  - unfold Part000.deleteExpense, Part000.loadExpenses. unfold_async.
    destruct (Screen.same_id (State.editingId (ui w)) id); cbn;
      rewrite Ha; cbn; rewrite ?Ha; cbn; auto.
Qed.

(** X8.  A delete that the database executes removes the row of that id and
    no other; the list is reloaded and no longer shows that id.  In both
    revisions. *)
Theorem delete_removes_that_row_only (revision : Revision) (w : World) (id : Z) :
  available (db w) = true ->
  let w' := press (fun s => App.deleteExpense revision s id) w in
  stored (db w') id = None
  /\ (forall j, j <> id -> stored (db w') j = stored (db w) j)
  /\ Permutation (State.expenses (ui w'))
       (List.filter (fun e => negb (Expense.id e =? id)) (rows (db w)))
  /\ ~ In id (map Expense.id (State.expenses (ui w'))).
Proof.
  intros Ha. cbn zeta.
  destruct (successful_delete revision w id Ha) as [-> ->].
  split; [| split; [| split]].
  - rewrite stored_after_delete, Z.eqb_refl. reflexivity.
  - intros j Hj. rewrite stored_after_delete.
    destruct (Z.eqb_spec j id); [contradiction | reflexivity].
  - apply select_all_permutation.
  - intros H. apply in_map_iff in H. destruct H as (e & He & Hin).
    apply select_all_In in Hin. cbn [execute rows] in Hin.
    apply filter_In in Hin. destruct Hin as [_ Hne].
    rewrite He, Z.eqb_refl in Hne. discriminate.
Qed.

Lemma delete_removes_that_row_only_witness :
  let w := run Part000Js utc sample_NumberToString edit_after_five_days
             (fresh_world noon_2024_03_15) in
  let w' := press (fun s => App.deleteExpense Part000Js s 1) w in
  stored (db w') 1 = None
  /\ (forall j, j <> 1 -> stored (db w') j = stored (db w) j)
  /\ Permutation (State.expenses (ui w'))
       (List.filter (fun e => negb (Expense.id e =? 1)) (rows (db w)))
  /\ ~ In 1 (map Expense.id (State.expenses (ui w'))).
Proof.
  apply (delete_removes_that_row_only Part000Js
           (run Part000Js utc sample_NumberToString edit_after_five_days
              (fresh_world noon_2024_03_15)) 1).
  reflexivity.
Defined.

(** X9.  In [part_000] the edit is cancelled before the row is deleted: when
    the database does not answer, deleting the row being edited still
    empties the form and leaves no row selected, while the row stays in the
    table and in the list. *)
Theorem part_000_failed_delete_cancels_the_edit (w : World) (id : Z) :
  available (db w) = false ->
  State.editingId (ui w) = Some id ->
  let w' := press (fun s => Part000.deleteExpense s id) w in
  editing_state (ui w') = idle
  /\ db w' = db w
  /\ State.expenses (ui w') = State.expenses (ui w).
Proof.
  intros Ha Hi. cbn zeta. unfold press, Part000.deleteExpense. rewrite Hi.
  cbn [Screen.same_id]. rewrite Z.eqb_refl. unfold_async. cbn. rewrite Ha. cbn. auto.
Qed.

Lemma part_000_failed_delete_cancels_the_edit_witness :
  let w := App.with_availability false
             (run Part000Js utc sample_NumberToString edit_after_five_days
                (fresh_world noon_2024_03_15)) in
  let w' := press (fun s => Part000.deleteExpense s 1) w in
  editing_state (ui w') = idle
  /\ db w' = db w
  /\ State.expenses (ui w') = State.expenses (ui w).
Proof.
  apply (part_000_failed_delete_cancels_the_edit
           (App.with_availability false
              (run Part000Js utc sample_NumberToString edit_after_five_days
                 (fresh_world noon_2024_03_15))) 1).
  - reflexivity.
  - vm_compute. reflexivity.
Defined.

(** ** Saving an edit *)

Lemma stored_after_update_other d a c n dstr i j :
  j <> i -> stored (execute (UPDATE a c n dstr i) d) j = stored d j.
Proof.
  intros Hj. unfold stored. cbn [execute rows].
  induction (rows d) as [| e r IH]; simpl; [reflexivity |].
  destruct (Z.eqb_spec (Expense.id e) i) as [Hei | Hei]; cbn [Expense.id].
  - destruct (Z.eqb_spec (Expense.id e) j); [lia | exact IH].
  - destruct (Z.eqb_spec (Expense.id e) j); [reflexivity | exact IH].
Qed.

Lemma update_of_absent_row d a c n dstr i :
  stored d i = None -> execute (UPDATE a c n dstr i) d = d.
Proof.
  intros H. destruct d as [rs sq av]. unfold execute. cbn [rows sequence available].
  f_equal. unfold stored in H. cbn [rows] in H.
  induction rs as [| e r IH]; simpl in *; [reflexivity |].
  destruct (Expense.id e =? i); [discriminate |]. rewrite IH by exact H. reflexivity.
Qed.

Lemma db_after_save revision host w :
  db (press (App.handleSaveExpense revision host) w) = db w
  \/ db (press (App.handleSaveExpense revision host) w)
     = execute (save_statement host (ui w) (clock w)) (db w).
Proof.
  destruct (save_outcome revision host w) as [(_ & _ & H) | (H & _)]; auto.
Qed.

(** X10.  A save made while row [i] is selected leaves every row of another
    id as it was, and the ids of the table as they were, whatever the input
    and whether or not the database answers.  In both revisions. *)
Theorem edit_changes_no_other_row (revision : Revision) (host : JS.Host) (w : World)
    (i j : Z) :
  State.editingId (ui w) = Some i ->
  j <> i ->
  stored (db (press (App.handleSaveExpense revision host) w)) j = stored (db w) j
  /\ map Expense.id (rows (db (press (App.handleSaveExpense revision host) w)))
     = map Expense.id (rows (db w)).
Proof.
  intros Hi Hj.
  destruct (db_after_save revision host w) as [-> | ->]; [auto |].
  unfold save_statement. rewrite Hi. split.
  - apply stored_after_update_other, Hj.
  - cbn [execute rows]. rewrite map_map. apply map_ext.
    intros e. destruct (Expense.id e =? i); reflexivity.
Qed.

Lemma edit_changes_no_other_row_witness :
  let w := run Part000Js utc sample_NumberToString edit_after_five_days
             (fresh_world noon_2024_03_15) in
  stored (db (press (App.handleSaveExpense Part000Js utc) w)) 2 = stored (db w) 2
  /\ map Expense.id (rows (db (press (App.handleSaveExpense Part000Js utc) w)))
     = map Expense.id (rows (db w)).
Proof.
  apply (edit_changes_no_other_row Part000Js utc
           (run Part000Js utc sample_NumberToString edit_after_five_days
              (fresh_world noon_2024_03_15)) 1 2).
  - vm_compute. reflexivity.
  - discriminate.
Defined.

(** X11.  In [ExpenseScreen.js], where a delete leaves the deleted row
    selected, a following save of accepted input issues an UPDATE that
    matches no row: the table is as the delete left it, and the form is
    emptied all the same. *)
Theorem ExpenseScreen_save_after_delete_is_lost (host : JS.Host) (w : World) (i : Z) :
  available (db w) = true ->
  State.editingId (ui w) = Some i ->
  PrimFloat.ltb PrimFloat.zero (JS.parseFloat (State.amount (ui w))) = true ->
  JS.trim (State.category (ui w)) <> "" ->
  let deleted := press (fun s => ExpenseScreen.deleteExpense s i) w in
  let saved := press (ExpenseScreen.handleSaveExpense host) deleted in
  rows (db saved) = rows (db deleted)
  /\ editing_state (ui saved) = idle
  /\ (exists amount category note date,
        issued saved = issued deleted ++ [UPDATE amount category note date i]).
Proof.
  intros Ha Hi Hp Hc. cbn zeta.
  pose proof (validate_accepts _ _ Hp Hc) as Hv.
  destruct (successful_delete ExpenseScreenJs w i Ha) as [Hd Hl].
  cbn [App.deleteExpense] in Hd, Hl.
  set (deleted := press (fun s => ExpenseScreen.deleteExpense s i) w) in *.
  assert (State.editingId (ui deleted) = Some i
          /\ State.amount (ui deleted) = State.amount (ui w)
          /\ State.category (ui deleted) = State.category (ui w)
          /\ available (db deleted) = true) as (Hi' & Ham & Hca & Ha').
  { subst deleted. unfold press, ExpenseScreen.deleteExpense, ExpenseScreen.loadExpenses.
    unfold_async. rewrite Ha. cbn. rewrite ?Ha. cbn. auto. }
  assert (Spec.validate (State.amount (ui deleted)) (State.category (ui deleted))
          = inr (JS.parseFloat (State.amount (ui w)), JS.trim (State.category (ui w)))) as Hv'.
  { rewrite Ham, Hca. exact Hv. }
  pose proof (accepted_save_result ExpenseScreenJs host deleted _ Hv' Ha') as E.
  cbn [App.handleSaveExpense] in E. rewrite E.
  cbn [db ui issued editing_state State.editingId State.amount State.category State.note].
  split; [| split; [reflexivity |
                     unfold save_statement; rewrite Hi'; do 4 eexists; reflexivity]].
  unfold save_statement. rewrite Hi'.
  rewrite update_of_absent_row; [reflexivity |].
  rewrite Hd, stored_after_delete, Z.eqb_refl. reflexivity.
Qed.

Lemma ExpenseScreen_save_after_delete_is_lost_witness :
  let w := run ExpenseScreenJs utc sample_NumberToString edit_after_five_days
             (fresh_world noon_2024_03_15) in
  let deleted := press (fun s => ExpenseScreen.deleteExpense s 1) w in
  let saved := press (ExpenseScreen.handleSaveExpense utc) deleted in
  rows (db saved) = rows (db deleted)
  /\ editing_state (ui saved) = idle
  /\ (exists amount category note date,
        issued saved = issued deleted ++ [UPDATE amount category note date 1]).
Proof.
  apply (ExpenseScreen_save_after_delete_is_lost utc
           (run ExpenseScreenJs utc sample_NumberToString edit_after_five_days
              (fresh_world noon_2024_03_15)) 1).
  - reflexivity.
  - vm_compute. reflexivity.
  - vm_compute. reflexivity.
  - apply (string_neq_by_eqb (JS.trim "Transport") "" eq_refl).
Defined.

(** ** Row ids *)

(** X12.  In every world the screen can reach, the row an accepted save adds
    takes an id above the id of every row in the table and of every row on
    screen: ids of deleted rows are not handed out again. *)
Theorem added_record_takes_a_fresh_id (revision : Revision) (host : JS.Host)
    (NumberToString : JS.number -> string) (w : World) :
  App.reachable revision host NumberToString w ->
  available (db w) = true ->
  State.editingId (ui w) = None ->
  PrimFloat.ltb PrimFloat.zero (JS.parseFloat (State.amount (ui w))) = true ->
  JS.trim (State.category (ui w)) <> "" ->
  exists added,
    rows (db (press (App.handleSaveExpense revision host) w)) = rows (db w) ++ [added]
    /\ (forall e, In e (rows (db w)) -> Expense.id e < Expense.id added)
    /\ (forall e, In e (State.expenses (ui w)) -> Expense.id e < Expense.id added).
Proof.
  intros Hr Ha Hi Hp Hc.
  destruct (insert_outcome revision host w Ha Hi Hp Hc) as (_ & Hrows & _).
  eexists. split; [exact Hrows |].
  destruct (reachable_consistent _ _ _ _ Hr) as (_ & Hs & Hl & _).
  cbn [Expense.id]. split; intros e He.
  - eapply Forall_forall in Hs; [| exact He]. destruct Hs as [_ Hs]. lia.
  - eapply Forall_forall in Hl; [| exact He]. destruct Hl as (_ & Hs' & _). lia.
Qed.

Lemma added_record_takes_a_fresh_id_witness :
  let w := run Part000Js utc sample_NumberToString delete_then_type
             (fresh_world noon_2024_03_15) in
  exists added,
    rows (db (press (App.handleSaveExpense Part000Js utc) w)) = rows (db w) ++ [added]
    /\ (forall e, In e (rows (db w)) -> Expense.id e < Expense.id added)
    /\ (forall e, In e (State.expenses (ui w)) -> Expense.id e < Expense.id added).
Proof.
  apply (added_record_takes_a_fresh_id Part000Js utc sample_NumberToString
           (run Part000Js utc sample_NumberToString delete_then_type
              (fresh_world noon_2024_03_15))).
  - apply reachable_run, App.reachable_launch.
  - reflexivity.
  - vm_compute. reflexivity.
  - vm_compute. reflexivity.
  - apply (string_neq_by_eqb (JS.trim "Books") "" eq_refl).
Defined.

Example id_of_deleted_row_is_not_reused :
  rows (db (press (App.handleSaveExpense Part000Js utc)
              (run Part000Js utc sample_NumberToString delete_then_type
                 (fresh_world noon_2024_03_15))))
  = [Expense.mk 2 9%float "Books" None (Some "2024-03-15")].
Proof. vm_compute. reflexivity. Qed.

(** ** What follows the number in the amount *)

Lemma take_digits_then (s : string) (ds : list Z) (c : ascii) (r : string) :
  JS.all_digits s = Some ds -> JS.digit_of c = None ->
  JS.take_digits (String.append s (String c r)) = (ds, String c r).
Proof.
  unfold JS.all_digits. revert ds. induction s as [| a t IH]; intros ds Hs Hc.
  - cbn in Hs. injection Hs as <-. cbn [String.append JS.take_digits]. rewrite Hc. reflexivity.
  - cbn [String.append JS.take_digits] in *.
    destruct (JS.digit_of a) as [d |]; [| discriminate].
    destruct (JS.take_digits t) as [ds' rest] eqn:Et.
    destruct rest; [| discriminate]. injection Hs as <-.
    rewrite (IH ds' eq_refl Hc). reflexivity.
Qed.

Lemma take_digits_all (s : string) (ds : list Z) :
  JS.all_digits s = Some ds -> JS.take_digits s = (ds, "").
Proof.
  unfold JS.all_digits. destruct (JS.take_digits s) as [ds' rest].
  destruct rest; [| discriminate]. intros [= <-]. reflexivity.
Qed.

Lemma digits_head (s : string) (d : Z) (ds : list Z) :
  JS.all_digits s = Some (d :: ds) ->
  exists a t, s = String a t /\ JS.digit_of a = Some d.
Proof.
  unfold JS.all_digits. destruct s as [| a t]; [discriminate |].
  cbn [JS.take_digits]. destruct (JS.digit_of a) as [d' |] eqn:Ea; [| discriminate].
  destruct (JS.take_digits t) as [ds' rest]. destruct rest; [| discriminate].
  intros [= <- <-]. exists a, t. auto.
Qed.

Lemma digit_facts (a : ascii) (d : Z) :
  JS.digit_of a = Some d ->
  JS.is_white_space a = false /\ a <> "+"%char /\ a <> "-"%char /\ a <> "I"%char.
Proof.
  unfold JS.digit_of, JS.is_white_space.
  destruct a as [[] [] [] [] [] [] [] []]; cbn; intros H; try discriminate H;
    repeat split; try reflexivity; discriminate.
Qed.

Lemma parseFloat_of_digits_then (s : string) (d : Z) (ds : list Z) (c : ascii) (r : string) :
  JS.all_digits s = Some (d :: ds) -> ends_the_number c = true ->
  JS.parseFloat (String.append s (String c r)) = JS.parseFloat s.
Proof.
  intros Hs Hc. unfold ends_the_number in Hc.
  destruct (JS.digit_of c) eqn:Ec; [discriminate |].
  apply negb_true_iff, orb_false_iff in Hc. destruct Hc as [Hc He2].
  apply orb_false_iff in Hc. destruct Hc as [Hp He1].
  destruct (digits_head s d ds Hs) as (a & t & -> & Ea).
  destruct (digit_facts a d Ea) as (Hw & Hplus & Hminus & HI).
  pose proof (take_digits_then (String a t) (d :: ds) c r Hs Ec) as E1.
  pose proof (take_digits_all (String a t) (d :: ds) Hs) as E2.
  cbn [String.append] in *.
  unfold JS.parseFloat. cbn [JS.trimStart]. rewrite Hw.
  assert (forall u, (match String a u with
                     | String "+" r0 => (false, r0)
                     | String "-" r0 => (true, r0)
                     | _ => (false, String a u)
                     end) = (false, String a u)) as Hsign.
  { intros u. destruct a as [[] [] [] [] [] [] [] []]; try reflexivity;
      exfalso; first [apply Hplus; reflexivity | apply Hminus; reflexivity]. }
  rewrite !Hsign.
  assert (forall u, String.prefix "Infinity" (String a u) = false) as Hinf.
  { intros u. cbn [String.prefix]. destruct (ascii_dec "I" a) as [E |]; [| reflexivity].
    exfalso. apply HI. symmetry. exact E. }
  unfold JS.unsigned_literal. rewrite !Hinf, E1, E2.
  assert ((match String c r with
           | String "." r0 => JS.take_digits r0
           | _ => ([], String c r)
           end) = ([], String c r)) as ->.
  { destruct (Ascii.eqb_spec c "."%char) as [-> |]; [discriminate Hp |].
    destruct c as [[] [] [] [] [] [] [] []]; try reflexivity. contradiction. }
  rewrite !app_nil_r. cbn [List.length Z.of_nat JS.exponent_part].
  rewrite He1, He2. reflexivity.
Qed.

(** What a save does to the table and to the statements issued. *)
Lemma save_effect revision host w :
  (db (press (App.handleSaveExpense revision host) w),
   issued (press (App.handleSaveExpense revision host) w))
  = match Spec.validate (State.amount (ui w)) (State.category (ui w)) with
    | inl _ => (db w, issued w)
    | inr _ => (after_statement (save_statement host (ui w) (clock w)) (db w),
                issued w ++ [save_statement host (ui w) (clock w)])
    end.
Proof.
  destruct (Spec.validate (State.amount (ui w)) (State.category (ui w))) as [r | v] eqn:Hv.
  - unfold press. destruct revision; cbn [App.handleSaveExpense].
    + rewrite (ExpenseScreen_refusal_changes_nothing host _ w r Hv). reflexivity.
    + destruct (Part000_refusal_alerts host _ w r Hv) as (t & m & -> & _). reflexivity.
  - unfold press. destruct revision; cbn [App.handleSaveExpense].
    + destruct (ExpenseScreen_accepted_issues host (ui w) w v Hv) as [-> ->]. reflexivity.
    + destruct (Part000_accepted_issues host (ui w) w v Hv) as [-> ->]. reflexivity.
Qed.

Lemma head_not_blank a t :
  JS.is_white_space a = false -> JS.truthy_string (JS.trim (String a t)) = true.
Proof.
  intros H. unfold JS.trim. cbn [JS.trimStart]. rewrite H. cbn [JS.trimEnd].
  destruct (JS.trimEnd t); rewrite ?H; reflexivity.
Qed.

(** The alerts of a save depend on the amount text through its parse and
    through whether it is blank. *)
Lemma save_alerts_alike revision host w a :
  JS.truthy_string (JS.trim a) = JS.truthy_string (JS.trim (State.amount (ui w))) ->
  JS.parseFloat a = JS.parseFloat (State.amount (ui w)) ->
  alerts (press (App.handleSaveExpense revision host) (snd (setAmount a w)))
  = alerts (press (App.handleSaveExpense revision host) w).
Proof.
  intros Ht Hp. destruct revision; cbn [App.handleSaveExpense]; unfold press.
  - unfold ExpenseScreen.handleSaveExpense.
    cbn [setAmount update_ui snd ui State.amount State.category State.note
         State.editingId State.expenses].
    rewrite Hp.
    destruct (JS.isNaN _ || PrimFloat.leb _ _); [reflexivity |].
    destruct (negb _); [reflexivity |].
    unfold ExpenseScreen.loadExpenses. unfold_async.
    destruct (State.editingId (ui w)); cbn;
      destruct (available (db w)) eqn:Ea; cbn; rewrite ?Ea; reflexivity.
  - unfold Part000.handleSaveExpense.
    cbn [setAmount update_ui snd ui State.amount State.category State.note
         State.editingId State.expenses].
    rewrite Ht, Hp.
    destruct (negb (JS.truthy_string (JS.trim (State.amount (ui w))))); [reflexivity |].
    destruct (negb (JS.truthy_string (JS.trim (State.category (ui w))))); [reflexivity |].
    destruct (JS.isNaN _ || PrimFloat.leb _ _); [reflexivity |].
    unfold Part000.loadExpenses. unfold_async.
    destruct (State.editingId (ui w)); cbn;
      destruct (available (db w)) eqn:Ea; cbn; rewrite ?Ea; reflexivity.
Qed.

(** X29.  What follows the digits of the amount is ignored: when the amount
    text is a run of digits and then a character that cannot continue the
    number (a letter other than [e], a comma, a space, ...), it parses to the
    number of the digits, and a save writes to the table, issues and alerts
    what it would for the digits alone.  In both revisions. *)
Theorem what_follows_the_digits_is_ignored (revision : Revision) (host : JS.Host)
    (w : World) (s : string) (d : Z) (ds : list Z) (c : ascii) (r : string) :
  JS.all_digits s = Some (d :: ds) ->
  ends_the_number c = true ->
  State.amount (ui w) = String.append s (String c r) ->
  JS.parseFloat (State.amount (ui w)) = JS.parseFloat s
  /\ db (press (App.handleSaveExpense revision host) w)
     = db (press (App.handleSaveExpense revision host) (snd (setAmount s w)))
  /\ issued (press (App.handleSaveExpense revision host) w)
     = issued (press (App.handleSaveExpense revision host) (snd (setAmount s w)))
  /\ alerts (press (App.handleSaveExpense revision host) w)
     = alerts (press (App.handleSaveExpense revision host) (snd (setAmount s w))).
Proof.
  intros Hs Hc Ha.
  pose proof (parseFloat_of_digits_then s d ds c r Hs Hc) as Hp. rewrite <- Ha in Hp.
  split; [exact Hp |].
  assert (alerts (press (App.handleSaveExpense revision host) w)
          = alerts (press (App.handleSaveExpense revision host) (snd (setAmount s w))))
    as Hal.
  { symmetry. apply save_alerts_alike; [| symmetry; exact Hp].
    destruct (digits_head s d ds Hs) as (a & t & E & Ea).
    destruct (digit_facts a d Ea) as (Hw & _).
    rewrite Ha, E. cbn [String.append]. rewrite !(head_not_blank _ _ Hw). reflexivity. }
  pose proof (save_effect revision host w) as E1.
  pose proof (save_effect revision host (snd (setAmount s w))) as E2.
  assert (Spec.validate (State.amount (ui (snd (setAmount s w))))
            (State.category (ui (snd (setAmount s w))))
          = Spec.validate (State.amount (ui w)) (State.category (ui w))) as Hv.
  { cbn. unfold Spec.validate. rewrite Hp. reflexivity. }
  assert (save_statement host (ui (snd (setAmount s w))) (clock (snd (setAmount s w)))
          = save_statement host (ui w) (clock w)) as Hst.
  { cbn. unfold save_statement. cbn. rewrite Hp. reflexivity. }
  rewrite Hv, Hst in E2.
  assert (db (snd (setAmount s w)) = db w /\ issued (snd (setAmount s w)) = issued w)
    as [Hd Hi] by (split; reflexivity).
  rewrite Hd, Hi, <- E1 in E2. injection E2 as E2 E3. auto.
Qed.

Lemma what_follows_the_digits_is_ignored_witness :
  let w := type_form "12abc" "Food" "" (fresh_world noon_2024_03_15) in
  JS.parseFloat (State.amount (ui w)) = JS.parseFloat "12"
  /\ db (press (App.handleSaveExpense ExpenseScreenJs utc) w)
     = db (press (App.handleSaveExpense ExpenseScreenJs utc) (snd (setAmount "12" w)))
  /\ issued (press (App.handleSaveExpense ExpenseScreenJs utc) w)
     = issued (press (App.handleSaveExpense ExpenseScreenJs utc) (snd (setAmount "12" w)))
  /\ alerts (press (App.handleSaveExpense ExpenseScreenJs utc) w)
     = alerts (press (App.handleSaveExpense ExpenseScreenJs utc) (snd (setAmount "12" w))).
Proof.
  apply (what_follows_the_digits_is_ignored ExpenseScreenJs utc
           (type_form "12abc" "Food" "" (fresh_world noon_2024_03_15))
           "12" 1 [2] "a"%char "bc").
  - reflexivity.
  - reflexivity.
  - reflexivity.
Defined.

Example amount_with_a_comma :
  issued (press (Part000.handleSaveExpense utc)
            (type_form "12,50" "Food" "" (fresh_world noon_2024_03_15)))
  = [INSERT 12%float "Food" None "2024-03-15"].
Proof. vm_compute. reflexivity. Qed.

(* ================================================================== *)
(** * Part XIV: the calendar and the windows                          *)
(* ================================================================== *)

Lemma integers_In count first z :
  first <= z < first + Z.of_nat count -> In z (integers first count).
Proof.
  revert first. induction count as [| n IH]; intros first H; [lia |].
  cbn [integers]. destruct (Z.eq_dec z first) as [-> | Hne]; [left; reflexivity |].
  right. apply IH. lia.
Qed.

Lemma four_digit_years : forallb four_digit_text (integers 1000 (90 * 100)) = true.
Proof. vm_compute. reflexivity. Qed.

Lemma two_digit_fields : forallb two_digit_text (integers 0 100) = true.
Proof. vm_compute. reflexivity. Qed.

(** ** The calendar *)

Lemma DayFromYear_succ y :
  JS.DayFromYear (y + 1) = JS.DayFromYear y + JS.DaysInYear y.
Proof.
  unfold JS.DayFromYear, JS.DaysInYear, JS.leap_year.
  destruct (Z.eqb_spec (y mod 4) 0); destruct (Z.eqb_spec (y mod 100) 0);
    destruct (Z.eqb_spec (y mod 400) 0); cbn [andb orb negb];
    Z.div_mod_to_equations; lia.
Qed.

Lemma DayWithinYear_range t :
  0 <= JS.DayWithinYear t < JS.DaysInYear (JS.YearFromTime t).
Proof.
  unfold JS.DayWithinYear. pose proof (YearFromTime_spec t) as H.
  rewrite DayFromYear_succ in H. lia.
Qed.

Lemma InLeapYear_value t : JS.InLeapYear t = JS.DaysInYear (JS.YearFromTime t) - 365.
Proof. unfold JS.InLeapYear, JS.DaysInYear. destruct (JS.leap_year _); reflexivity. Qed.

Lemma MonthFromTime_range t : 0 <= JS.MonthFromTime t <= 11.
Proof.
  unfold JS.MonthFromTime. cbv zeta.
  repeat match goal with
         | |- context [if ?a <? ?b then _ else _] => destruct (a <? b)
         end; lia.
Qed.

(** The day of the month is a day of that month. *)
Lemma DateFromTime_range t :
  1 <= JS.DateFromTime t
    <= JS.days_in_month (JS.YearFromTime t) (JS.MonthFromTime t + 1).
Proof.
  pose proof (DayWithinYear_range t) as Hd. pose proof (InLeapYear_value t) as Hl.
  unfold JS.DateFromTime, JS.MonthFromTime. cbv zeta.
  unfold JS.DaysInYear in *.
  set (d := JS.DayWithinYear t) in *. set (l := JS.InLeapYear t) in *.
  repeat match goal with
         | |- context [if ?a <? ?b then _ else _] => destruct (Z.ltb_spec a b)
         end;
    match goal with
    | |- context [JS.days_in_month _ (?m + 1)] =>
        let v := eval compute in (m + 1) in change (m + 1) with v
    end;
    cbn [JS.days_before_month JS.days_in_month];
    destruct (JS.leap_year (JS.YearFromTime t)); lia.
Qed.

(** [MakeDay] of the fields of a time gives back its day. *)
Lemma MakeDay_of_fields t k :
  JS.MakeDay (JS.YearFromTime t) (JS.MonthFromTime t) (JS.DateFromTime t + k)
  = JS.Day t + k.
Proof.
  pose proof (MonthFromTime_range t) as Hm.
  unfold JS.MakeDay, JS.DateFromTime. cbv zeta.
  rewrite Z.div_small, Z.mod_small, Z.add_0_r by lia.
  unfold JS.InLeapYear, JS.DayWithinYear. lia.
Qed.

Lemma DayFromYear_increasing y y' : y < y' -> JS.DayFromYear y < JS.DayFromYear y'.
Proof. intros H. unfold JS.DayFromYear. Z.div_mod_to_equations. lia. Qed.

Lemma YearFromTime_unique t y :
  JS.DayFromYear y <= JS.Day t < JS.DayFromYear (y + 1) -> JS.YearFromTime t = y.
Proof.
  intros H. pose proof (YearFromTime_spec t) as Hs.
  destruct (Z.lt_trichotomy (JS.YearFromTime t) y) as [Hlt | [Heq | Hgt]]; [| exact Heq |].
  - destruct (Z.eq_dec (JS.YearFromTime t + 1) y) as [E | E].
    + rewrite E in Hs. lia.
    + pose proof (DayFromYear_increasing (JS.YearFromTime t + 1) y ltac:(lia)). lia.
  - destruct (Z.eq_dec (y + 1) (JS.YearFromTime t)) as [E | E].
    + rewrite E in H. lia.
    + pose proof (DayFromYear_increasing (y + 1) (JS.YearFromTime t) ltac:(lia)). lia.
Qed.

(** The fields of the time [MakeDay] builds from a calendar date are that
    date. *)
Lemma fields_of_MakeDay y m d :
  1 <= m <= 12 -> 1 <= d <= JS.days_in_month y m ->
  JS.YearFromTime (JS.MakeDate (JS.MakeDay y (m - 1) d) 0) = y
  /\ JS.MonthFromTime (JS.MakeDate (JS.MakeDay y (m - 1) d) 0) = m - 1
  /\ JS.DateFromTime (JS.MakeDate (JS.MakeDay y (m - 1) d) 0) = d.
Proof.
  intros Hm Hd.
  set (t := JS.MakeDate (JS.MakeDay y (m - 1) d) 0).
  assert (JS.Day t = JS.MakeDay y (m - 1) d) as HD.
  { apply Day_MakeDate. unfold JS.msPerDay. lia. }
  assert (JS.MakeDay y (m - 1) d
          = JS.DayFromYear y
            + JS.days_before_month (if JS.leap_year y then 1 else 0) (m - 1) + d - 1) as HM.
  { unfold JS.MakeDay. cbv zeta.
    rewrite Z.div_small, Z.mod_small, Z.add_0_r by lia. reflexivity. }
  assert (0 <= JS.days_before_month (if JS.leap_year y then 1 else 0) (m - 1) + d - 1
          < JS.DaysInYear y) as Hw.
  { unfold JS.DaysInYear. month_cases m Hc;
      calendar_constants; destruct (JS.leap_year y); lia. }
  assert (JS.YearFromTime t = y) as HY.
  { apply YearFromTime_unique. rewrite DayFromYear_succ, HD, HM. lia. }
  assert (JS.DayWithinYear t
          = JS.days_before_month (if JS.leap_year y then 1 else 0) (m - 1) + d - 1) as HW.
  { unfold JS.DayWithinYear. rewrite HY, HD, HM. lia. }
  assert (JS.InLeapYear t = if JS.leap_year y then 1 else 0) as HL.
  { unfold JS.InLeapYear. rewrite HY. reflexivity. }
  split; [exact HY |].
  unfold JS.DateFromTime, JS.MonthFromTime. cbv zeta. rewrite HW, HL.
  clear HD HM HY HW HL t. unfold JS.DaysInYear in Hw.
  month_cases m Hc;
    calendar_constants;
    destruct (JS.leap_year y);
    repeat match goal with
           | |- context [if ?a <? ?b then _ else _] => destruct (Z.ltb_spec a b); try lia
           end;
    cbn [JS.days_before_month]; lia.
Qed.

(** ** The text of a date *)

Lemma four_digits y :
  1000 <= y <= 9999 ->
  exists a b c d,
    JS.string_of_integer y = String a (String b (String c (String d "")))
    /\ JS.fixed_digits 4 (String a (String b (String c (String d "")))) = Some y.
Proof.
  intros H.
  assert (In y (integers 1000 (90 * 100))) as Hin.
  { apply integers_In. change (Z.of_nat (90 * 100)) with 9000. lia. }
  pose proof (proj1 (forallb_forall _ _) four_digit_years y Hin) as E.
  unfold four_digit_text in E.
  destruct (JS.string_of_integer y) as [| a [| b [| c [| d [| ? ?]]]]]; try discriminate.
  exists a, b, c, d. split; [reflexivity |].
  destruct (JS.fixed_digits 4 _) as [v |]; [| discriminate].
  apply Z.eqb_eq in E. congruence.
Qed.

Lemma two_digits n :
  0 <= n <= 99 ->
  exists a b,
    JS.padStart0 2 (JS.string_of_integer n) = String a (String b "")
    /\ JS.fixed_digits 2 (String a (String b "")) = Some n.
Proof.
  intros H.
  assert (In n (integers 0 100)) as Hin.
  { apply integers_In. change (Z.of_nat 100) with 100. lia. }
  pose proof (proj1 (forallb_forall _ _) two_digit_fields n Hin) as E.
  unfold two_digit_text in E.
  destruct (JS.padStart0 2 (JS.string_of_integer n)) as [| a [| b [| ? ?]]]; try discriminate.
  exists a, b. split; [reflexivity |].
  destruct (JS.fixed_digits 2 _) as [v |]; [| discriminate].
  apply Z.eqb_eq in E. congruence.
Qed.

Lemma days_in_month_bound y m : 28 <= JS.days_in_month y m <= 31.
Proof.
  unfold JS.days_in_month.
  destruct m as [| p | p]; try lia.
  repeat (destruct p as [p | p |]; try lia); destruct (JS.leap_year y); lia.
Qed.

(** The text [YYYY-MM-DD] of a calendar date reads back as that date. *)
Lemma date_only_of_text y m d :
  1000 <= y <= 9999 -> 1 <= m <= 12 -> 1 <= d <= JS.days_in_month y m ->
  let s := String.append (JS.string_of_integer y)
             (String.append "-"
                (String.append (JS.padStart0 2 (JS.string_of_integer m))
                   (String.append "-" (JS.padStart0 2 (JS.string_of_integer d))))) in
  String.length s = 10%nat /\ JS.date_only s = Some (y, m, d).
Proof.
  intros Hy Hm Hd. pose proof (days_in_month_bound y m) as Hb.
  destruct (four_digits y Hy) as (a & b & c & e & -> & Ey).
  destruct (two_digits m ltac:(lia)) as (f & g & -> & Em).
  destruct (two_digits d ltac:(lia)) as (h & i & -> & Ed).
  cbn zeta. split; [reflexivity |].
  unfold JS.date_only.
  cbn [String.append substring String.length Nat.eqb].
  rewrite Ey. cbn [negb String.eqb Ascii.eqb Bool.eqb andb]. rewrite Em.
  destruct (Z.leb_spec 1 m); [| lia]. destruct (Z.leb_spec m 12); [| lia].
  cbn [andb negb]. rewrite Ed.
  destruct (Z.leb_spec 1 d); [| lia]. destruct (Z.leb_spec d (JS.days_in_month y m)); [| lia].
  reflexivity.
Qed.

Lemma TimeClip_in_range t : Z.abs t <= 8640000000000000 -> JS.TimeClip t = Some t.
Proof.
  intros H. unfold JS.TimeClip. destruct (Z.leb_spec (Z.abs t) 8640000000000000); [reflexivity | lia].
Qed.

Lemma DayFromYear_bounds y :
  0 <= y <= 10000 -> -719528 <= JS.DayFromYear y <= 2932897.
Proof. intros H. unfold JS.DayFromYear. Z.div_mod_to_equations. lia. Qed.

Lemma take_digits_range s : Forall (fun d => 0 <= d <= 9) (fst (JS.take_digits s)).
Proof.
  induction s as [| c r IH]; simpl; [constructor |].
  unfold JS.digit_of.
  destruct ((48 <=? Z.of_N (N_of_ascii c)) && (Z.of_N (N_of_ascii c) <=? 57)) eqn:E.
  - destruct (JS.take_digits r) as [ds rest]. simpl in *. constructor; [| exact IH].
    apply andb_true_iff in E. destruct E as [E1 E2].
    apply Z.leb_le in E1. apply Z.leb_le in E2. lia.
  - constructor.
Qed.

Lemma digits_value_from ds acc :
  Forall (fun d => 0 <= d <= 9) ds -> 0 <= acc ->
  acc * 10 ^ Z.of_nat (List.length ds)
    <= fold_left (fun a d => 10 * a + d) ds acc
    < (acc + 1) * 10 ^ Z.of_nat (List.length ds).
Proof.
  intros H. revert acc. induction H as [| d r Hd Hr IH]; intros acc Hacc.
  - simpl. lia.
  - cbn [fold_left List.length]. rewrite Nat2Z.inj_succ, Z.pow_succ_r by lia.
    specialize (IH (10 * acc + d) ltac:(lia)).
    assert (0 < 10 ^ Z.of_nat (List.length r)) by (apply Z.pow_pos_nonneg; lia).
    nia.
Qed.

Lemma fixed_digits_bound n s v :
  JS.fixed_digits n s = Some v -> 0 <= v < 10 ^ Z.of_nat n.
Proof.
  unfold JS.fixed_digits, JS.all_digits. pose proof (take_digits_range s) as Hr.
  destruct (JS.take_digits s) as [ds rest]. cbn [fst] in Hr.
  destruct rest; [| discriminate].
  destruct (Nat.eqb_spec (List.length ds) n) as [<- |]; [| discriminate].
  intros [= <-]. pose proof (digits_value_from ds 0 Hr ltac:(lia)) as H.
  unfold JS.digits_value. lia.
Qed.

(** What a date-only text can name. *)
Lemma date_only_range s y m d :
  JS.date_only s = Some (y, m, d) ->
  0 <= y <= 9999 /\ 1 <= m <= 12 /\ 1 <= d <= JS.days_in_month y m.
Proof.
  unfold JS.date_only.
  destruct (JS.fixed_digits 4 (substring 0 4 s)) as [y0 |] eqn:Ey; [| discriminate].
  apply fixed_digits_bound in Ey. change (10 ^ Z.of_nat 4) with 10000 in Ey.
  pose proof (days_in_month_bound y0 1).
  destruct (String.length s =? 4)%nat.
  { intros [= <- <- <-]. pose proof (days_in_month_bound y0 1). lia. }
  destruct (negb (substring 4 1 s =? "-")%string); [discriminate |].
  destruct (JS.fixed_digits 2 (substring 5 2 s)) as [m0 |]; [| discriminate].
  destruct (Z.leb_spec 1 m0); destruct (Z.leb_spec m0 12); cbn [andb negb]; try discriminate.
  destruct (String.length s =? 7)%nat.
  { intros [= <- <- <-]. pose proof (days_in_month_bound y0 m0). lia. }
  destruct (negb (substring 7 1 s =? "-")%string); [discriminate |].
  destruct (JS.fixed_digits 2 (substring 8 2 s)) as [d0 |]; [| discriminate].
  destruct (String.length s =? 10)%nat; cbn [andb]; [| discriminate].
  destruct (Z.leb_spec 1 d0); destruct (Z.leb_spec d0 (JS.days_in_month y0 m0));
    cbn [andb]; try discriminate.
  intros [= <- <- <-]. lia.
Qed.

Lemma day_of_bounds y m d :
  0 <= y <= 9999 -> 1 <= m <= 12 -> 1 <= d <= JS.days_in_month y m ->
  -719528 <= day_of y m d <= 2932896.
Proof.
  intros Hy Hm Hd.
  destruct (fields_of_MakeDay y m d Hm Hd) as (HY & _ & _).
  pose proof (YearFromTime_spec (JS.MakeDate (JS.MakeDay y (m - 1) d) 0)) as Hs.
  rewrite HY, Day_MakeDate in Hs by (unfold JS.msPerDay; lia).
  pose proof (DayFromYear_bounds y ltac:(lia)).
  pose proof (DayFromYear_bounds (y + 1) ltac:(lia)).
  unfold day_of. lia.
Qed.

(** [new Date(s)] for a date-only text: midnight UTC of the day it names. *)
Lemma Date_of_date_only host s y m d :
  JS.date_only s = Some (y, m, d) ->
  JS.Date_of_string host s = Some (JS.MakeDate (day_of y m d) 0).
Proof.
  intros H. unfold JS.Date_of_string, JS.Date_parse. rewrite H.
  destruct (date_only_range s y m d H) as (Hy & Hm & Hd).
  pose proof (day_of_bounds y m d Hy Hm Hd) as Hb. fold (day_of y m d).
  apply TimeClip_in_range. unfold JS.MakeDate, JS.msPerDay. lia.
Qed.

(** ** The week of a fixed-offset host *)

Lemma WeekDay_range t : 0 <= JS.WeekDay t <= 6.
Proof. unfold JS.WeekDay. pose proof (Z.mod_pos_bound (JS.Day t + 4) 7 ltac:(lia)). lia. Qed.

Lemma Day_bound t : Z.abs t <= 8000000000000000 -> -92592593 <= JS.Day t <= 92592592.
Proof. intros H. unfold JS.Day, JS.msPerDay. Z.div_mod_to_equations. lia. Qed.

Lemma local_sunday_is_a_sunday off now :
  JS.WeekDay (JS.MakeDate (local_sunday off now) 0) = 0.
Proof.
  unfold JS.WeekDay. rewrite Day_MakeDate by (unfold JS.msPerDay; lia).
  unfold local_sunday, JS.WeekDay. Z.div_mod_to_equations. lia.
Qed.

Lemma local_sunday_bound off now :
  - JS.msPerDay < off < JS.msPerDay ->
  Z.abs now <= 8000000000000000 ->
  -92592600 <= local_sunday off now <= 92592600.
Proof.
  intros Hoff Hnow. pose proof (WeekDay_range (now + off)) as Hw.
  unfold local_sunday. generalize dependent (JS.WeekDay (now + off)). intros wd Hw.
  unfold JS.Day, JS.msPerDay in *. Z.div_mod_to_equations. lia.
Qed.

(** [setDate] on a fixed-offset host moves the day and keeps the time of
    day. *)
Lemma setDate_fixed_offset off tv k :
  Z.abs (JS.MakeDate (JS.Day (tv + off) + k) (JS.TimeWithinDay (tv + off)) - off)
    <= 8640000000000000 ->
  JS.setDate (JS.fixed_offset_host off) (Some tv)
    (Some (JS.DateFromTime (tv + off) + k))
  = Some (JS.MakeDate (JS.Day (tv + off) + k) (JS.TimeWithinDay (tv + off)) - off).
Proof.
  intros H. unfold JS.setDate, JS.LocalTime, JS.UTC. cbn [JS.LocalTZA JS.fixed_offset_host].
  rewrite MakeDay_of_fields. apply TimeClip_in_range, H.
Qed.

Lemma setHours_fixed_offset off tv h mi s ms :
  Z.abs (JS.MakeDate (JS.Day (tv + off)) (JS.MakeTime h mi s ms) - off) <= 8640000000000000 ->
  JS.setHours (JS.fixed_offset_host off) (Some tv) h mi s ms
  = Some (JS.MakeDate (JS.Day (tv + off)) (JS.MakeTime h mi s ms) - off).
Proof.
  intros H. unfold JS.setHours, JS.LocalTime, JS.UTC. cbn [JS.LocalTZA JS.fixed_offset_host].
  apply TimeClip_in_range, H.
Qed.

(** The bounds of the week filter: local midnight of Sunday, and the last
    millisecond of the Saturday after it. *)
Lemma week_bounds off now :
  - JS.msPerDay < off < JS.msPerDay ->
  Z.abs now <= 8000000000000000 ->
  Screen.startOfWeek (JS.fixed_offset_host off) (Some now)
    = Some (JS.MakeDate (local_sunday off now) 0 - off)
  /\ Screen.endOfWeek (JS.fixed_offset_host off) (Some now)
     = Some (JS.MakeDate (local_sunday off now + 6) 86399999 - off).
Proof.
  intros Hoff Hnow.
  pose proof (WeekDay_range (now + off)) as Hw.
  pose proof (Day_bound (now + off)) as Hd.
  pose proof (proj2 (time_decomposition (now + off))) as Ht.
  assert (Screen.startOfWeek (JS.fixed_offset_host off) (Some now)
          = Some (JS.MakeDate (local_sunday off now) 0 - off)) as Hs.
  { unfold Screen.startOfWeek, JS.getDate, JS.getDay, JS.LocalTime.
    cbn [option_map JS.LocalTZA JS.fixed_offset_host JS.number_sub].
    replace (JS.DateFromTime (now + off) - JS.WeekDay (now + off))
      with (JS.DateFromTime (now + off) + - JS.WeekDay (now + off)) by lia.
    rewrite setDate_fixed_offset.
    - rewrite setHours_fixed_offset.
      + replace (JS.MakeDate (JS.Day (now + off) + - JS.WeekDay (now + off))
                   (JS.TimeWithinDay (now + off)) - off + off)
          with (JS.MakeDate (JS.Day (now + off) + - JS.WeekDay (now + off))
                  (JS.TimeWithinDay (now + off))) by lia.
        rewrite Day_MakeDate by exact Ht.
        unfold local_sunday, JS.MakeTime, JS.MakeDate. f_equal; lia.
      + replace (JS.MakeDate (JS.Day (now + off) + - JS.WeekDay (now + off))
                   (JS.TimeWithinDay (now + off)) - off + off)
          with (JS.MakeDate (JS.Day (now + off) + - JS.WeekDay (now + off))
                  (JS.TimeWithinDay (now + off))) by lia.
        rewrite Day_MakeDate by exact Ht.
        unfold JS.Day, JS.MakeDate, JS.MakeTime, JS.msPerDay in *.
        Z.div_mod_to_equations. lia.
    - unfold JS.Day, JS.MakeDate, JS.TimeWithinDay, JS.msPerDay in *.
      Z.div_mod_to_equations. lia. }
  split; [exact Hs |].
  unfold Screen.endOfWeek. rewrite Hs.
  unfold JS.getDate, JS.LocalTime.
  cbn [option_map JS.LocalTZA JS.fixed_offset_host JS.number_add].
  assert (JS.Day (JS.MakeDate (local_sunday off now) 0 - off + off) = local_sunday off now) as HD.
  { replace (JS.MakeDate (local_sunday off now) 0 - off + off)
      with (JS.MakeDate (local_sunday off now) 0) by lia.
    apply Day_MakeDate. unfold JS.msPerDay. lia. }
  assert (JS.TimeWithinDay (JS.MakeDate (local_sunday off now) 0 - off + off) = 0) as HT.
  { replace (JS.MakeDate (local_sunday off now) 0 - off + off)
      with (JS.MakeDate (local_sunday off now) 0) by lia.
    apply TimeWithinDay_MakeDate. unfold JS.msPerDay. lia. }
  pose proof (local_sunday_bound off now Hoff Hnow) as Hb.
  rewrite setDate_fixed_offset; rewrite HD, HT.
  - rewrite setHours_fixed_offset.
    + replace (JS.MakeDate (local_sunday off now + 6) 0 - off + off)
        with (JS.MakeDate (local_sunday off now + 6) 0) by lia.
      rewrite Day_MakeDate by (unfold JS.msPerDay; lia). reflexivity.
    + replace (JS.MakeDate (local_sunday off now + 6) 0 - off + off)
        with (JS.MakeDate (local_sunday off now + 6) 0) by lia.
      rewrite Day_MakeDate by (unfold JS.msPerDay; lia).
      unfold JS.MakeDate, JS.MakeTime, JS.msPerDay in *. lia.
  - unfold JS.MakeDate, JS.msPerDay in *. lia.
Qed.

Lemma in_week_by_bounds off now exp y m d :
  - JS.msPerDay < off < JS.msPerDay ->
  Z.abs now <= 8000000000000000 ->
  Screen.no_date exp = false ->
  JS.date_only (Screen.date_text exp) = Some (y, m, d) ->
  Screen.in_week (JS.fixed_offset_host off) (Some now) exp
  = (JS.MakeDate (local_sunday off now) 0 - off <=? JS.MakeDate (day_of y m d) 0)
    && (JS.MakeDate (day_of y m d) 0 <=? JS.MakeDate (local_sunday off now + 6) 86399999 - off).
Proof.
  intros Hoff Hnow Hnd Hdo. unfold Screen.in_week. rewrite Hnd.
  destruct (week_bounds off now Hoff Hnow) as [-> ->].
  rewrite (Date_of_date_only _ _ y m d Hdo). reflexivity.
Qed.

Lemma in_week_east off now exp y m d :
  0 <= off < JS.msPerDay ->
  Z.abs now <= 8000000000000000 ->
  Screen.no_date exp = false ->
  JS.date_only (Screen.date_text exp) = Some (y, m, d) ->
  Screen.in_week (JS.fixed_offset_host off) (Some now) exp
  = (local_sunday off now <=? day_of y m d) && (day_of y m d <=? local_sunday off now + 6).
Proof.
  intros Hoff Hnow Hnd Hdo.
  rewrite (in_week_by_bounds off now exp y m d) by (assumption || lia).
  generalize (local_sunday off now) (day_of y m d). intros s dd.
  unfold JS.MakeDate, JS.msPerDay in *.
  destruct (Z.leb_spec s dd); destruct (Z.leb_spec dd (s + 6));
    destruct (Z.leb_spec (s * 86400000 + 0 - off) (dd * 86400000 + 0));
    destruct (Z.leb_spec (dd * 86400000 + 0) ((s + 6) * 86400000 + 86399999 - off));
    cbn [andb]; try reflexivity; lia.
Qed.

Lemma in_week_west off now exp y m d :
  - JS.msPerDay < off < 0 ->
  Z.abs now <= 8000000000000000 ->
  Screen.no_date exp = false ->
  JS.date_only (Screen.date_text exp) = Some (y, m, d) ->
  Screen.in_week (JS.fixed_offset_host off) (Some now) exp
  = (local_sunday off now + 1 <=? day_of y m d) && (day_of y m d <=? local_sunday off now + 7).
Proof.
  intros Hoff Hnow Hnd Hdo.
  rewrite (in_week_by_bounds off now exp y m d) by (assumption || lia).
  generalize (local_sunday off now) (day_of y m d). intros s dd.
  unfold JS.MakeDate, JS.msPerDay in *.
  destruct (Z.leb_spec (s + 1) dd); destruct (Z.leb_spec dd (s + 7));
    destruct (Z.leb_spec (s * 86400000 + 0 - off) (dd * 86400000 + 0));
    destruct (Z.leb_spec (dd * 86400000 + 0) ((s + 6) * 86400000 + 86399999 - off));
    cbn [andb]; try reflexivity; lia.
Qed.

(** X13.  On a host at a fixed offset at or east of UTC, for every current
    time (within 8 * 10^15 ms of the epoch) and every record whose date is a
    date-only text: the day the text names has the year, month and day of
    the text, and the WEEK filter keeps the record exactly when that day
    lies from the Sunday on or before the local today to the Saturday after
    it. *)
Theorem week_is_sunday_to_saturday_east_of_utc (off now : Z) (exp : Expense.t) (y m d : Z) :
  0 <= off < JS.msPerDay ->
  Z.abs now <= 8000000000000000 ->
  Screen.no_date exp = false ->
  JS.date_only (Screen.date_text exp) = Some (y, m, d) ->
  (JS.YearFromTime (JS.MakeDate (day_of y m d) 0) = y
   /\ JS.MonthFromTime (JS.MakeDate (day_of y m d) 0) = m - 1
   /\ JS.DateFromTime (JS.MakeDate (day_of y m d) 0) = d)
  /\ JS.WeekDay (JS.MakeDate (local_sunday off now) 0) = 0
  /\ local_sunday off now <= JS.Day (now + off) <= local_sunday off now + 6
  /\ Screen.in_week (JS.fixed_offset_host off) (Some now) exp
     = (local_sunday off now <=? day_of y m d) && (day_of y m d <=? local_sunday off now + 6).
Proof.
  intros Hoff Hnow Hnd Hdo.
  destruct (date_only_range _ _ _ _ Hdo) as (_ & Hm & Hd).
  split; [exact (fields_of_MakeDay y m d Hm Hd) |].
  split; [apply local_sunday_is_a_sunday |]. split.
  - pose proof (WeekDay_range (now + off)). unfold local_sunday. lia.
  - apply in_week_east; assumption.
Qed.

(** X14.  On a host at a fixed offset west of UTC the window is a day late:
    with [local_sunday] the Sunday on or before the local today, the WEEK
    filter keeps a record whose date is a date-only text exactly when the
    day it names lies from the Monday after that Sunday to the Sunday a week
    after it. *)
Theorem week_is_monday_to_sunday_west_of_utc (off now : Z) (exp : Expense.t) (y m d : Z) :
  - JS.msPerDay < off < 0 ->
  Z.abs now <= 8000000000000000 ->
  Screen.no_date exp = false ->
  JS.date_only (Screen.date_text exp) = Some (y, m, d) ->
  (JS.YearFromTime (JS.MakeDate (day_of y m d) 0) = y
   /\ JS.MonthFromTime (JS.MakeDate (day_of y m d) 0) = m - 1
   /\ JS.DateFromTime (JS.MakeDate (day_of y m d) 0) = d)
  /\ JS.WeekDay (JS.MakeDate (local_sunday off now) 0) = 0
  /\ local_sunday off now <= JS.Day (now + off) <= local_sunday off now + 6
  /\ Screen.in_week (JS.fixed_offset_host off) (Some now) exp
     = (local_sunday off now + 1 <=? day_of y m d) && (day_of y m d <=? local_sunday off now + 7).
Proof.
  intros Hoff Hnow Hnd Hdo.
  destruct (date_only_range _ _ _ _ Hdo) as (_ & Hm & Hd).
  split; [exact (fields_of_MakeDay y m d Hm Hd) |].
  split; [apply local_sunday_is_a_sunday |]. split.
  - pose proof (WeekDay_range (now + off)). unfold local_sunday. lia.
  - apply in_week_west; assumption.
Qed.

(** ** The month of a fixed-offset host *)

Lemma local_fields off t :
  JS.getFullYear (JS.fixed_offset_host off) (Some t) = Some (JS.YearFromTime (t + off))
  /\ JS.getMonth (JS.fixed_offset_host off) (Some t) = Some (JS.MonthFromTime (t + off))
  /\ JS.getDate (JS.fixed_offset_host off) (Some t) = Some (JS.DateFromTime (t + off))
  /\ JS.getDay (JS.fixed_offset_host off) (Some t) = Some (JS.WeekDay (t + off)).
Proof. repeat split. Qed.

Lemma in_month_by_day off now exp y m d :
  Screen.no_date exp = false ->
  JS.date_only (Screen.date_text exp) = Some (y, m, d) ->
  Screen.in_month (JS.fixed_offset_host off) (Some now) exp
  = (JS.YearFromTime (JS.MakeDate (day_of y m d) 0 + off) =? JS.YearFromTime (now + off))
    && (JS.MonthFromTime (JS.MakeDate (day_of y m d) 0 + off) =? JS.MonthFromTime (now + off)).
Proof.
  intros Hnd Hdo. unfold Screen.in_month. rewrite Hnd.
  rewrite (Date_of_date_only _ _ y m d Hdo). reflexivity.
Qed.

Lemma in_month_east off now exp y m d :
  0 <= off < JS.msPerDay ->
  Screen.no_date exp = false ->
  JS.date_only (Screen.date_text exp) = Some (y, m, d) ->
  Screen.in_month (JS.fixed_offset_host off) (Some now) exp
  = (y =? JS.YearFromTime (now + off)) && (m - 1 =? JS.MonthFromTime (now + off)).
Proof.
  intros Hoff Hnd Hdo. rewrite (in_month_by_day off now exp y m d Hnd Hdo).
  destruct (date_only_range _ _ _ _ Hdo) as (Hy & Hm & Hd).
  destruct (fields_of_MakeDay y m d Hm Hd) as (HY & HM & _).
  fold (day_of y m d) in HY, HM.
  assert (JS.Day (JS.MakeDate (day_of y m d) 0 + off) = day_of y m d) as HD.
  { replace (JS.MakeDate (day_of y m d) 0 + off) with (JS.MakeDate (day_of y m d) off)
      by (unfold JS.MakeDate; lia).
    apply Day_MakeDate. exact Hoff. }
  destruct (fields_by_day _ _ HD) as (-> & -> & _).
  rewrite HY, HM. reflexivity.
Qed.

(** X15.  On a host at a fixed offset at or east of UTC, the MONTH filter
    keeps a record whose date is a date-only text exactly when the year and
    the month it names are the local year and month of today. *)
Theorem month_is_the_calendar_month_east_of_utc (off now : Z) (exp : Expense.t) (y m d : Z) :
  0 <= off < JS.msPerDay ->
  Screen.no_date exp = false ->
  JS.date_only (Screen.date_text exp) = Some (y, m, d) ->
  Screen.in_month (JS.fixed_offset_host off) (Some now) exp
  = (y =? JS.YearFromTime (now + off)) && (m - 1 =? JS.MonthFromTime (now + off)).
Proof. exact (in_month_east off now exp y m d). Qed.

Lemma day_of_linear y m d k : day_of y m (d + k) = day_of y m d + k.
Proof. unfold day_of, JS.MakeDay. cbv zeta. lia. Qed.

Lemma in_month_west_later_days off now exp y m d :
  - JS.msPerDay < off < 0 ->
  Screen.no_date exp = false ->
  JS.date_only (Screen.date_text exp) = Some (y, m, d) ->
  2 <= d ->
  Screen.in_month (JS.fixed_offset_host off) (Some now) exp
  = (y =? JS.YearFromTime (now + off)) && (m - 1 =? JS.MonthFromTime (now + off)).
Proof.
  intros Hoff Hnd Hdo H2. rewrite (in_month_by_day off now exp y m d Hnd Hdo).
  destruct (date_only_range _ _ _ _ Hdo) as (Hy & Hm & Hd).
  destruct (fields_of_MakeDay y m (d - 1) Hm ltac:(lia)) as (HY & HM & _).
  fold (day_of y m (d - 1)) in HY, HM.
  assert (JS.Day (JS.MakeDate (day_of y m d) 0 + off) = day_of y m (d - 1)) as HD.
  { replace (JS.MakeDate (day_of y m d) 0 + off)
      with (JS.MakeDate (day_of y m (d - 1)) (JS.msPerDay + off)).
    - apply Day_MakeDate. lia.
    - replace (d - 1) with (d + -1) by lia. rewrite day_of_linear.
      unfold JS.MakeDate. lia. }
  destruct (fields_by_day _ _ HD) as (-> & -> & _).
  rewrite HY, HM. reflexivity.
Qed.

Lemma in_month_west_first_day off now exp y m :
  - JS.msPerDay < off < 0 ->
  Screen.no_date exp = false ->
  JS.date_only (Screen.date_text exp) = Some (y, m, 1) ->
  y = JS.YearFromTime (now + off) -> m - 1 = JS.MonthFromTime (now + off) ->
  Screen.in_month (JS.fixed_offset_host off) (Some now) exp = false.
Proof.
  intros Hoff Hnd Hdo Hy Hm. rewrite (in_month_by_day off now exp y m 1 Hnd Hdo).
  set (t := JS.MakeDate (day_of y m 1) 0 + off).
  assert (JS.Day t = day_of y m 1 - 1) as HD.
  { subst t. replace (JS.MakeDate (day_of y m 1) 0 + off)
      with (JS.MakeDate (day_of y m 1 - 1) (JS.msPerDay + off))
      by (unfold JS.MakeDate; lia).
    apply Day_MakeDate. lia. }
  rewrite <- Hy, <- Hm.
  destruct (Z.eqb_spec (JS.YearFromTime t) y) as [EY | _]; [| reflexivity].
  destruct (Z.eqb_spec (JS.MonthFromTime t) (m - 1)) as [EM | _]; [| reflexivity].
  exfalso. pose proof (MakeDay_of_fields t 0) as HF.
  rewrite EY, EM, HD, Z.add_0_r in HF. fold (day_of y m (JS.DateFromTime t)) in HF.
  replace (JS.DateFromTime t) with (1 + (JS.DateFromTime t - 1)) in HF at 1 by lia.
  rewrite day_of_linear in HF.
  pose proof (DateFromTime_range t). lia.
Qed.

(** X16.  On a host at a fixed offset west of UTC, a record dated the second
    day of a month or later is in the MONTH filter exactly when its year and
    month are those of today; a record dated the first day of the current
    month is not. *)
Theorem month_loses_its_first_day_west_of_utc (off now : Z) (exp : Expense.t) (y m d : Z) :
  - JS.msPerDay < off < 0 ->
  Screen.no_date exp = false ->
  JS.date_only (Screen.date_text exp) = Some (y, m, d) ->
  (2 <= d ->
   Screen.in_month (JS.fixed_offset_host off) (Some now) exp
   = (y =? JS.YearFromTime (now + off)) && (m - 1 =? JS.MonthFromTime (now + off)))
  /\ (d = 1 -> y = JS.YearFromTime (now + off) -> m - 1 = JS.MonthFromTime (now + off) ->
      Screen.in_month (JS.fixed_offset_host off) (Some now) exp = false).
Proof.
  intros Hoff Hnd Hdo. split.
  - intros H2. apply (in_month_west_later_days off now exp y m d); assumption.
  - intros -> Hy Hm. apply (in_month_west_first_day off now exp y m); assumption.
Qed.

(** ** The text of today *)

Lemma today_text host now :
  Screen.getTodayString host (Some now)
  = String.append (JS.string_of_integer (JS.YearFromTime (JS.LocalTime host now)))
      (String.append "-"
         (String.append
            (JS.padStart0 2 (JS.string_of_integer (JS.MonthFromTime (JS.LocalTime host now) + 1)))
            (String.append "-"
               (JS.padStart0 2 (JS.string_of_integer (JS.DateFromTime (JS.LocalTime host now))))))).
Proof. reflexivity. Qed.

Lemma today_date_only host now :
  1000 <= JS.YearFromTime (JS.LocalTime host now) <= 9999 ->
  String.length (Screen.getTodayString host (Some now)) = 10%nat
  /\ JS.date_only (Screen.getTodayString host (Some now))
     = Some (JS.YearFromTime (JS.LocalTime host now),
             JS.MonthFromTime (JS.LocalTime host now) + 1,
             JS.DateFromTime (JS.LocalTime host now)).
Proof.
  intros Hy. rewrite today_text.
  pose proof (MonthFromTime_range (JS.LocalTime host now)).
  exact (date_only_of_text (JS.YearFromTime (JS.LocalTime host now))
           (JS.MonthFromTime (JS.LocalTime host now) + 1)
           (JS.DateFromTime (JS.LocalTime host now))
           Hy ltac:(lia) (DateFromTime_range (JS.LocalTime host now))).
Qed.

Lemma day_of_today t :
  day_of (JS.YearFromTime t) (JS.MonthFromTime t + 1) (JS.DateFromTime t) = JS.Day t.
Proof.
  unfold day_of. replace (JS.MonthFromTime t + 1 - 1) with (JS.MonthFromTime t) by lia.
  pose proof (MakeDay_of_fields t 0) as H. rewrite !Z.add_0_r in H. exact H.
Qed.

(** X17.  In the local years 1000 to 9999, on every host, the text
    [getTodayString] builds has ten characters, is the date-only form of
    the local year, month and day, and [new Date] reads it as midnight UTC
    of that calendar day. *)
Theorem today_string_reads_back_as_today (host : JS.Host) (now : Z) :
  1000 <= JS.YearFromTime (JS.LocalTime host now) <= 9999 ->
  String.length (Screen.getTodayString host (Some now)) = 10%nat
  /\ JS.date_only (Screen.getTodayString host (Some now))
     = Some (JS.YearFromTime (JS.LocalTime host now),
             JS.MonthFromTime (JS.LocalTime host now) + 1,
             JS.DateFromTime (JS.LocalTime host now))
  /\ JS.Date_of_string host (Screen.getTodayString host (Some now))
     = Some (JS.MakeDate (JS.Day (JS.LocalTime host now)) 0).
Proof.
  intros Hy. destruct (today_date_only host now Hy) as [Hl Hd].
  split; [exact Hl |]. split; [exact Hd |].
  rewrite (Date_of_date_only host _ _ _ _ Hd), day_of_today. reflexivity.
Qed.

Lemma today_string_reads_back_as_today_witness :
  String.length (Screen.getTodayString utc_minus_5 (Some noon_2024_03_15)) = 10%nat
  /\ JS.date_only (Screen.getTodayString utc_minus_5 (Some noon_2024_03_15))
     = Some (JS.YearFromTime (JS.LocalTime utc_minus_5 noon_2024_03_15),
             JS.MonthFromTime (JS.LocalTime utc_minus_5 noon_2024_03_15) + 1,
             JS.DateFromTime (JS.LocalTime utc_minus_5 noon_2024_03_15))
  /\ JS.Date_of_string utc_minus_5 (Screen.getTodayString utc_minus_5 (Some noon_2024_03_15))
     = Some (JS.MakeDate (JS.Day (JS.LocalTime utc_minus_5 noon_2024_03_15)) 0).
Proof.
  apply (today_string_reads_back_as_today utc_minus_5 noon_2024_03_15).
  vm_compute. split; discriminate.
Defined.

(** ** A record stamped today *)

Lemma year_range_bound t :
  0 <= JS.YearFromTime t <= 9999 -> Z.abs t <= 8000000000000000 - 86400000.
Proof.
  intros Hy. pose proof (YearFromTime_spec t) as Hs.
  pose proof (DayFromYear_bounds (JS.YearFromTime t) ltac:(lia)).
  pose proof (DayFromYear_bounds (JS.YearFromTime t + 1) ltac:(lia)).
  assert (-719528 <= JS.Day t <= 2932896) as Hd by lia.
  clear - Hd. unfold JS.Day, JS.msPerDay in Hd. Z.div_mod_to_equations. lia.
Qed.

Lemma stamped_today off now exp :
  1000 <= JS.YearFromTime (now + off) <= 9999 ->
  Expense.date exp = Some (Screen.getTodayString (JS.fixed_offset_host off) (Some now)) ->
  Screen.no_date exp = false
  /\ JS.date_only (Screen.date_text exp)
     = Some (JS.YearFromTime (now + off), JS.MonthFromTime (now + off) + 1,
             JS.DateFromTime (now + off)).
Proof.
  intros Hy He.
  destruct (today_date_only (JS.fixed_offset_host off) now Hy) as [Hl Hd].
  unfold Screen.no_date, Screen.date_text. rewrite He. split; [| exact Hd].
  destruct (Screen.getTodayString (JS.fixed_offset_host off) (Some now));
    [discriminate Hl | reflexivity].
Qed.

(** X18.  On a host at a fixed offset at or east of UTC, in the years 1000 to
    9999, a record whose date is the text of today passes the MONTH filter
    and the WEEK filter at that moment. *)
Theorem record_stamped_today_is_shown_east_of_utc (off now : Z) (exp : Expense.t) :
  0 <= off < JS.msPerDay ->
  1000 <= JS.YearFromTime (now + off) <= 9999 ->
  Expense.date exp = Some (Screen.getTodayString (JS.fixed_offset_host off) (Some now)) ->
  Screen.in_month (JS.fixed_offset_host off) (Some now) exp = true
  /\ Screen.in_week (JS.fixed_offset_host off) (Some now) exp = true.
Proof.
  intros Hoff Hy He. destruct (stamped_today off now exp Hy He) as [Hnd Hdo].
  pose proof (year_range_bound (now + off) ltac:(lia)) as Hb. split.
  - rewrite (in_month_east off now exp _ _ _ Hoff Hnd Hdo).
    rewrite Z.eqb_refl.
    replace (JS.MonthFromTime (now + off) + 1 - 1) with (JS.MonthFromTime (now + off)) by lia.
    rewrite Z.eqb_refl. reflexivity.
  - rewrite (in_week_east off now exp _ _ _ Hoff ltac:(unfold JS.msPerDay in *; lia) Hnd Hdo).
    rewrite day_of_today. pose proof (WeekDay_range (now + off)).
    unfold local_sunday.
    destruct (Z.leb_spec (JS.Day (now + off) - JS.WeekDay (now + off)) (JS.Day (now + off)));
      [| lia].
    destruct (Z.leb_spec (JS.Day (now + off))
                (JS.Day (now + off) - JS.WeekDay (now + off) + 6)); [reflexivity | lia].
Qed.

Lemma record_stamped_today_is_shown_east_of_utc_witness :
  let exp := dated 1 (Screen.getTodayString utc (Some noon_2024_03_15)) in
  Screen.in_month utc (Some noon_2024_03_15) exp = true
  /\ Screen.in_week utc (Some noon_2024_03_15) exp = true.
Proof.
  apply (record_stamped_today_is_shown_east_of_utc 0 noon_2024_03_15
           (dated 1 (Screen.getTodayString utc (Some noon_2024_03_15)))).
  - unfold JS.msPerDay. lia.
  - vm_compute. split; discriminate.
  - reflexivity.
Defined.

(** X19.  On a host at a fixed offset west of UTC, in the years 1000 to 9999,
    a record whose date is the text of today passes the MONTH filter except
    on the first day of a month, and the WEEK filter except on a Sunday. *)
Theorem record_stamped_today_west_of_utc (off now : Z) (exp : Expense.t) :
  - JS.msPerDay < off < 0 ->
  1000 <= JS.YearFromTime (now + off) <= 9999 ->
  Expense.date exp = Some (Screen.getTodayString (JS.fixed_offset_host off) (Some now)) ->
  Screen.in_month (JS.fixed_offset_host off) (Some now) exp
    = negb (JS.DateFromTime (now + off) =? 1)
  /\ Screen.in_week (JS.fixed_offset_host off) (Some now) exp
     = negb (JS.WeekDay (now + off) =? 0).
Proof.
  intros Hoff Hy He. destruct (stamped_today off now exp Hy He) as [Hnd Hdo].
  pose proof (year_range_bound (now + off) ltac:(lia)) as Hb. split.
  - pose proof (DateFromTime_range (now + off)) as Hr.
    destruct (Z.eqb_spec (JS.DateFromTime (now + off)) 1) as [E | E]; cbn [negb].
    + rewrite E in Hdo.
      apply (in_month_west_first_day off now exp _ _ Hoff Hnd Hdo); [reflexivity | lia].
    + rewrite (in_month_west_later_days off now exp _ _ _ Hoff Hnd Hdo ltac:(lia)).
      rewrite Z.eqb_refl.
      replace (JS.MonthFromTime (now + off) + 1 - 1) with (JS.MonthFromTime (now + off)) by lia.
      rewrite Z.eqb_refl. reflexivity.
  - rewrite (in_week_west off now exp _ _ _ Hoff ltac:(unfold JS.msPerDay in *; lia) Hnd Hdo).
    rewrite day_of_today. pose proof (WeekDay_range (now + off)).
    unfold local_sunday.
    destruct (Z.eqb_spec (JS.WeekDay (now + off)) 0) as [E | E]; cbn [negb].
    + destruct (Z.leb_spec (JS.Day (now + off) - JS.WeekDay (now + off) + 1)
                  (JS.Day (now + off))); [lia | reflexivity].
    + destruct (Z.leb_spec (JS.Day (now + off) - JS.WeekDay (now + off) + 1)
                  (JS.Day (now + off))); [| lia].
      destruct (Z.leb_spec (JS.Day (now + off))
                  (JS.Day (now + off) - JS.WeekDay (now + off) + 7)); [reflexivity | lia].
Qed.

Lemma record_stamped_today_west_of_utc_witness :
  let exp := dated 1 (Screen.getTodayString utc_minus_5 (Some noon_2024_09_01_minus_5)) in
  Screen.in_month utc_minus_5 (Some noon_2024_09_01_minus_5) exp
    = negb (JS.DateFromTime (noon_2024_09_01_minus_5 + -18000000) =? 1)
  /\ Screen.in_week utc_minus_5 (Some noon_2024_09_01_minus_5) exp
     = negb (JS.WeekDay (noon_2024_09_01_minus_5 + -18000000) =? 0).
Proof.
  apply (record_stamped_today_west_of_utc (-18000000) noon_2024_09_01_minus_5
           (dated 1 (Screen.getTodayString utc_minus_5 (Some noon_2024_09_01_minus_5)))).
  - unfold JS.msPerDay. lia.
  - vm_compute. split; discriminate.
  - reflexivity.
Defined.

Example added_on_sunday_the_first_behind_utc :
  let exp := dated 1 (Screen.getTodayString utc_minus_5 (Some noon_2024_09_01_minus_5)) in
  Expense.date exp = Some "2024-09-01"
  /\ Screen.getFilteredExpenses utc_minus_5 MONTH [exp] (Some noon_2024_09_01_minus_5) = []
  /\ Screen.getFilteredExpenses utc_minus_5 WEEK [exp] (Some noon_2024_09_01_minus_5) = [].
Proof. vm_compute. auto. Qed.

Lemma week_is_sunday_to_saturday_east_of_utc_witness :
  (JS.YearFromTime (JS.MakeDate (day_of 2024 3 10) 0) = 2024
   /\ JS.MonthFromTime (JS.MakeDate (day_of 2024 3 10) 0) = 3 - 1
   /\ JS.DateFromTime (JS.MakeDate (day_of 2024 3 10) 0) = 10)
  /\ JS.WeekDay (JS.MakeDate (local_sunday 0 noon_2024_03_15) 0) = 0
  /\ local_sunday 0 noon_2024_03_15 <= JS.Day (noon_2024_03_15 + 0)
       <= local_sunday 0 noon_2024_03_15 + 6
  /\ Screen.in_week (JS.fixed_offset_host 0) (Some noon_2024_03_15) (dated 1 "2024-03-10")
     = (local_sunday 0 noon_2024_03_15 <=? day_of 2024 3 10)
       && (day_of 2024 3 10 <=? local_sunday 0 noon_2024_03_15 + 6).
Proof.
  apply (week_is_sunday_to_saturday_east_of_utc 0 noon_2024_03_15 (dated 1 "2024-03-10")
           2024 3 10).
  - unfold JS.msPerDay. lia.
  - unfold noon_2024_03_15. lia.
  - reflexivity.
  - reflexivity.
Defined.

Lemma week_is_monday_to_sunday_west_of_utc_witness :
  (JS.YearFromTime (JS.MakeDate (day_of 2024 3 10) 0) = 2024
   /\ JS.MonthFromTime (JS.MakeDate (day_of 2024 3 10) 0) = 3 - 1
   /\ JS.DateFromTime (JS.MakeDate (day_of 2024 3 10) 0) = 10)
  /\ JS.WeekDay (JS.MakeDate (local_sunday (-18000000) (noon_2024_03_15 + 18000000)) 0) = 0
  /\ local_sunday (-18000000) (noon_2024_03_15 + 18000000)
       <= JS.Day (noon_2024_03_15 + 18000000 + -18000000)
       <= local_sunday (-18000000) (noon_2024_03_15 + 18000000) + 6
  /\ Screen.in_week (JS.fixed_offset_host (-18000000)) (Some (noon_2024_03_15 + 18000000))
       (dated 1 "2024-03-10")
     = (local_sunday (-18000000) (noon_2024_03_15 + 18000000) + 1 <=? day_of 2024 3 10)
       && (day_of 2024 3 10 <=? local_sunday (-18000000) (noon_2024_03_15 + 18000000) + 7).
Proof.
  apply (week_is_monday_to_sunday_west_of_utc (-18000000) (noon_2024_03_15 + 18000000)
           (dated 1 "2024-03-10") 2024 3 10).
  - unfold JS.msPerDay. lia.
  - unfold noon_2024_03_15. lia.
  - reflexivity.
  - reflexivity.
Defined.

Lemma month_is_the_calendar_month_east_of_utc_witness :
  Screen.in_month (JS.fixed_offset_host 0) (Some noon_2024_03_15) (dated 1 "2024-03-01")
  = (2024 =? JS.YearFromTime (noon_2024_03_15 + 0))
    && (3 - 1 =? JS.MonthFromTime (noon_2024_03_15 + 0)).
Proof.
  apply (month_is_the_calendar_month_east_of_utc 0 noon_2024_03_15 (dated 1 "2024-03-01")
           2024 3 1).
  - unfold JS.msPerDay. lia.
  - reflexivity.
  - reflexivity.
Defined.

Lemma month_loses_its_first_day_west_of_utc_witness :
  (2 <= 1 ->
   Screen.in_month (JS.fixed_offset_host (-18000000)) (Some (noon_2024_03_15 + 18000000))
     (dated 1 "2024-03-01")
   = (2024 =? JS.YearFromTime (noon_2024_03_15 + 18000000 + -18000000))
     && (3 - 1 =? JS.MonthFromTime (noon_2024_03_15 + 18000000 + -18000000)))
  /\ (1 = 1 -> 2024 = JS.YearFromTime (noon_2024_03_15 + 18000000 + -18000000) ->
      3 - 1 = JS.MonthFromTime (noon_2024_03_15 + 18000000 + -18000000) ->
      Screen.in_month (JS.fixed_offset_host (-18000000)) (Some (noon_2024_03_15 + 18000000))
        (dated 1 "2024-03-01") = false).
Proof.
  apply (month_loses_its_first_day_west_of_utc (-18000000) (noon_2024_03_15 + 18000000)
           (dated 1 "2024-03-01") 2024 3 1).
  - unfold JS.msPerDay. lia.
  - reflexivity.
  - reflexivity.
Defined.

Example first_of_march_behind_utc :
  Screen.getFilteredExpenses utc_minus_5 MONTH
    [dated 1 "2024-03-01"; dated 2 "2024-03-02"; dated 3 "2024-04-01"]
    (Some (noon_2024_03_15 + 18000000))
  = [dated 2 "2024-03-02"; dated 3 "2024-04-01"].
Proof. vm_compute. reflexivity. Qed.

(* ================================================================== *)
(** * Part XV: what every reachable world keeps                       *)
(* ================================================================== *)

(** ** Trimming *)

Lemma trimEnd_idempotent s : JS.trimEnd (JS.trimEnd s) = JS.trimEnd s.
Proof.
  induction s as [| c r IH]; [reflexivity |].
  cbn [JS.trimEnd]. destruct (JS.trimEnd r) as [| c' t] eqn:E.
  - destruct (JS.is_white_space c) eqn:Ec; [reflexivity |].
    cbn [JS.trimEnd]. rewrite Ec. reflexivity.
  - cbn [JS.trimEnd] in *. rewrite IH. reflexivity.
Qed.

Lemma trimEnd_keeps_head c r :
  JS.is_white_space c = false -> exists t, JS.trimEnd (String c r) = String c t.
Proof.
  intros H. cbn [JS.trimEnd]. destruct (JS.trimEnd r); rewrite ?H; eexists; reflexivity.
Qed.

Lemma trim_idempotent s : JS.trim (JS.trim s) = JS.trim s.
Proof.
  unfold JS.trim. pose proof (trimStart_head s) as H.
  destruct (JS.trimStart s) as [| c r]; [reflexivity |].
  destruct (trimEnd_keeps_head c r H) as [t Et].
  rewrite Et. cbn [JS.trimStart]. rewrite H, <- Et. apply trimEnd_idempotent.
Qed.

(** ** Numbers above zero *)

Lemma guard_passed_positive (x : JS.number) :
  JS.isNaN x || PrimFloat.leb x PrimFloat.zero = false ->
  PrimFloat.ltb PrimFloat.zero x = true.
Proof.
  intros H. apply orb_false_iff in H. destruct H as [Hn Hl].
  unfold JS.isNaN, PrimFloat.is_nan in Hn.
  rewrite eqb_spec in Hn. rewrite leb_spec, Prim2SF_zero in Hl.
  rewrite ltb_spec, Prim2SF_zero.
  destruct (Prim2SF x) as [s | s | | s m e]; cbn in *.
  - discriminate.
  - destruct s; [discriminate | reflexivity].
  - discriminate.
  - destruct s; [discriminate | reflexivity].
Qed.

(** ** What an event can do to the table and the list *)

Lemma accepted_values amount_text category_text v :
  Spec.validate amount_text category_text = inr v ->
  PrimFloat.ltb PrimFloat.zero (JS.parseFloat amount_text) = true
  /\ JS.trim category_text <> "".
Proof.
  intros Hv. destruct (validate_accepted_cases _ _ _ Hv) as (Hg & Ht & _ & _).
  split; [apply guard_passed_positive, Hg |].
  intros E. rewrite E in Ht. discriminate.
Qed.

(** The table after an event is the table before it, or the result of a
    statement an accepted save or a delete issued; the list after it is the
    list before it, the content of the table, or empty. *)
Lemma step_outcome revision host NumberToString ev w :
  let w' := App.step revision host NumberToString ev w in
  ((rows (db w') = rows (db w) /\ State.expenses (ui w') = State.expenses (ui w))
   \/ ((db w' = db w
        \/ (db w' = execute (save_statement host (ui w) (clock w)) (db w)
            /\ exists v, Spec.validate (State.amount (ui w)) (State.category (ui w)) = inr v)
        \/ exists k, db w' = execute (DELETE k) (db w))
       /\ (State.expenses (ui w') = select_all (db w') \/ State.expenses (ui w') = []))).
Proof.
  cbn zeta. destruct ev; cbn [App.step]; try solve [left; split; reflexivity].
  - destruct (Spec.validate (State.amount (ui w)) (State.category (ui w))) as [r | v] eqn:Hv.
    + left.
      destruct (save_without_effect revision host w (or_intror (ex_intro _ r Hv))) as [-> ->].
      split; reflexivity.
    + destruct (save_outcome revision host w) as [(E1 & _ & E3) | (E1 & E2 & _)].
      * left. rewrite E1, E3. split; reflexivity.
      * right. split; [| left; exact E2].
        right. left. split; [exact E1 | exists v; reflexivity].
  - destruct (nth_error (App.rendered host w) row) as [item |]; [| left; split; reflexivity].
    destruct (delete_outcome revision w (Expense.id item)) as [_ [(E1 & E2) | (E1 & E2)]].
    + left. rewrite E1, E2. split; reflexivity.
    + right. split; [| left; exact E2]. right. right. exists (Expense.id item). exact E1.
  - destruct (nth_error (App.rendered host w) row) as [item |]; [| left; split; reflexivity].
    destruct (startEdit_outcome revision NumberToString item w) as (_ & E2 & E3).
    left. rewrite E2, E3. split; reflexivity.
  - destruct (setup_outcome revision (App.unmounted w)) as (_ & E2 & _ & E3).
    right. rewrite E2. cbn [App.unmounted db]. split; [left; reflexivity |].
    destruct E3 as [-> | ->]; [right; reflexivity | left; reflexivity].
Qed.

Lemma step_list_is_current revision host NumberToString ev w :
  list_is_current w -> list_is_current (App.step revision host NumberToString ev w).
Proof.
  intros H. unfold list_is_current in *.
  destruct (step_outcome revision host NumberToString ev w) as [(Er & El) | (_ & El)].
  - rewrite El. unfold select_all. rewrite Er. exact H.
  - exact El.
Qed.

Lemma reachable_list_is_current revision host NumberToString w :
  App.reachable revision host NumberToString w -> list_is_current w.
Proof.
  induction 1 as [now | ev w _ IH]; [left; reflexivity | apply step_list_is_current, IH].
Qed.

(** X20.  In every world the screen can reach, in either revision, the list
    on screen is the content of the table, the highest id first, or it is
    empty: it never shows a row that is gone or an old version of a row.
    (The database comes and goes between the calls of the handlers, not
    within one: a reload that follows a statement finds it as the statement
    did.) *)
Theorem list_shows_the_table_or_nothing (revision : Revision) (host : JS.Host)
    (NumberToString : JS.number -> string) (w : World) :
  App.reachable revision host NumberToString w ->
  State.expenses (ui w) = select_all (db w) \/ State.expenses (ui w) = [].
Proof. apply reachable_list_is_current. Qed.

Lemma list_shows_the_table_or_nothing_witness :
  let w := run Part000Js utc sample_NumberToString edit_after_five_days
             (fresh_world noon_2024_03_15) in
  State.expenses (ui w) = select_all (db w) \/ State.expenses (ui w) = [].
Proof.
  apply (list_shows_the_table_or_nothing Part000Js utc sample_NumberToString
           (run Part000Js utc sample_NumberToString edit_after_five_days
              (fresh_world noon_2024_03_15))).
  apply reachable_run, App.reachable_launch.
Defined.

(** ** Only validated records are stored *)

Lemma note_or_null_validated s :
  match Screen.note_or_null (JS.trim s) with
  | None => True
  | Some n => JS.trim n = n /\ n <> ""
  end.
Proof.
  unfold Screen.note_or_null. destruct (JS.trim s) eqn:E; cbn [JS.truthy_string]; [exact I |].
  rewrite <- E. split; [apply trim_idempotent | rewrite E; discriminate].
Qed.

Lemma no_date_of_text a c n i d :
  d <> "" -> Screen.no_date (Expense.mk i a c n (Some d)) = false.
Proof. intros H. unfold Screen.no_date. cbn. destruct d; [contradiction | reflexivity]. Qed.

Lemma written_record_validated host s now v i :
  Spec.validate (State.amount s) (State.category s) = inr v ->
  validated (Expense.mk i (JS.parseFloat (State.amount s)) (JS.trim (State.category s))
               (Screen.note_or_null (JS.trim (State.note s)))
               (Some (Screen.date_or_today host
                        (find (Screen.is_edited (State.editingId s)) (State.expenses s))
                        (Some now)))).
Proof.
  intros Hv. destruct (accepted_values _ _ _ Hv) as [Hp Hc].
  unfold validated. cbn [Expense.amount Expense.category Expense.note].
  split; [exact Hp |]. split; [split; [apply trim_idempotent | exact Hc] |].
  split; [apply note_or_null_validated |].
  apply no_date_of_text, date_or_today_nonempty.
Qed.

Lemma save_statement_keeps_validated host s now v d :
  Spec.validate (State.amount s) (State.category s) = inr v ->
  Forall validated (rows d) ->
  Forall validated (rows (execute (save_statement host s now) d)).
Proof.
  intros Hv H. unfold save_statement.
  destruct (State.editingId s) as [i |] eqn:Ei; cbn [execute rows].
  - apply Forall_map. eapply Forall_impl; [| exact H]. intros e He.
    destruct (Expense.id e =? i); [| exact He].
    pose proof (written_record_validated host s now v (Expense.id e) Hv) as Hw.
    rewrite Ei in Hw. exact Hw.
  - apply Forall_app. split; [exact H |]. constructor; [| constructor].
    pose proof (written_record_validated host s now v
                  (Z.max (sequence d) (max_id (rows d)) + 1) Hv) as Hw.
    rewrite Ei in Hw. exact Hw.
Qed.

Lemma step_keeps_validated revision host NumberToString ev w :
  Forall validated (rows (db w)) ->
  Forall validated (rows (db (App.step revision host NumberToString ev w))).
Proof.
  intros H.
  destruct (step_outcome revision host NumberToString ev w)
    as [(-> & _) | ([-> | [(-> & v & Hv) | (k & ->)]] & _)].
  - exact H.
  - exact H.
  - eapply save_statement_keeps_validated; eassumption.
  - cbn [execute rows]. apply Forall_forall. intros e He. apply filter_In in He.
    eapply Forall_forall in H; [exact H | apply He].
Qed.

Lemma reachable_rows_validated revision host NumberToString w :
  App.reachable revision host NumberToString w -> Forall validated (rows (db w)).
Proof.
  induction 1 as [now | ev w _ IH]; [constructor | apply step_keeps_validated, IH].
Qed.

Lemma reachable_list_validated revision host NumberToString w :
  App.reachable revision host NumberToString w -> Forall validated (State.expenses (ui w)).
Proof.
  intros Hr. destruct (reachable_list_is_current _ _ _ _ Hr) as [-> | ->]; [| constructor].
  apply Forall_forall. intros e He. apply select_all_In in He.
  eapply Forall_forall in He; [exact He | eapply reachable_rows_validated, Hr].
Qed.

(** X21.  In every world the screen can reach, every row of the table and of
    the list has an amount above zero, a category that is trimmed and not
    empty, a note that is absent or trimmed and not empty, and a date. *)
Theorem only_validated_records_are_kept (revision : Revision) (host : JS.Host)
    (NumberToString : JS.number -> string) (w : World) (e : Expense.t) :
  App.reachable revision host NumberToString w ->
  In e (rows (db w)) \/ In e (State.expenses (ui w)) ->
  PrimFloat.ltb PrimFloat.zero (Expense.amount e) = true
  /\ (JS.trim (Expense.category e) = Expense.category e /\ Expense.category e <> "")
  /\ match Expense.note e with
     | None => True
     | Some n => JS.trim n = n /\ n <> ""
     end
  /\ Screen.no_date e = false.
Proof.
  intros Hr [He | He].
  - exact (proj1 (Forall_forall _ _) (reachable_rows_validated _ _ _ _ Hr) e He).
  - exact (proj1 (Forall_forall _ _) (reachable_list_validated _ _ _ _ Hr) e He).
Qed.

Lemma only_validated_records_are_kept_witness :
  let w := run Part000Js utc sample_NumberToString edit_after_five_days
             (fresh_world noon_2024_03_15) in
  let e := Expense.mk 1 12.5%float "Food" None (Some "2024-03-15") in
  PrimFloat.ltb PrimFloat.zero (Expense.amount e) = true
  /\ (JS.trim (Expense.category e) = Expense.category e /\ Expense.category e <> "")
  /\ match Expense.note e with
     | None => True
     | Some n => JS.trim n = n /\ n <> ""
     end
  /\ Screen.no_date e = false.
Proof.
  apply (only_validated_records_are_kept Part000Js utc sample_NumberToString
           (run Part000Js utc sample_NumberToString edit_after_five_days
              (fresh_world noon_2024_03_15))
           (Expense.mk 1 12.5%float "Food" None (Some "2024-03-15"))).
  - apply reachable_run, App.reachable_launch.
  - left. vm_compute. left. reflexivity.
Defined.

(** ** Opening a row and saving it as it is *)

Lemma started_edit revision NumberToString item w :
  snd (App.startEditExpense revision NumberToString item w)
  = {| ui := State.mk (State.expenses (ui w)) (NumberToString (Expense.amount item))
                      (Expense.category item)
                      (match Expense.note item with
                       | Some n => if JS.truthy_string n then n else ""
                       | None => ""
                       end)
                      (State.filter (ui w)) (Some (Expense.id item));
       db := db w; clock := clock w; alerts := alerts w; console := console w;
       issued := issued w |}.
Proof. destruct revision; reflexivity. Qed.

Lemma note_text_round_trip (note : option string) :
  match note with None => True | Some n => JS.trim n = n /\ n <> "" end ->
  Screen.note_or_null
    (JS.trim (match note with
              | Some n => if JS.truthy_string n then n else ""
              | None => ""
              end)) = note.
Proof.
  destruct note as [n |]; [| reflexivity].
  intros [Ht Hn]. destruct n as [| c r]; [contradiction |].
  cbn [JS.truthy_string]. rewrite Ht. reflexivity.
Qed.

Lemma date_text_round_trip e :
  Screen.no_date e = false -> Some (Screen.date_text e) = Expense.date e.
Proof.
  unfold Screen.no_date, Screen.date_text. destruct (Expense.date e); [reflexivity | discriminate].
Qed.

Lemma update_to_itself d item :
  NoDup (map Expense.id (rows d)) -> In item (rows d) ->
  Screen.no_date item = false ->
  rows (execute (UPDATE (Expense.amount item) (Expense.category item) (Expense.note item)
                   (Screen.date_text item) (Expense.id item)) d)
  = rows d.
Proof.
  intros Hnd Hin Hdate. cbn [execute rows].
  rewrite <- (map_id (rows d)) at 2. apply map_ext_in.
  intros e He. destruct (Z.eqb_spec (Expense.id e) (Expense.id item)) as [E | _]; [| reflexivity].
  rewrite (unique_by_id _ _ _ Hnd Hin He E).
  rewrite date_text_round_trip by exact Hdate. destruct item; reflexivity.
Qed.

(** X22.  In every world the screen can reach, the database answering:
    pressing a row shown and then saving without touching the form leaves
    the rows of the table and the list as they were and ends the edit,
    provided the decimal text of the row's amount parses back to the
    amount. *)
Theorem reopened_row_saved_untouched revision host NumberToString w n item :
  App.reachable revision host NumberToString w ->
  available (db w) = true ->
  nth_error (App.rendered host w) n = Some item ->
  JS.parseFloat (NumberToString (Expense.amount item)) = Expense.amount item ->
  let opened := App.step revision host NumberToString (App.PressRow n) w in
  let saved := App.step revision host NumberToString App.PressSave opened in
  rows (db saved) = rows (db w)
  /\ State.expenses (ui saved) = State.expenses (ui w)
  /\ editing_state (ui saved) = idle.
Proof.
  intros Hr Ha Hn Hrt. cbn zeta. cbn [App.step]. rewrite Hn.
  pose proof (rendered_listed host w item n Hn) as Hin.
  destruct (reachable_consistent _ _ _ _ Hr) as (Hnd & _).
  assert (State.expenses (ui w) = select_all (db w)) as Hcur.
  { destruct (reachable_list_is_current _ _ _ _ Hr) as [E | E]; [exact E |].
    rewrite E in Hin. contradiction. }
  assert (In item (rows (db w))) as Hrow.
  { apply select_all_In. rewrite <- Hcur. exact Hin. }
  destruct (proj1 (Forall_forall _ _) (reachable_rows_validated _ _ _ _ Hr) item Hrow)
    as (Hp & (Hc1 & Hc2) & Hnote & Hdate).
  set (opened := snd (App.startEditExpense revision NumberToString item w)).
  assert (Eo : opened = snd (App.startEditExpense revision NumberToString item w))
    by reflexivity.
  rewrite started_edit in Eo.
  assert (Spec.validate (State.amount (ui opened)) (State.category (ui opened))
          = inr (Expense.amount item, Expense.category item)) as Hv.
  { rewrite Eo. cbn [ui State.amount State.category].
    rewrite (validate_accepts (NumberToString (Expense.amount item)) (Expense.category item)).
    - rewrite Hrt, Hc1. reflexivity.
    - rewrite Hrt. exact Hp.
    - rewrite Hc1. exact Hc2. }
  assert (available (db opened) = true) as Ha' by (rewrite Eo; exact Ha).
  rewrite (accepted_save_result revision host opened _ Hv Ha').
  assert (save_statement host (ui opened) (clock opened)
          = UPDATE (Expense.amount item) (Expense.category item) (Expense.note item)
                   (Screen.date_text item) (Expense.id item)) as ->.
  { rewrite Eo. unfold save_statement.
    cbn [ui clock State.amount State.category State.note State.editingId State.expenses].
    rewrite Hcur.
    rewrite (find_in_select_all (db w) (Expense.id item) item Hnd
               (find_by_unique_id _ _ Hnd Hrow)).
    rewrite Hrt, Hc1, (note_text_round_trip _ Hnote).
    unfold Screen.date_or_today. rewrite Hdate. reflexivity. }
  cbn [db ui State.expenses editing_state State.editingId State.amount State.category
       State.note].
  assert (db opened = db w) as -> by (rewrite Eo; reflexivity).
  pose proof (update_to_itself (db w) item Hnd Hrow Hdate) as Hsame.
  split; [exact Hsame |]. split; [| reflexivity].
  rewrite Hcur. unfold select_all. rewrite Hsame. reflexivity.
Qed.

Lemma reopened_row_saved_untouched_witness :
  let w := run Part000Js utc sample_NumberToString one_record_added
             (fresh_world noon_2024_03_15) in
  let opened := App.step Part000Js utc sample_NumberToString (App.PressRow 0) w in
  let saved := App.step Part000Js utc sample_NumberToString App.PressSave opened in
  rows (db saved) = rows (db w)
  /\ State.expenses (ui saved) = State.expenses (ui w)
  /\ editing_state (ui saved) = idle.
Proof.
  apply (reopened_row_saved_untouched Part000Js utc sample_NumberToString
           (run Part000Js utc sample_NumberToString one_record_added
              (fresh_world noon_2024_03_15))
           0 (Expense.mk 1 12.5%float "Food" None (Some "2024-03-15"))).
  - apply reachable_run, App.reachable_launch.
  - reflexivity.
  - vm_compute. reflexivity.
  - vm_compute. reflexivity.
Defined.

(* ================================================================== *)
(** * Part XVI: what the screen shows                                 *)
(* ================================================================== *)

Example summary_of_the_example :
  View.summaryLines sample_NumberToString (Screen.categoryTotals example_records)
  = Some ["Food: $19.75"; "Transport: $20.00"].
Proof. vm_compute. reflexivity. Qed.

Example row_of_the_example :
  View.renderExpense sample_NumberToString Part000Js
    (Expense.mk 3 12.5%float "Food" None (Some "2024-03-15"))
  = {| View.key := "3"; View.amountLine := "$12.50"; View.categoryLine := "Food";
       View.noteLine := None; View.dateLine := Some "Date: 2024-03-15" |}.
Proof. vm_compute. reflexivity. Qed.

(** ** The kinds of the values of [categoryTotals] *)

Lemma own_In o k v : JS.own o k = Some v -> In (k, v) o.
Proof.
  induction o as [| [k0 v0] r IH]; simpl; [discriminate |].
  destruct (String.eqb_spec k k0) as [-> | _].
  - intros [= ->]. left. reflexivity.
  - intros H. right. apply IH, H.
Qed.

Lemma In_own o k v : In (k, v) o -> exists v', JS.own o k = Some v'.
Proof.
  induction o as [| [k0 v0] r IH]; simpl; [contradiction |].
  intros [[= -> ->] | H].
  - rewrite String.eqb_refl. eexists. reflexivity.
  - destruct (String.eqb k k0); [eexists; reflexivity | apply IH, H].
Qed.

Lemma Forall_replace (P : string * JS.primitive -> Prop) o k v :
  P (k, v) -> Forall P o -> Forall P (JS.replace o k v).
Proof.
  intros Hk. induction 1 as [| [k0 v0] r H0 Hr IH]; simpl; [constructor |].
  destruct (String.eqb_spec k k0) as [<- | _]; constructor; assumption.
Qed.

Lemma Forall_Put (P : string * JS.primitive -> Prop) o k v :
  P (k, v) -> Forall P o -> Forall P (JS.Put o k v).
Proof.
  intros Hk Ho. unfold JS.Put. destruct (String.eqb k "__proto__"); [exact Ho |].
  destruct (JS.own o k).
  - apply Forall_replace; assumption.
  - apply Forall_app. split; [exact Ho | constructor; [exact Hk | constructor]].
Qed.

Lemma keys_Put_incl o k v x : In x (map fst o) -> In x (map fst (JS.Put o k v)).
Proof.
  intros H. unfold JS.Put. destruct (String.eqb k "__proto__"); [exact H |].
  destruct (JS.own o k).
  - rewrite keys_replace. exact H.
  - rewrite map_app. apply in_or_app. left. exact H.
Qed.

Lemma keys_Put_new o k v :
  String.eqb k "__proto__" = false -> In k (map fst (JS.Put o k v)).
Proof.
  intros H. rewrite (keys_Put o k v H).
  destruct (mem k (map fst o)) eqn:E.
  - unfold mem in E. apply existsb_exists in E. destruct E as (x & Hx & Ex).
    apply String.eqb_eq in Ex. subst x. exact Hx.
  - apply in_or_app. right. left. reflexivity.
Qed.

Lemma kinds_ok_more l e o : kinds_ok l o -> kinds_ok (l ++ [e]) o.
Proof.
  unfold kinds_ok. intros H. eapply Forall_impl; [| exact H].
  intros kv (H1 & H2 & H3). split; [exact H1 |]. split; [| exact H3].
  rewrite map_app. apply in_or_app. left. exact H2.
Qed.

Lemma kinds_own l o k v :
  kinds_ok l o -> JS.own o k = Some v -> is_text v = mem k JS.prototype_methods.
Proof.
  intros H Ho. apply own_In in Ho.
  exact (proj2 (proj2 (proj1 (Forall_forall _ _) H (k, v) Ho))).
Qed.

Lemma Get_by_cases o k :
  String.eqb k "__proto__" = false ->
  JS.Get o k
  = match JS.own o k with
    | Some v => JS.Primitive v
    | None => if mem k JS.prototype_methods then JS.Function k else JS.Undefined
    end.
Proof. intros H. unfold JS.Get, JS.inherited. rewrite H. reflexivity. Qed.

Lemma accumulated_value_kind l o e :
  kinds_ok l o ->
  String.eqb (Screen.bucket e) "__proto__" = false ->
  exists o1 v,
    Screen.accumulate o e = JS.Put o1 (Screen.bucket e) v
    /\ (o1 = o
        \/ (o1 = JS.Put o (Screen.bucket e) (JS.PNumber PrimFloat.zero)
            /\ mem (Screen.bucket e) JS.prototype_methods = false))
    /\ is_text v = mem (Screen.bucket e) JS.prototype_methods.
Proof.
  intros Hk Hp. unfold Screen.accumulate. cbv zeta.
  set (cat := Screen.bucket e) in *.
  rewrite (Get_by_cases o cat Hp).
  destruct (JS.own o cat) as [v |] eqn:Eo.
  - pose proof (kinds_own l o cat v Hk Eo) as Hv.
    destruct v as [x | t]; cbn [is_text] in Hv; cbn [JS.ToBoolean].
    + destruct (JS.truthy_number x); cbn [negb].
      * exists o. eexists. split; [reflexivity |]. split; [left; reflexivity |].
        rewrite (Get_by_cases o cat Hp), Eo. exact Hv.
      * eexists. eexists. split; [reflexivity |].
        split; [right; split; [reflexivity | symmetry; exact Hv] |].
        rewrite (Get_by_cases _ cat Hp), (own_Put o cat _ cat Hp), String.eqb_refl. exact Hv.
    + cbn [negb]. exists o. eexists. split; [reflexivity |]. split; [left; reflexivity |].
      rewrite (Get_by_cases o cat Hp), Eo. exact Hv.
  - destruct (mem cat JS.prototype_methods) eqn:Em; cbn [JS.ToBoolean negb].
    + exists o. eexists. split; [reflexivity |]. split; [left; reflexivity |].
      rewrite (Get_by_cases o cat Hp), Eo, Em. reflexivity.
    + eexists. eexists. split; [reflexivity |].
      split; [right; split; reflexivity |].
      rewrite (Get_by_cases _ cat Hp), (own_Put o cat _ cat Hp), String.eqb_refl. reflexivity.
Qed.

Lemma accumulate_proto o e :
  String.eqb (Screen.bucket e) "__proto__" = true -> Screen.accumulate o e = o.
Proof.
  intros H. unfold Screen.accumulate. cbv zeta. unfold JS.Put. rewrite H.
  destruct (negb _); rewrite ?H; reflexivity.
Qed.

Lemma kinds_ok_accumulate l o e :
  kinds_ok l o -> kinds_ok (l ++ [e]) (Screen.accumulate o e).
Proof.
  intros Hk. destruct (String.eqb (Screen.bucket e) "__proto__") eqn:Hp.
  - rewrite (accumulate_proto o e Hp). apply kinds_ok_more, Hk.
  - destruct (accumulated_value_kind l o e Hk Hp) as (o1 & v & -> & Ho1 & Hv).
    assert (In (Screen.bucket e) (map Screen.bucket (l ++ [e]))) as Hin.
    { rewrite map_app. apply in_or_app. right. left. reflexivity. }
    apply Forall_Put; [cbn [fst snd]; auto |].
    destruct Ho1 as [-> | [-> Hm]]; [apply kinds_ok_more, Hk |].
    apply Forall_Put; [cbn [fst snd is_text] | apply kinds_ok_more, Hk].
    split; [exact Hp |]. split; [exact Hin |]. symmetry. exact Hm.
Qed.

Lemma categoryTotals_kinds l : kinds_ok l (Screen.categoryTotals l).
Proof.
  induction l as [| e r IH] using rev_ind; [constructor |].
  rewrite categoryTotals_snoc. apply kinds_ok_accumulate, IH.
Qed.

Lemma keys_accumulate_incl o e x :
  In x (map fst o) -> In x (map fst (Screen.accumulate o e)).
Proof.
  intros H. unfold Screen.accumulate. cbv zeta.
  apply keys_Put_incl. destruct (negb _); [apply keys_Put_incl |]; exact H.
Qed.

Lemma keys_accumulate_new o e :
  String.eqb (Screen.bucket e) "__proto__" = false ->
  In (Screen.bucket e) (map fst (Screen.accumulate o e)).
Proof. intros H. unfold Screen.accumulate. cbv zeta. apply keys_Put_new, H. Qed.

(** Every bucket other than [__proto__] has a key. *)
Lemma categoryTotals_covers l e :
  In e l -> String.eqb (Screen.bucket e) "__proto__" = false ->
  In (Screen.bucket e) (map fst (Screen.categoryTotals l)).
Proof.
  induction l as [| x r IH] using rev_ind; [contradiction |].
  intros Hin Hp. rewrite categoryTotals_snoc. apply in_app_or in Hin.
  destruct Hin as [Hin | [-> | []]].
  - apply keys_accumulate_incl, IH; assumption.
  - apply keys_accumulate_new, Hp.
Qed.

Lemma method_is_not_proto k :
  mem k JS.prototype_methods = true -> String.eqb k "__proto__" = false.
Proof.
  intros H. destruct (String.eqb_spec k "__proto__") as [-> |]; [| reflexivity].
  vm_compute in H. discriminate.
Qed.

Lemma mem_In k l : mem k l = true <-> In k l.
Proof.
  unfold mem. rewrite existsb_exists. split.
  - intros (x & Hx & E). apply String.eqb_eq in E. subst x. exact Hx.
  - intros H. exists k. split; [exact H | apply String.eqb_refl].
Qed.

(** A text is stored exactly when a record names an inherited method. *)
Lemma text_stored_iff l :
  Exists (fun kv => is_text (snd kv) = true) (Screen.categoryTotals l)
  <-> Exists method_name l.
Proof.
  pose proof (categoryTotals_kinds l) as Hk. split.
  - intros H. apply Exists_exists in H. destruct H as ([k v] & Hin & Ht).
    destruct (proj1 (Forall_forall _ _) Hk (k, v) Hin) as (_ & Hb & Hm).
    cbn [fst snd] in *. apply in_map_iff in Hb. destruct Hb as (e & <- & He).
    apply Exists_exists. exists e. split; [exact He |].
    unfold method_name. apply mem_In. congruence.
  - intros H. apply Exists_exists in H. destruct H as (e & He & Hm).
    unfold method_name in Hm. apply mem_In in Hm.
    pose proof (categoryTotals_covers l e He (method_is_not_proto _ Hm)) as Hc.
    apply in_map_iff in Hc. destruct Hc as ([k v] & Ek & Hin). cbn [fst] in Ek. subst k.
    apply Exists_exists. exists (Screen.bucket e, v). split; [exact Hin |].
    destruct (proj1 (Forall_forall _ _) Hk _ Hin) as (_ & _ & Hv).
    cbn [fst snd] in *. congruence.
Qed.

(** C6, where the code departs from it.  [categoryTotals] keeps its sums in
    a plain object, and its test [!categoryTotals[cat]] for a key not yet
    seen reads what the object inherits: for every list of records, under
    the category of a record that names a method of [Object.prototype]
    ([constructor], [toString], ...) the mapping holds a text, not the sum
    of the amounts.  The form of [part_000] stores such a record as it does
    any other. *)
Theorem subtotal_under_an_inherited_name_is_a_text (l : list Expense.t) (e : Expense.t) :
  In e l ->
  method_name e ->
  exists t, JS.own (Screen.categoryTotals l) (Screen.bucket e) = Some (JS.PString t).
Proof.
  intros He Hm. unfold method_name in Hm. apply mem_In in Hm.
  pose proof (categoryTotals_covers l e He (method_is_not_proto _ Hm)) as Hc.
  apply in_map_iff in Hc. destruct Hc as ([k v] & Ek & Hin). cbn [fst] in Ek. subst k.
  destruct (In_own _ _ _ Hin) as (v' & Hv').
  destruct (proj1 (Forall_forall _ _) (categoryTotals_kinds l) _ (own_In _ _ _ Hv'))
    as (_ & _ & Ht).
  cbn [fst snd] in Ht. rewrite Hm in Ht.
  destruct v' as [x | t]; [discriminate Ht | exists t; exact Hv'].
Qed.

Lemma subtotal_under_an_inherited_name_is_a_text_witness :
  let w := run Part000Js utc sample_NumberToString constructor_saved
             (fresh_world noon_2024_03_15) in
  App.rendered utc w = [Expense.mk 1 4.5%float "constructor" None (Some "2024-03-15")]
  /\ Screen.totalSpending (App.rendered utc w) = 4.5%float
  /\ exists t,
       JS.own (Screen.categoryTotals (App.rendered utc w)) "constructor"
       = Some (JS.PString t).
Proof.
  split; [vm_compute; reflexivity |]. split; [vm_compute; reflexivity |].
  apply (subtotal_under_an_inherited_name_is_a_text
           (App.rendered utc
              (run Part000Js utc sample_NumberToString constructor_saved
                 (fresh_world noon_2024_03_15)))
           (Expense.mk 1 4.5%float "constructor" None (Some "2024-03-15"))).
  - vm_compute. left. reflexivity.
  - vm_compute. tauto.
Defined.

Lemma all_or_thrown_None {A B} (f : A -> option B) (l : list A) :
  View.all_or_thrown (map f l) = None <-> Exists (fun a => f a = None) l.
Proof.
  induction l as [| a r IH]; simpl.
  - split; [discriminate | intros H; inversion H].
  - destruct (f a) as [b |] eqn:E.
    + destruct (View.all_or_thrown (map f r)) as [t |].
      * split; [discriminate |]. intros H. inversion H as [? ? H0 | ? ? H0]; subst.
        -- congruence.
        -- apply IH in H0. discriminate.
      * split; [| reflexivity]. intros _. apply Exists_cons_tl, IH. reflexivity.
    + split; [| reflexivity]. intros _. apply Exists_cons_hd, E.
Qed.

Lemma line_thrown NumberToString kv :
  View.summaryCategoryLine NumberToString kv = None <-> is_text (snd kv) = true.
Proof.
  unfold View.summaryCategoryLine. destruct (snd kv); cbn [is_text];
    split; congruence.
Qed.

Lemma Exists_permutation {A} (P : A -> Prop) (l l' : list A) :
  Permutation l l' -> Exists P l -> Exists P l'.
Proof.
  intros Hp H. apply Exists_exists in H. destruct H as (x & Hx & Px).
  apply Exists_exists. exists x. split; [eapply Permutation_in; eassumption | exact Px].
Qed.

Lemma summaryLines_thrown NumberToString l :
  View.summaryLines NumberToString (Screen.categoryTotals l) = None
  <-> Exists method_name l.
Proof.
  rewrite <- text_stored_iff. unfold View.summaryLines, View.summaryEmpty, JS.keys.
  set (o := Screen.categoryTotals l).
  rewrite length_map.
  split.
  - destruct (List.length (JS.entries o) =? 0)%nat; [discriminate |].
    intros H. apply all_or_thrown_None in H.
    apply (Exists_permutation _ _ _ (entries_permutation o)).
    eapply Exists_impl; [| exact H]. intros kv. apply line_thrown.
  - intros H. apply (Exists_permutation _ _ _ (Permutation_sym (entries_permutation o))) in H.
    destruct (JS.entries o) as [| kv r] eqn:E; [inversion H |].
    cbn [List.length Nat.eqb]. apply all_or_thrown_None.
    eapply Exists_impl; [| exact H]. intros x. apply line_thrown.
Qed.

(** X23.  Rendering throws exactly when a record shown has, as its category,
    the name of a method that every object inherits ([constructor],
    [toString], ...): the value stored under such a key is a text, and the
    summary card calls [toFixed] on it. *)
Theorem render_throws_on_inherited_method_names (NumberToString : JS.number -> string)
    (revision : Revision) (host : JS.Host) (s : State.t) (today : JS.Date) :
  View.render NumberToString revision host s today = None
  <-> Exists (fun e => In (Screen.bucket e) JS.prototype_methods)
        (Screen.getFilteredExpenses host (State.filter s) (State.expenses s) today).
Proof.
  unfold View.render. cbv zeta.
  rewrite <- (summaryLines_thrown NumberToString).
  destruct (View.summaryLines NumberToString _); split; congruence.
Qed.

Example category_named_constructor :
  View.render sample_NumberToString Part000Js utc
    (State.mk [Expense.mk 1 5%float "constructor" None (Some "2024-03-15")]
              "" "" "" ALL None)
    (Some noon_2024_03_15) = None.
Proof. vm_compute. reflexivity. Qed.

(** X24.  The test [Object.keys(categoryTotals).length === 0] of the summary
    card holds exactly when every record shown is filed under [__proto__];
    so it holds when there is no record, and also when all that are shown
    have that category, whatever the total is. *)
Theorem summary_says_no_expenses (l : list Expense.t) :
  View.summaryEmpty (Screen.categoryTotals l) = true
  <-> Forall (fun e => Screen.bucket e = "__proto__") l.
Proof.
  unfold View.summaryEmpty, JS.keys. rewrite length_map.
  set (o := Screen.categoryTotals l).
  assert (List.length (JS.entries o) = List.length o) as ->
    by (apply Permutation_length, entries_permutation).
  split.
  - intros H. apply Nat.eqb_eq in H. apply Forall_forall. intros e He.
    destruct (String.eqb_spec (Screen.bucket e) "__proto__") as [E | E]; [exact E |].
    pose proof (categoryTotals_covers l e He) as Hc. fold o in Hc.
    destruct o; [| discriminate H].
    exfalso. apply Hc. apply String.eqb_neq, E.
  - intros H. pose proof (categoryTotals_kinds l) as Hk. fold o in Hk.
    destruct o as [| [k v] r]; [reflexivity |]. exfalso.
    inversion Hk as [| ? ? (Hp & Hb & _) _]; subst. cbn [fst] in *.
    apply in_map_iff in Hb. destruct Hb as (e & Ee & He).
    rewrite (proj1 (Forall_forall _ _) H e He) in Ee. subst k.
    rewrite String.eqb_refl in Hp. discriminate.
Qed.

Example records_filed_under_proto :
  let l := [Expense.mk 1 5%float "__proto__" None (Some "2024-03-15")] in
  View.summaryLines sample_NumberToString (Screen.categoryTotals l)
    = Some ["No expenses for this range."]
  /\ View.money sample_NumberToString (Screen.totalSpending l) = "$5.00".
Proof. vm_compute. auto. Qed.

(** ** The keys of the list *)

Lemma string_of_integer_injective a b :
  JS.string_of_integer a = JS.string_of_integer b -> a = b.
Proof.
  unfold JS.string_of_integer. intros H.
  assert (Some (Z.to_int a) = Some (Z.to_int b)) as E.
  { rewrite <- !NilEmpty.isi. rewrite H. reflexivity. }
  injection E as E. rewrite <- (DecimalZ.of_to a), <- (DecimalZ.of_to b), E. reflexivity.
Qed.

Lemma NoDup_filter_ids (p : Expense.t -> bool) (l : list Expense.t) :
  NoDup (map Expense.id l) -> NoDup (map Expense.id (List.filter p l)).
Proof.
  induction l as [| e r IH]; simpl; [constructor |].
  intros H. inversion H as [| ? ? Hn Hr]; subst.
  destruct (p e); [| apply IH, Hr].
  simpl. constructor; [| apply IH, Hr].
  intros Hin. apply Hn. apply in_map_iff in Hin. destruct Hin as (x & Ex & Hx).
  apply filter_In in Hx. apply in_map_iff. exists x. split; [exact Ex | apply Hx].
Qed.

Lemma NoDup_map_injective {A B} (f : A -> B) (l : list A) :
  (forall a b, f a = f b -> a = b) -> NoDup l -> NoDup (map f l).
Proof.
  intros Hf. induction 1 as [| a r Hn Hr IH]; simpl; constructor; [| exact IH].
  intros Hin. apply in_map_iff in Hin. destruct Hin as (x & Ex & Hx).
  apply Hf in Ex. subst x. contradiction.
Qed.

Lemma reachable_list_ids revision host NumberToString w :
  App.reachable revision host NumberToString w ->
  NoDup (map Expense.id (State.expenses (ui w))).
Proof.
  intros Hr. destruct (reachable_list_is_current _ _ _ _ Hr) as [-> | ->]; [| constructor].
  destruct (reachable_consistent _ _ _ _ Hr) as (Hnd & _).
  eapply Permutation_NoDup; [| exact Hnd].
  apply Permutation_sym, Permutation_map, select_all_permutation.
Qed.

(** X25.  In every world the screen can reach, under every filter, the keys
    [keyExtractor] gives to the rows of the list are pairwise distinct. *)
Theorem list_keys_are_distinct (revision : Revision) (host : JS.Host)
    (NumberToString : JS.number -> string) (w : World) :
  App.reachable revision host NumberToString w ->
  NoDup (map View.keyExtractor (App.rendered host w)).
Proof.
  intros Hr. unfold View.keyExtractor.
  rewrite <- (map_map Expense.id JS.string_of_integer).
  apply NoDup_map_injective; [apply string_of_integer_injective |].
  pose proof (reachable_list_ids _ _ _ _ Hr) as H.
  unfold App.rendered, Screen.getFilteredExpenses.
  destruct (State.filter (ui w)); [exact H | |]; apply NoDup_filter_ids, H.
Qed.

Lemma list_keys_are_distinct_witness :
  NoDup (map View.keyExtractor
           (App.rendered utc
              (run Part000Js utc sample_NumberToString edit_after_five_days
                 (fresh_world noon_2024_03_15)))).
Proof.
  apply (list_keys_are_distinct Part000Js utc sample_NumberToString
           (run Part000Js utc sample_NumberToString edit_after_five_days
              (fresh_world noon_2024_03_15))).
  apply reachable_run, App.reachable_launch.
Defined.

(** ** The total on screen *)

Lemma totalSpending_unsigned (l : list Expense.t) :
  Forall positive_amount l -> unsigned (Screen.totalSpending l).
Proof.
  intros H. unfold Screen.totalSpending.
  rewrite (totalSpending_from l PrimFloat.zero H).
  apply (sum_of_positive_unsigned l H).
Qed.

Lemma unsigned_not_NaN x : unsigned x -> JS.isNaN x = false.
Proof.
  unfold unsigned, JS.isNaN, PrimFloat.is_nan. rewrite eqb_spec.
  destruct (Prim2SF x) as [s | s | | s m e]; cbn [sf_unsigned]; intros H;
    try contradiction; unfold SFeqb; rewrite ?SFcompare_finite_refl;
    destruct s; try contradiction; reflexivity.
Qed.

(** X26.  In every world the screen can reach, under every filter, the total
    of the summary card is not NaN and not below zero. *)
Theorem total_on_screen_is_a_number (revision : Revision) (host : JS.Host)
    (NumberToString : JS.number -> string) (w : World) :
  App.reachable revision host NumberToString w ->
  JS.isNaN (Screen.totalSpending (App.rendered host w)) = false
  /\ PrimFloat.ltb (Screen.totalSpending (App.rendered host w)) PrimFloat.zero = false.
Proof.
  intros Hr.
  assert (Forall positive_amount (App.rendered host w)) as Hp.
  { apply Forall_forall. intros e He.
    assert (In e (State.expenses (ui w))) as Hin.
    { unfold App.rendered, Screen.getFilteredExpenses in He.
      destruct (State.filter (ui w)); [exact He | |]; apply filter_In in He; apply He. }
    exact (proj1 (proj1 (Forall_forall _ _) (reachable_list_validated _ _ _ _ Hr) e Hin)). }
  pose proof (totalSpending_unsigned _ Hp) as Hu.
  split; [apply unsigned_not_NaN, Hu |].
  unfold unsigned in Hu. rewrite ltb_spec, Prim2SF_zero.
  destruct (Prim2SF (Screen.totalSpending (App.rendered host w))) as [s | s | | s m e];
    cbn in *; try contradiction; destruct s; try contradiction; reflexivity.
Qed.

Lemma total_on_screen_is_a_number_witness :
  let w := run Part000Js utc sample_NumberToString edit_after_five_days
             (fresh_world noon_2024_03_15) in
  JS.isNaN (Screen.totalSpending (App.rendered utc w)) = false
  /\ PrimFloat.ltb (Screen.totalSpending (App.rendered utc w)) PrimFloat.zero = false.
Proof.
  apply (total_on_screen_is_a_number Part000Js utc sample_NumberToString
           (run Part000Js utc sample_NumberToString edit_after_five_days
              (fresh_world noon_2024_03_15))).
  apply reachable_run, App.reachable_launch.
Defined.

(* ================================================================== *)
(** * Part XVII: the two revisions apart                              *)
(* ================================================================== *)

(** ** What [ExpenseScreen.js] can do *)

(** X27.  [ExpenseScreen.js] renders no form and no way to select a row:
    whatever is done with the controls it does render (the filter buttons
    and the delete buttons), while time passes, the database comes and goes
    and the component is mounted again, the form stays empty and idle, the
    statements issued are DELETEs only, and the table gains no row. *)
Theorem ExpenseScreen_screen_only_deletes host NumberToString events w :
  Forall (fun ev => rendered_by ExpenseScreenJs ev = true) events ->
  editing_state (ui w) = idle ->
  let w' := run ExpenseScreenJs host NumberToString events w in
  editing_state (ui w') = idle
  /\ incl (rows (db w')) (rows (db w))
  /\ exists ids, issued w' = issued w ++ map DELETE ids.
Proof.
  intros Hev. revert w. induction Hev as [| ev events Hev _ IH]; intros w Hidle; cbn zeta.
  - split; [exact Hidle |]. split; [apply incl_refl |].
    exists []. cbn. rewrite app_nil_r. reflexivity.
  - cbn [run fold_left].
    destruct (ExpenseScreen_step host NumberToString ev w Hev Hidle) as (H1 & H2 & ids1 & H3).
    destruct (IH _ H1) as (K1 & K2 & ids2 & K3). cbn zeta in *.
    split; [exact K1 |]. split; [eapply incl_tran; eassumption |].
    exists (ids1 ++ ids2). unfold run in K3. rewrite K3, H3, map_app, app_assoc. reflexivity.
Qed.

(** ** The alert of a save in part_000 *)

Lemma part_000_save_alerts host w :
  exists a,
    alerts (press (Part000.handleSaveExpense host) w)
    = alerts w ++ (if saved (ui w) (db w) then [] else [a]).
Proof.
  rewrite saved_validate.
  destruct (Spec.validate (State.amount (ui w)) (State.category (ui w))) as [r | v] eqn:Hv.
  - destruct (Part000_refusal_alerts host (ui w) w r Hv) as (t & m & E & _).
    exists {| title := t; message := m |}. unfold press. rewrite E. reflexivity.
  - destruct (validate_accepted_cases _ _ _ Hv) as (Hg & Ht & Ha & _).
    exists {| title := "Save failed"; message := Part000.save_failed_message |}.
    unfold press, Part000.handleSaveExpense. rewrite Hg, Ht, Ha. cbn [negb].
    unfold Part000.loadExpenses. unfold_async.
    destruct (State.editingId (ui w)); cbn;
      destruct (available (db w)) eqn:Ea; cbn; rewrite ?Ea; cbn;
      rewrite ?app_nil_r; reflexivity.
Qed.

(** X28.  A save in [part_000] writes to the table and raises no alert when
    the input passes the checks and the database answers; in every other case it
    leaves the table as it was and raises exactly one alert. *)
Theorem part_000_save_is_silent_only_on_success (host : JS.Host) (w : World) :
  db (press (Part000.handleSaveExpense host) w)
    = (if saved (ui w) (db w)
       then execute (save_statement host (ui w) (clock w)) (db w)
       else db w)
  /\ exists a,
       alerts (press (Part000.handleSaveExpense host) w)
       = alerts w ++ (if saved (ui w) (db w) then [] else [a]).
Proof.
  split; [| apply part_000_save_alerts].
  rewrite saved_validate.
  destruct (Spec.validate (State.amount (ui w)) (State.category (ui w))) as [r | v] eqn:Hv.
  - apply (save_without_effect Part000Js host w). right. exists r. exact Hv.
  - destruct (Part000_accepted_issues host (ui w) w v Hv) as [_ E].
    unfold press. rewrite E. unfold after_statement.
    destruct (available (db w)); reflexivity.
Qed.

Lemma ExpenseScreen_screen_only_deletes_witness :
  let w := run Part000Js utc sample_NumberToString one_record_added
             (fresh_world noon_2024_03_15) in
  let w' := run ExpenseScreenJs utc sample_NumberToString
              [App.SelectFilter WEEK; App.PressDelete 0; App.Mount] w in
  editing_state (ui w') = idle
  /\ incl (rows (db w')) (rows (db w))
  /\ exists ids, issued w' = issued w ++ map DELETE ids.
Proof.
  apply (ExpenseScreen_screen_only_deletes utc sample_NumberToString
           [App.SelectFilter WEEK; App.PressDelete 0; App.Mount]
           (run Part000Js utc sample_NumberToString one_record_added
              (fresh_world noon_2024_03_15))).
  - repeat constructor.
  - reflexivity.
Defined.
